(** * NexusChat: real-time delivery and presence, checked against the code

    A shallow embedding of the socket gateway ([Backend/socket/handlers.js]),
    the models it uses ([models/Chat.js], [models/Message.js]), the group
    leave route ([Backend/routes/chats.js]) and the client store
    ([Frontend/src/stores/chatStore.ts]).

    Identifiers (Mongo ObjectIds rendered with [toString()], socket ids, room
    names) are strings.  The in-memory [Map]s and the collections of the
    document store are finite maps; arrays are lists. *)

From stdpp Require Import gmap strings list fin_maps pretty.

(* ===================================================================== *)
(** * Part I: the program                                                 *)
(* ===================================================================== *)

(** ** Connection registry and presence ([handlers.js], [onlineUsers]) *)

Module Presence.

Inductive Status := online | offline | away | busy.

(** What a handler asks of the user collection: [User.findByIdAndUpdate]. *)
Inductive Effect :=
| UpdateStatus (userId : string) (status : Status)
| UpdateStatusLastSeen (userId : string) (status : Status).

(** [const onlineUsers = new Map()]: userId -> Set of socket ids. *)
Abbreviation OnlineUsers := (gmap string (gset string)).

Definition newMap : OnlineUsers := ∅.

(** [onlineUsers.has(userId)] *)
Definition has (onlineUsers : OnlineUsers) (userId : string) : bool :=
  bool_decide (is_Some (onlineUsers !! userId)).

(** The part of the [connection] handler that runs before its first
    [await]: [if (!has) set(userId, new Set()); get(userId).add(socket.id)],
    followed by the request to store status [online]. *)
Definition connection (userId socketId : string) (onlineUsers : OnlineUsers)
  : OnlineUsers * list Effect :=
  let m := if has onlineUsers userId then onlineUsers
           else <[userId := ∅]> onlineUsers in
  (alter (λ sockets, sockets ∪ {[socketId]}) userId m,
   [UpdateStatus userId online]).

(** The [disconnect] handler, as far as the registry and the user
    collection go: the socket id leaves the user's set (the set is mutated
    in place, so the map sees it), and an emptied set takes the key with
    it; only then is status [offline] stored.  What the handler then tells
    the user's friends is in [Farewell.disconnect] below. *)
Definition disconnect (userId socketId : string) (onlineUsers : OnlineUsers)
  : OnlineUsers * list Effect :=
  match onlineUsers !! userId with
  | Some userSockets =>
      let userSockets' := userSockets ∖ {[socketId]} in
      let m := <[userId := userSockets']> onlineUsers in
      if bool_decide (size userSockets' = 0)
      then (delete userId m, [UpdateStatusLastSeen userId offline])
      else (m, [])
  | None => (onlineUsers, [])
  end.

(** [isUserOnline: (userId) => onlineUsers.has(userId)] *)
Definition isUserOnline (onlineUsers : OnlineUsers) (userId : string) : bool :=
  has onlineUsers userId.

(** [getOnlineUsers: () => Array.from(onlineUsers.keys())], as a set. *)
Definition getOnlineUsers (onlineUsers : OnlineUsers) : gset string :=
  dom onlineUsers.

(** The socket handles the registry holds for a user. *)
Definition registered (onlineUsers : OnlineUsers) (userId : string) : gset string :=
  default ∅ (onlineUsers !! userId).

(** Runs of the two handlers.  ([Lifecycle] below says when a socket that
    closes gets its run of [disconnect].) *)
Inductive Event :=
| Connect (userId socketId : string)
| Disconnect (userId socketId : string).

Definition step (onlineUsers : OnlineUsers) (e : Event) : OnlineUsers :=
  match e with
  | Connect u s => fst (connection u s onlineUsers)
  | Disconnect u s => fst (disconnect u s onlineUsers)
  end.

(** The registry after a trace of handler runs, from process start. *)
Definition run (trace : list Event) : OnlineUsers := foldl step newMap trace.

(** The sockets a trace of handler runs has registered for the user and
    not taken out since. *)
Definition live_step (userId : string) (live : gset string) (e : Event) : gset string :=
  match e with
  | Connect u s => if bool_decide (u = userId) then live ∪ {[s]} else live
  | Disconnect u s => if bool_decide (u = userId) then live ∖ {[s]} else live
  end.

Definition activeConnections (trace : list Event) (userId : string) : gset string :=
  foldl (live_step userId) ∅ trace.

End Presence.

(** ** The life of a socket ([io.on('connection', async (socket) => ...)])

    The connection handler registers the socket before its first [await].
    Its listener for [disconnect] is attached at the end of the handler,
    after three awaited calls (and not at all when one of them rejects, or
    when [user] comes back [null]).  A socket closes once, and [disconnect]
    goes to the listeners it has at that moment: a socket that closes
    before its listener is attached is never taken out of the registry. *)

Module Lifecycle.

Inductive Event :=
| Opens (userId socketId : string)   (* the handler starts for an accepted socket *)
| Listens (userId socketId : string) (* it reaches [socket.on('disconnect', ...)] *)
| Closes (socketId : string).        (* the socket closes *)

Record State := {
  onlineUsers : Presence.OnlineUsers;
  (* socket id -> the [userId] its [disconnect] listener closes over *)
  listeners : gmap string string;
  (* the sockets that have closed *)
  closed : gset string;
}.

Definition start : State :=
  {| onlineUsers := Presence.newMap; listeners := ∅; closed := ∅ |}.

Definition step (st : State) (e : Event) : State :=
  match e with
  | Opens u s =>
      {| onlineUsers := (Presence.connection u s (onlineUsers st)).1;
         listeners := listeners st; closed := closed st |}
  | Listens u s =>
      {| onlineUsers := onlineUsers st;
         listeners := <[s := u]> (listeners st); closed := closed st |}
  | Closes s =>
      if bool_decide (s ∈ closed st) then st
      else
        {| onlineUsers :=
             match listeners st !! s with
             | Some u => (Presence.disconnect u s (onlineUsers st)).1
             | None => onlineUsers st
             end;
           listeners := listeners st; closed := closed st ∪ {[s]} |}
  end.

(** The gateway after a trace of events, from process start. *)
Definition run (trace : list Event) : State := foldl step start trace.

End Lifecycle.

(** ** JavaScript array and string operations used by the code *)

Module Js.

(** A value that is a string or [undefined]. *)
Definition truthy (v : option string) : bool :=
  match v with
  | Some s => negb (bool_decide (s = ""))
  | None => false
  end.

(** [a || b] *)
Definition or (a b : option string) : option string :=
  if truthy a then a else b.

(** [s.startsWith(p)] *)
Definition startsWith (s p : string) : bool := String.prefix p s.

(** [l.findIndex(f)]; [None] stands for the answer [-1]. *)
Fixpoint findIndex {A} (f : A → bool) (l : list A) : option nat :=
  match l with
  | [] => None
  | x :: l' => if f x then Some 0 else S <$> findIndex f l'
  end.

(** [l.find(f)] *)
Fixpoint find {A} (f : A → bool) (l : list A) : option A :=
  match l with
  | [] => None
  | x :: l' => if f x then Some x else find f l'
  end.

(** [l.splice(i, 1)], the array that remains. *)
Definition splice1 {A} (i : nat) (l : list A) : list A := delete i l.

(** [l.some(f)] *)
Definition some {A} (f : A → bool) (l : list A) : bool := existsb f l.

(** [l.filter((x, i) => f(x, i))] *)
Fixpoint filteri_from {A} (f : A → nat → bool) (i : nat) (l : list A) : list A :=
  match l with
  | [] => []
  | x :: l' => if f x i then x :: filteri_from f (S i) l' else filteri_from f (S i) l'
  end.

Definition filteri {A} (f : A → nat → bool) (l : list A) : list A :=
  filteri_from f 0 l.

(** [l.filter(f)] *)
Definition filter {A} (f : A → bool) (l : list A) : list A := List.filter f l.

(** [[...new Set(l)]]: a [Set] keeps the first insertion of each value. *)
Fixpoint setOf (l : list string) : list string :=
  match l with
  | [] => []
  | x :: l' => x :: filter (λ y, negb (bool_decide (y = x))) (setOf l')
  end.

End Js.

(** ** What the code takes from the Mongoose library

    [castsToObjectId] says which strings a query accepts as an [_id]
    (a query on any other string rejects with a [CastError]).  A string
    that is accepted is cast to an ObjectId before anything is compared or
    stored, and [objectId s] is that ObjectId, rendered like every stored
    id ([toString()]): a client may spell an id in more than one way, the
    store knows one.  [trim] is the setter that [trim: true] puts on a
    [String] path. *)

Class Mongoose := {
  castsToObjectId : string → bool;
  objectId : string → string;
  trim : string → string;
}.

(** The answer of an awaited [findById]: a document, [null], or a rejected
    promise. *)
Inductive Lookup (A : Type) :=
| Found (doc : A)
| Null
| Rejected.
Arguments Found {A} doc.
Arguments Null {A}.
Arguments Rejected {A}.

(** ** [models/Chat.js] *)

Module Chat.

Inductive Type_ := private | group.

#[global] Instance chat_type_eq_dec : EqDecision Type_.
Proof. solve_decision. Defined.

Record t := {
  type : Type_;
  name : string;
  participants : list string;
  admins : list string;
  lastMessage : option string;
}.

(** [participants.some(p => p._id?.toString() === userId.toString() ||
    p.toString() === userId.toString())]: on the unpopulated array both
    sides of the [||] compare the same ObjectId. *)
Definition isParticipant (chat : t) (userId : string) : bool :=
  Js.some (λ p, bool_decide (p = userId) || bool_decide (p = userId))
          (participants chat).

Definition isAdmin (chat : t) (userId : string) : bool :=
  Js.some (λ a, bool_decide (a = userId) || bool_decide (a = userId))
          (admins chat).

Definition with_members (chat : t) (ps ads : list string) : t :=
  {| type := type chat; name := name chat; participants := ps;
     admins := ads; lastMessage := lastMessage chat |}.

End Chat.

(** ** [models/Message.js] *)

Module Message.

Inductive Type_ := text | image | video | document | voice | system.
Inductive Status := sent | delivered | seen.

Record Reaction := { emoji : string; user : string }.
Record Read := { reader : string; readAt : Z }.
Record Attachment := {
  url : string; publicId : option string; fileName : string;
  mime : string; size : Z;
}.

(** [content] is not a required path: the empty string also stands for a
    missing content, the two being alike falsy. *)
Record t := {
  chat : string;
  sender : string;
  content : string;
  type : Type_;
  status : Status;
  readBy : list Read;
  reactions : list Reaction;
  replyTo : option string;
  isEdited : bool;
  editedAt : option Z;
  isDeleted : bool;
  attachments : list Attachment;
}.

#[global] Instance message_type_eq_dec : EqDecision Type_.
Proof. solve_decision. Defined.
#[global] Instance message_status_eq_dec : EqDecision Status.
Proof. solve_decision. Defined.
#[global] Instance reaction_eq_dec : EqDecision Reaction.
Proof. solve_decision. Defined.
#[global] Instance read_eq_dec : EqDecision Read.
Proof. solve_decision. Defined.

(** [messageSchema.pre('save', ...)]: a message needs content or
    attachments unless it is a system message. *)
Definition preSave (m : t) : bool :=
  negb (negb (Js.truthy (Some (content m)))
        && bool_decide (length (attachments m) = 0)
        && negb (bool_decide (type m = system))).

(** The validators the schema declares on the paths the gateway writes:
    [maxlength: 5000] on [content], [required] on a reaction's [emoji]. *)
Definition validators (m : t) : bool :=
  bool_decide (String.length (content m) ≤ 5000)
  && forallb (λ r, Js.truthy (Some (emoji r))) (reactions m).

(** [await message.save()]: [None] when validation or the hook rejects. *)
Definition save (id : string) (m : t) (messages : gmap string t)
  : option (gmap string t) :=
  if validators m && preSave m then Some (<[id := m]> messages) else None.

(** [message.content = content; message.isEdited = true;
    message.editedAt = new Date()] *)
Definition edited `{Mongoose} (m : t) (newContent : string) (now : Z) : t :=
  {| chat := chat m; sender := sender m; content := trim newContent;
     type := type m; status := status m; readBy := readBy m;
     reactions := reactions m; replyTo := replyTo m; isEdited := true;
     editedAt := Some now; isDeleted := isDeleted m;
     attachments := attachments m |}.

Definition with_reactions (m : t) (rs : list Reaction) : t :=
  {| chat := chat m; sender := sender m; content := content m;
     type := type m; status := status m; readBy := readBy m;
     reactions := rs; replyTo := replyTo m; isEdited := isEdited m;
     editedAt := editedAt m; isDeleted := isDeleted m;
     attachments := attachments m |}.

(** [$addToSet: { readBy: r }].  [readBy] is an array of subdocuments: the
    cast gives the new element an [_id] of its own (not kept here), so it
    equals no element of the array and is always added. *)
Definition addToSet (r : Read) (l : list Read) : list Read := l ++ [r].

(** [{ $addToSet: { readBy: { user, readAt } }, status: 'seen' }] *)
Definition read_by (m : t) (userId : string) (now : Z) : t :=
  {| chat := chat m; sender := sender m; content := content m;
     type := type m; status := seen;
     readBy := addToSet {| reader := userId; readAt := now |} (readBy m);
     reactions := reactions m; replyTo := replyTo m; isEdited := isEdited m;
     editedAt := editedAt m; isDeleted := isDeleted m;
     attachments := attachments m |}.

End Message.

(** ** The document store, as far as the gateway and the routes use it *)

Record Db := {
  chats : gmap string Chat.t;
  messages : gmap string Message.t;
}.

Definition with_messages (db : Db) (ms : gmap string Message.t) : Db :=
  {| chats := chats db; messages := ms |}.

Definition with_chats (db : Db) (cs : gmap string Chat.t) : Db :=
  {| chats := cs; messages := messages db |}.

(** [Model.findById(id)] with an id spelled as the store renders it, which
    is how a client holds an id it got from the server: the cast gives the
    same id back. *)
Definition findById `{Mongoose} {A} (collection : gmap string A) (id : string) : Lookup A :=
  if castsToObjectId id then
    match collection !! id with
    | Some doc => Found doc
    | None => Null
    end
  else Rejected.

(** [Model.findById(id)] with whatever string the client sent: the document
    looked for is the one stored under the ObjectId the string casts to. *)
Definition findByIdCast `{Mongoose} {A} (collection : gmap string A) (id : string)
  : Lookup A :=
  if castsToObjectId id then
    match collection !! objectId id with
    | Some doc => Found doc
    | None => Null
    end
  else Rejected.

(** ** The event gateway ([Backend/socket/handlers.js])

    A handler is a function of the caller (its user id, fixed at the
    handshake, and its socket id), the event's data, the clock where the
    handler reads it, and the state it works on; it returns the new state
    and what it emitted.  A [try]/[catch] is followed through the answers of
    [findById] and [save]; an outage of the store itself is not modelled.
    [populate] only decorates the payload and is left out. *)

Module Gateway.

(** Who receives an emitted event. *)
Inductive Target :=
| ToCaller                      (* [socket.emit] *)
| ToRoom (room : string)        (* [io.to(room).emit] *)
| ToRoomButCaller (room : string). (* [socket.to(room).emit] *)

Inductive Payload :=
| PError (message : string)
| PMessageEdited (chatId : string) (message : Message.t)
| PReactionUpdated (chatId messageId : string) (reactions : list Message.Reaction)
| PMessagesRead (chatId readBy : string) (messageIds : option (list string)).

Record Emit := { target : Target; event : string; payload : Payload }.

Definition error (message : string) : Emit :=
  {| target := ToCaller; event := "error"; payload := PError message |}.

Definition chatRoom (chatId : string) : string := "chat:" +:+ chatId.

(** Room membership: socket id -> rooms the socket has joined. *)
Abbreviation Rooms := (gmap string (gset string)).

(** [socket.join(room)] *)
Definition join (socketId room : string) (rooms : Rooms) : Rooms :=
  <[socketId := default ∅ (rooms !! socketId) ∪ {[room]}]> rooms.

(** The toggle at the heart of [add-reaction]:
    [findIndex] of the caller's reaction with this emoji, then [splice]
    it out when found and [push] a new one otherwise. *)
Definition toggleReaction (userId emoji : string)
    (reactions : list Message.Reaction) : list Message.Reaction :=
  let existingIndex :=
    Js.findIndex (λ r, bool_decide (Message.user r = userId)
                       && bool_decide (Message.emoji r = emoji)) reactions in
  match existingIndex with
  | Some i => Js.splice1 i reactions
  | None => reactions ++ [{| Message.emoji := emoji; Message.user := userId |}]
  end.

(** [Message.updateMany({ _id: { $in: messageIds }, sender: { $ne: userId } },
    { $addToSet: { readBy: { user: userId, readAt: new Date() } },
      status: 'seen' })], once the ids of the filter have been cast: a
    message matches when its [_id] is the ObjectId of one of them. *)
Definition updateManyRead `{Mongoose} (userId : string) (messageIds : list string)
    (now : Z) (messages : gmap string Message.t) : gmap string Message.t :=
  map_imap (λ id m,
    Some (if bool_decide (id ∈ objectId <$> messageIds)
             && negb (bool_decide (Message.sender m = userId))
          then Message.read_by m userId now
          else m)) messages.

Section Handlers.
Context `{Mongoose}.

(** [socket.on('join-chat', async (chatId) => ...)].  The room is named
    with the string as the client sent it. *)
Definition join_chat (userId socketId chatId : string) (db : Db) (rooms : Rooms)
  : Rooms * list Emit :=
  match findByIdCast (chats db) chatId with
  | Found chat =>
      if Chat.isParticipant chat userId
      then (join socketId (chatRoom chatId) rooms, [])
      else (rooms, [])
  | Null => (rooms, [])
  | Rejected => (rooms, [error "Failed to join chat"])
  end.

(** [socket.on('edit-message', async (data) => ...)] with
    [data = { messageId, content }].  The document that is saved is the one
    that was found: it goes back under its own [_id]. *)
Definition edit_message (userId messageId content : string) (now : Z) (db : Db)
  : Db * list Emit :=
  match findByIdCast (messages db) messageId with
  | Rejected => (db, [error "Failed to edit message"])
  | Null => (db, [error "Not authorized"])
  | Found message =>
      if negb (bool_decide (Message.sender message = userId))
      then (db, [error "Not authorized"])
      else
        let message := Message.edited message content now in
        match Message.save (objectId messageId) message (messages db) with
        | None => (db, [error "Failed to edit message"])
        | Some stored =>
            (with_messages db stored,
             [{| target := ToRoom (chatRoom (Message.chat message));
                 event := "message-edited";
                 payload := PMessageEdited (Message.chat message) message |}])
        end
  end.

(** [socket.on('add-reaction', async (data) => ...)] with
    [data = { messageId, emoji }].  The chat is looked up by the
    reference the stored message holds, which always casts. *)
Definition add_reaction (userId messageId emoji : string) (db : Db)
  : Db * list Emit :=
  match findById (messages db) messageId with
  | Rejected => (db, [error "Failed to add reaction"])
  | Null => (db, [error "Message not found"])
  | Found message =>
      match chats db !! Message.chat message with
      | None => (db, [error "Not authorized"])
      | Some chat =>
          if negb (Chat.isParticipant chat userId)
          then (db, [error "Not authorized"])
          else
            let message :=
              Message.with_reactions message
                (toggleReaction userId emoji (Message.reactions message)) in
            match Message.save messageId message (messages db) with
            | None => (db, [error "Failed to add reaction"])
            | Some stored =>
                (with_messages db stored,
                 [{| target := ToRoom (chatRoom (Message.chat message));
                     event := "reaction-updated";
                     payload := PReactionUpdated (Message.chat message) messageId
                                  (Message.reactions message) |}])
            end
      end
  end.

(** [socket.on('mark-read', async (data) => ...)] with
    [data = { chatId, messageIds }]; [messageIds] may be missing.  The
    update rejects when one of the ids does not cast, and a rejected update
    is only logged: nothing is stored and nothing is emitted. *)
Definition mark_read (userId chatId : string) (messageIds : option (list string))
    (now : Z) (db : Db) : Db * list Emit :=
  let broadcast :=
    [{| target := ToRoomButCaller (chatRoom chatId);
        event := "messages-read";
        payload := PMessagesRead chatId userId messageIds |}] in
  match messageIds with
  | Some ids =>
      if bool_decide (0 < length ids) then
        if forallb castsToObjectId ids
        then (with_messages db (updateManyRead userId ids now (messages db)),
              broadcast)
        else (db, [])
      else (db, broadcast)
  | None => (db, broadcast)
  end.

End Handlers.

End Gateway.

(** ** The chat routes ([Backend/routes/chats.js]) *)

Module ChatRoutes.

(** What a route answers: the status code and the JSON body's [success]
    and [message]; [GET /:id] answers the chat itself.  An [AppError], and
    any other rejection, reaches the client through [errorHandler]. *)
Inductive Body := BMessage (message : string) | BChat (chat : Chat.t).
Record Response := { statusCode : nat; success : bool; body : Body }.

Definition ok (message : string) : Response :=
  {| statusCode := 200; success := true; body := BMessage message |}.

(** [throw new AppError(message, statusCode)] *)
Definition appError (message : string) (code : nat) : Response :=
  {| statusCode := code; success := false; body := BMessage message |}.

(** [req.user], set by [protect]. *)
Record User := { _id : string; userName : string }.

Section Routes.
Context `{Mongoose}.

(** [GET /api/chats/:id] *)
Definition getChat (user : User) (id : string) (db : Db) : Response :=
  match findById (chats db) id with
  | Rejected => appError "Resource not found" 404
  | Null => appError "Chat not found" 404
  | Found chat =>
      if negb (Chat.isParticipant chat (_id user))
      then appError "Not authorized to view this chat" 403
      else {| statusCode := 200; success := true; body := BChat chat |}
  end.

(** [POST /api/chats/:id/leave].  [newId] is the [_id] the driver gives
    the system message. *)
Definition leave (user : User) (id newId : string) (db : Db) : Db * Response :=
  match findById (chats db) id with
  | Rejected => (db, appError "Resource not found" 404)
  | Null => (db, appError "Chat not found" 404)
  | Found chat =>
      if negb (bool_decide (Chat.type chat = Chat.group))
      then (db, appError "Cannot leave private chats" 400)
      else if negb (Chat.isParticipant chat (_id user))
      then (db, appError "Not a member of this group" 400)
      else
        let participants :=
          Js.filter (λ p, negb (bool_decide (p = _id user))) (Chat.participants chat) in
        let admins :=
          Js.filter (λ a, negb (bool_decide (a = _id user))) (Chat.admins chat) in
        if bool_decide (length participants = 0)
        then (with_chats db (delete id (chats db)),
              ok "Left group. Group was deleted as it had no members.")
        else
          let admins :=
            if bool_decide (length admins = 0)
               && bool_decide (0 < length participants)
            then admins ++ option_list (head participants)
            else admins in
          let db := with_chats db
                      (<[id := Chat.with_members chat participants admins]> (chats db)) in
          let notice :=
            {| Message.chat := id; Message.sender := _id user;
               Message.content := trim (userName user +:+ " left the group");
               Message.type := Message.system; Message.status := Message.sent;
               Message.readBy := []; Message.reactions := [];
               Message.replyTo := None; Message.isEdited := false;
               Message.editedAt := None; Message.isDeleted := false;
               Message.attachments := [] |} in
          match Message.save newId notice (messages db) with
          | Some stored => (with_messages db stored, ok "Left group successfully")
          | None => (db, appError "Message cannot exceed 5000 characters" 400)
          end
  end.

End Routes.

End ChatRoutes.

(** ** The client store ([Frontend/src/stores/chatStore.ts])

    The records keep the fields the modelled actions read or write, and
    those [sendMessage] fills in; an object spread [{...x, f: v}] carries the
    others along unchanged.  An [id] is typed [string] but read as
    [x.id || x._id] throughout, so both are strings-or-undefined here. *)

Module ClientUser.

Record t := {
  id : option string;
  _id : option string;
  name : string;
  email : string;
  avatar : string;
  status : Presence.Status;
}.

End ClientUser.

Module ClientMessage.

Record Reaction := { emoji : string; user : ClientUser.t }.

#[local] Unset Elimination Schemes.
Inductive t := mk {
  id : option string;
  _id : option string;
  chat : string;
  content : string;
  type : Message.Type_;
  sender : ClientUser.t;
  reactions : list Reaction;
  replyTo : option t;
  createdAt : N;
  isEdited : bool;
  isDeleted : option bool;
  status : Message.Status;
}.
#[local] Set Elimination Schemes.

(** [msg.id || msg._id] *)
Definition key (m : t) : option string := Js.or (id m) (_id m).

(** [(msg.id || msg._id || '').startsWith('temp-')] *)
Definition isTemp (m : t) : bool :=
  Js.startsWith (default "" (Js.or (key m) (Some ""))) "temp-".

(** [{ ...msg, content: 'This message was deleted', isDeleted: true }] *)
Definition deleted (m : t) : t :=
  {| id := id m; _id := _id m; chat := chat m;
     content := "This message was deleted"; type := type m;
     sender := sender m; reactions := reactions m; replyTo := replyTo m;
     createdAt := createdAt m; isEdited := isEdited m;
     isDeleted := Some true; status := status m |}.

End ClientMessage.

Module ClientChat.

Record t := {
  id : option string;
  _id : option string;
  name : string;
  lastMessage : option ClientMessage.t;
  unreadCount : Z;
  isMuted : bool;
}.

Definition key (c : t) : option string := Js.or (id c) (_id c).

Definition with_lastMessage (c : t) (m : ClientMessage.t) (unread : Z) : t :=
  {| id := id c; _id := _id c; name := name c; lastMessage := Some m;
     unreadCount := unread; isMuted := isMuted c |}.

End ClientChat.

Module ChatStore.

(** [messages: Record<string, Message[]>] and
    [typingUsers: Record<string, string[]>] are maps from chat ids; a key
    that is absent and a key bound to [undefined] read alike, and are the
    same here. *)
Record State := {
  chats : list ClientChat.t;
  activeChat : option ClientChat.t;
  messages : gmap string (list ClientMessage.t);
  typingUsers : gmap string (list string);
}.

Definition with_messages (s : State) (ms : gmap string (list ClientMessage.t)) : State :=
  {| chats := chats s; activeChat := activeChat s; messages := ms;
     typingUsers := typingUsers s |}.

Definition with_typingUsers (s : State) (tu : gmap string (list string)) : State :=
  {| chats := chats s; activeChat := activeChat s; messages := messages s;
     typingUsers := tu |}.

(** What an action sends out: socket events and REST calls. *)
Inductive Effect :=
| EmitSendMessage (chatId content : string) (type : Message.Type_)
                  (replyTo : option string)
| EmitStopTyping (chatId : string)
| ApiDeleteMessage (messageId : string).

(** The outcome of an [async] action: the store, what was sent out, and
    whether the promise rejected. *)
Record Outcome := { state : State; effects : list Effect; thrown : bool }.

(** [sendMessage(chatId, content, currentUser, type = 'text', replyToId)];
    [now] is [Date.now()] and [created] is [new Date()]. *)
Definition sendMessage (chatId content : string) (currentUser : option ClientUser.t)
    (type : Message.Type_) (replyToId : option string) (now created : N)
    (s : State) : Outcome :=
  match currentUser with
  | None => {| state := s; effects := []; thrown := true |}
  | Some user =>
      let replyToMessage :=
        if Js.truthy replyToId
        then messages s !! chatId ≫=
               Js.find (λ m, bool_decide (ClientMessage.key m = replyToId))
        else None in
      let tempId := "temp-" +:+ pretty now in
      let tempMessage :=
        {| ClientMessage.id := Some tempId;
           ClientMessage._id := Some tempId;
           ClientMessage.chat := chatId;
           ClientMessage.content := content;
           ClientMessage.type := type;
           ClientMessage.sender :=
             {| ClientUser.id := Js.or (ClientUser.id user) (ClientUser._id user);
                ClientUser._id := ClientUser._id user;
                ClientUser.name := ClientUser.name user;
                ClientUser.email := ClientUser.email user;
                ClientUser.avatar := ClientUser.avatar user;
                ClientUser.status := ClientUser.status user |};
           ClientMessage.reactions := [];
           ClientMessage.replyTo := replyToMessage;
           ClientMessage.createdAt := created;
           ClientMessage.isEdited := false;
           ClientMessage.isDeleted := None;
           ClientMessage.status := Message.sent |} in
      {| state :=
           {| messages :=
                <[chatId := default [] (messages s !! chatId) ++ [tempMessage]]>
                  (messages s);
              chats :=
                map (λ chat,
                       if bool_decide (ClientChat.key chat = Some chatId)
                       then ClientChat.with_lastMessage chat tempMessage
                              (ClientChat.unreadCount chat)
                       else chat) (chats s);
              activeChat := activeChat s;
              typingUsers := typingUsers s |};
         effects := [EmitSendMessage chatId content type replyToId;
                     EmitStopTyping chatId];
         thrown := false |}
  end.

(** The filter of [handleNewMessage]: drop the temporary entries with the
    message's content and sender, and any entry with the message's id. *)
Definition keepOnNewMessage (message msg : ClientMessage.t) : bool :=
  let isTemp := ClientMessage.isTemp msg in
  let isSameContent :=
    bool_decide (ClientMessage.content msg = ClientMessage.content message) in
  if isTemp && isSameContent
     && bool_decide (ClientUser.id (ClientMessage.sender msg)
                     = ClientUser.id (ClientMessage.sender message))
  then false
  else if bool_decide (ClientMessage.key msg = ClientMessage.key message)
  then false
  else true.

(** [handleNewMessage({ chatId, message })] *)
Definition handleNewMessage (chatId : string) (message : ClientMessage.t)
    (s : State) : State :=
  let currentMessages := default [] (messages s !! chatId) in
  let filteredMessages := Js.filter (keepOnNewMessage message) currentMessages in
  {| messages := <[chatId := filteredMessages ++ [message]]> (messages s);
     chats :=
       map (λ chat,
              if bool_decide (ClientChat.key chat = Some chatId)
              then ClientChat.with_lastMessage chat message
                     (if match activeChat s with
                         | Some active =>
                             bool_decide (ClientChat.key active = Some chatId)
                         | None => false
                         end
                      then 0%Z
                      else (ClientChat.unreadCount chat + 1)%Z)
              else chat) (chats s);
     activeChat := activeChat s;
     typingUsers := typingUsers s |}.

(** [handleTyping(chatId, userName)], the part that runs at once. *)
Definition handleTyping (chatId userName : string) (s : State) : State :=
  with_typingUsers s
    (<[chatId := Js.setOf (default [] (typingUsers s !! chatId) ++ [userName])]>
       (typingUsers s)).

(** The callback [handleTyping] hands to [setTimeout(..., 3000)]. *)
Definition typingExpired (chatId userName : string) (s : State) : State :=
  with_typingUsers s
    (<[chatId := Js.filter (λ n, negb (bool_decide (n = userName)))
                   (default [] (typingUsers s !! chatId))]>
       (typingUsers s)).

(** [handleStopTyping(chatId, userId)] *)
Definition handleStopTyping (chatId userId : string) (s : State) : State :=
  with_typingUsers s
    (<[chatId := Js.filteri (λ _ i, negb (bool_decide (i = 0)))
                   (default [] (typingUsers s !! chatId))]>
       (typingUsers s)).

(** [updateState] of [deleteMessage]: tombstone the entries with this id. *)
Definition updateState (chatId messageId : string) (s : State) : State :=
  with_messages s
    (partial_alter
       (fmap (map (λ msg, if bool_decide (ClientMessage.key msg = Some messageId)
                          then ClientMessage.deleted msg else msg)))
       chatId (messages s)).

(** [deleteMessage(chatId, messageId)]; [apiOk] says whether
    [messagesApi.deleteMessage] resolves. *)
Definition deleteMessage (chatId messageId : string) (apiOk : bool) (s : State)
  : Outcome :=
  let currentMessages := messages s !! chatId in
  let targetMessage :=
    currentMessages ≫=
      Js.find (λ m, bool_decide (ClientMessage.key m = Some messageId)) in
  if match targetMessage with
     | Some target => bool_decide (ClientMessage.isDeleted target = Some true)
     | None => false
     end
  then
    {| state :=
         with_messages s
           (partial_alter
              (fmap (Js.filter
                       (λ msg, negb (bool_decide
                                       (ClientMessage.key msg = Some messageId)))))
              chatId (messages s));
       effects := []; thrown := false |}
  else if Js.startsWith messageId "temp-"
  then {| state := updateState chatId messageId s; effects := [];
          thrown := false |}
  else if apiOk
  then {| state := updateState chatId messageId s;
          effects := [ApiDeleteMessage messageId]; thrown := false |}
  else {| state := s; effects := [ApiDeleteMessage messageId]; thrown := true |}.

End ChatStore.

(** ** More of the gateway: sending, deleting, rooms at the handshake

    The handlers of [handlers.js] that the first part leaves out, in the same
    style.  [Chat.t] carries the schema's own paths; the [updatedAt] that
    [send-message] refreshes travels in the [chat-updated] payload only. *)

Module Delivery.

Inductive Payload :=
| PError (message : string)
| PNewMessage (chatId messageId : string) (message : Message.t)
| PChatUpdated (chatId lastMessageId : string) (lastMessage : Message.t)
               (updatedAt : Z)
| PMessageDeleted (chatId messageId : string).

Record Emit := { target : Gateway.Target; event : string; payload : Payload }.

Definition error (message : string) : Emit :=
  {| target := Gateway.ToCaller; event := "error"; payload := PError message |}.

(** [chat.lastMessage = message._id] *)
Definition with_lastMessage (chat : Chat.t) (messageId : string) : Chat.t :=
  {| Chat.type := Chat.type chat; Chat.name := Chat.name chat;
     Chat.participants := Chat.participants chat;
     Chat.admins := Chat.admins chat; Chat.lastMessage := Some messageId |}.

(** [message.isDeleted = true; message.content = 'This message was deleted';
    message.attachments = []] *)
Definition tombstoned (m : Message.t) : Message.t :=
  {| Message.chat := Message.chat m; Message.sender := Message.sender m;
     Message.content := "This message was deleted";
     Message.type := Message.type m; Message.status := Message.status m;
     Message.readBy := Message.readBy m; Message.reactions := Message.reactions m;
     Message.replyTo := Message.replyTo m; Message.isEdited := Message.isEdited m;
     Message.editedAt := Message.editedAt m; Message.isDeleted := true;
     Message.attachments := [] |}.

(** [`user:${userId}`] *)
Definition userRoom (userId : string) : string := "user:" +:+ userId.

(** The rooms a socket is in. *)
Definition joined (rooms : Gateway.Rooms) (socketId : string) : gset string :=
  default ∅ (rooms !! socketId).

(** [socket.leave(room)] *)
Definition leaveRoom (socketId room : string) (rooms : Gateway.Rooms) : Gateway.Rooms :=
  <[socketId := default ∅ (rooms !! socketId) ∖ {[room]}]> rooms.

(** [Chat.find({ participants: userId }).select('_id')]: the ids of the
    chats whose [participants] array holds the user. *)
Definition chatsOf (userId : string) (chats : gmap string Chat.t) : list string :=
  (map_to_list
     (filter (λ kv : string * Chat.t, userId ∈ Chat.participants kv.2) chats)).*1.

(** The room part of the [connection] handler: join the personal room,
    then the room of every chat of the user. *)
Definition handshake (userId socketId : string) (db : Db) (rooms : Gateway.Rooms)
  : Gateway.Rooms :=
  foldl (λ rooms chatId, Gateway.join socketId (Gateway.chatRoom chatId) rooms)
        (Gateway.join socketId (userRoom userId) rooms)
        (chatsOf userId (chats db)).

(** [socket.on('leave-chat', (chatId) => socket.leave(`chat:${chatId}`))] *)
Definition leave_chat (socketId chatId : string) (rooms : Gateway.Rooms)
  : Gateway.Rooms :=
  leaveRoom socketId (Gateway.chatRoom chatId) rooms.

(** What one socket asks about rooms after its handshake. *)
Inductive RoomEvent :=
| JoinChat (chatId : string)
| LeaveChat (chatId : string).

Section Handlers.
Context `{Mongoose}.

Definition room_step (userId socketId : string) (db : Db)
    (rooms : Gateway.Rooms) (e : RoomEvent) : Gateway.Rooms :=
  match e with
  | JoinChat chatId => (Gateway.join_chat userId socketId chatId db rooms).1
  | LeaveChat chatId => leave_chat socketId chatId rooms
  end.

(** A connection's life as far as rooms go: the handshake, then its
    [join-chat] and [leave-chat] events in order. *)
Definition session (userId socketId : string) (db : Db)
    (events : list RoomEvent) (rooms : Gateway.Rooms) : Gateway.Rooms :=
  foldl (room_step userId socketId db) (handshake userId socketId db rooms) events.

(** [socket.on('send-message', async (data) => ...)] with
    [data = { chatId, content, type = 'text', replyTo }]; [newId] is the
    [_id] of the created message and [now] the clock.  [Message.create]
    casts [chat] and [replyTo] and runs the validators and the save hook;
    [type] ranges over the schema's enum, any other value being refused by
    validation just as a failed save is.  The chat that is saved is the one
    that was found; the room and the payloads' [chatId] are the string as
    the client sent it. *)
Definition send_message (userId chatId content : string)
    (type : option Message.Type_) (replyTo : option string)
    (newId : string) (now : Z) (db : Db) : Db * list Emit :=
  match findByIdCast (chats db) chatId with
  | Rejected => (db, [error "Failed to send message"])
  | Null => (db, [error "Not authorized"])
  | Found chat =>
      if negb (Chat.isParticipant chat userId)
      then (db, [error "Not authorized"])
      else
        let message :=
          {| Message.chat := objectId chatId; Message.sender := userId;
             Message.content := trim content;
             Message.type := default Message.text type;
             Message.status := Message.sent; Message.readBy := [];
             Message.reactions := []; Message.replyTo := objectId <$> replyTo;
             Message.isEdited := false; Message.editedAt := None;
             Message.isDeleted := false; Message.attachments := [] |} in
        let created :=
          if match replyTo with
             | Some r => castsToObjectId r
             | None => true
             end
          then Message.save newId message (messages db)
          else None in
        match created with
        | None => (db, [error "Failed to send message"])
        | Some stored =>
            ({| chats := <[objectId chatId := with_lastMessage chat newId]> (chats db);
                messages := stored |},
             [{| target := Gateway.ToRoom (Gateway.chatRoom chatId);
                 event := "new-message";
                 payload := PNewMessage chatId newId message |};
              {| target := Gateway.ToRoom (Gateway.chatRoom chatId);
                 event := "chat-updated";
                 payload := PChatUpdated chatId newId message now |}])
        end
  end.

(** [socket.on('delete-message', async (data) => ...)] with
    [data = { messageId }].  [chat?.isAdmin(userId)] is falsy when the chat
    is gone. *)
Definition delete_message (userId messageId : string) (db : Db)
  : Db * list Emit :=
  match findById (messages db) messageId with
  | Rejected => (db, [error "Failed to delete message"])
  | Null => (db, [error "Message not found"])
  | Found message =>
      let chat := chats db !! Message.chat message in
      let isSender := bool_decide (Message.sender message = userId) in
      let isAdmin :=
        match chat with
        | Some chat => Chat.isAdmin chat userId
        | None => false
        end in
      if negb isSender && negb isAdmin
      then (db, [error "Not authorized"])
      else
        let message := tombstoned message in
        match Message.save messageId message (messages db) with
        | None => (db, [error "Failed to delete message"])
        | Some stored =>
            (with_messages db stored,
             [{| target := Gateway.ToRoom (Gateway.chatRoom (Message.chat message));
                 event := "message-deleted";
                 payload := PMessageDeleted (Message.chat message) messageId |}])
        end
  end.

End Handlers.

End Delivery.

(** ** The [disconnect] handler, whole *)

Module Farewell.

(** [io.to(`user:${friend._id}`).emit('user-status-change',
    { userId, status: 'offline', lastSeen: new Date() })] *)
Record Emit := {
  room : string;
  user : string;
  status : Presence.Status;
  lastSeen : Z;
}.

(** [socket.on('disconnect', async () => ...)].  [friends] is what
    [User.findById(userId).populate('friends', '_id')] answers: the ids of
    the user's friends, or nothing when the user is gone; [seenAt i] is the
    clock as read for the i-th of them. *)
Definition disconnect (userId socketId : string) (friends : option (list string))
    (seenAt : nat → Z) (onlineUsers : Presence.OnlineUsers)
  : Presence.OnlineUsers * list Presence.Effect * list Emit :=
  match onlineUsers !! userId with
  | Some userSockets =>
      let userSockets' := userSockets ∖ {[socketId]} in
      let m := <[userId := userSockets']> onlineUsers in
      if bool_decide (size userSockets' = 0)
      then (delete userId m,
            [Presence.UpdateStatusLastSeen userId Presence.offline],
            match friends with
            | Some friends =>
                imap (λ i friend,
                        {| room := Delivery.userRoom friend; user := userId;
                           status := Presence.offline; lastSeen := seenAt i |})
                     friends
            | None => []
            end)
      else (m, [], [])
  | None => (onlineUsers, [], [])
  end.

End Farewell.

(** ** More of the client store: applying the server's edits and deletes *)

Module StoreSync.

(** [handleMessageEdited({ chatId, message })]: replace in place the
    entries that carry the message's id. *)
Definition handleMessageEdited (chatId : string) (message : ClientMessage.t)
    (s : ChatStore.State) : ChatStore.State :=
  ChatStore.with_messages s
    (partial_alter
       (fmap (map (λ msg, if bool_decide (ClientMessage.key msg
                                          = ClientMessage.key message)
                          then message else msg)))
       chatId (ChatStore.messages s)).

(** [handleMessageDeleted({ chatId, messageId })]: tombstone in place the
    entries with this id. *)
Definition handleMessageDeleted (chatId messageId : string)
    (s : ChatStore.State) : ChatStore.State :=
  ChatStore.with_messages s
    (partial_alter
       (fmap (map (λ msg, if bool_decide (ClientMessage.key msg = Some messageId)
                          then ClientMessage.deleted msg else msg)))
       chatId (ChatStore.messages s)).

(** The success branch of [fetchMessages(chatId)]: the server's page
    replaces the local sequence. *)
Definition fetchedMessages (chatId : string) (page : list ClientMessage.t)
    (s : ChatStore.State) : ChatStore.State :=
  ChatStore.with_messages s (<[chatId := page]> (ChatStore.messages s)).

End StoreSync.

(** ** Creating conversations ([models/Chat.js], [routes/chats.js]) *)

Module ChatCreate.

(** The filter of [findOrCreatePrivateChat]:
    [{ type: 'private', participants: { $all: [userId1, userId2], $size: 2 } }] *)
Definition isPrivatePair (userId1 userId2 : string) (chat : Chat.t) : bool :=
  bool_decide (Chat.type chat = Chat.private)
  && bool_decide (userId1 ∈ Chat.participants chat)
  && bool_decide (userId2 ∈ Chat.participants chat)
  && bool_decide (length (Chat.participants chat) = 2).

(** [Model.findOne(filter)]: the first matching document, in the order the
    collection lists them. *)
Definition findOne {A} (P : A → bool) (collection : gmap string A)
  : option (string * A) :=
  head (map_to_list (filter (λ kv : string * A, P kv.2 = true) collection)).

(** The double quote character, for the text of system messages. *)
Definition quote : string := String (Ascii.ascii_of_nat 34) EmptyString.

Section Create.
Context `{Mongoose}.

(** [chatSchema.statics.findOrCreatePrivateChat(userId1, userId2)]; [newId]
    is the [_id] a created chat gets.  The answer is the chat with its id. *)
Definition findOrCreatePrivateChat (userId1 userId2 newId : string) (db : Db)
  : Db * Lookup (string * Chat.t) :=
  if castsToObjectId userId1 && castsToObjectId userId2 then
    match findOne (isPrivatePair userId1 userId2) (chats db) with
    | Some hit => (db, Found hit)
    | None =>
        let chat :=
          {| Chat.type := Chat.private; Chat.name := "";
             Chat.participants := [userId1; userId2]; Chat.admins := [];
             Chat.lastMessage := None |} in
        (with_chats db (<[newId := chat]> (chats db)), Found (newId, chat))
    end
  else (db, Rejected).

(** [POST /api/chats] with body [{ type, participants, name }]; [type] is
    [None] for any value other than the two chat types.  [newId] and
    [newMessageId] are the ids given to what is created, and
    [validationMessage] is the text of the library's validation error. *)
Definition createChat (user : ChatRoutes.User) (type : option Chat.Type_)
    (participants : option (list string)) (name : option string)
    (newId newMessageId validationMessage : string) (db : Db)
  : Db * ChatRoutes.Response :=
  match type with
  | None => (db, ChatRoutes.appError "Invalid chat type" 400)
  | Some Chat.private =>
      match participants with
      | Some [otherUserId] =>
          match findOrCreatePrivateChat (ChatRoutes._id user) otherUserId newId db with
          | (db', Found (_, chat)) =>
              (db', {| ChatRoutes.statusCode := 201; ChatRoutes.success := true;
                       ChatRoutes.body := ChatRoutes.BChat chat |})
          | (db', _) => (db', ChatRoutes.appError "Resource not found" 404)
          end
      | _ => (db, ChatRoutes.appError
                    "Private chat requires exactly one other participant" 400)
      end
  | Some Chat.group =>
      if negb (Js.truthy name)
      then (db, ChatRoutes.appError "Group name is required" 400)
      else
        match participants with
        | None | Some [] =>
            (db, ChatRoutes.appError
                   "Group must have at least one other participant" 400)
        | Some others =>
            let allParticipants := ChatRoutes._id user :: others in
            let chat :=
              {| Chat.type := Chat.group; Chat.name := trim (default "" name);
                 Chat.participants := allParticipants;
                 Chat.admins := [ChatRoutes._id user];
                 Chat.lastMessage := None |} in
            if negb (Js.truthy (Some (Chat.name chat))
                     && forallb castsToObjectId allParticipants)
            then (db, ChatRoutes.appError validationMessage 400)
            else
              let db := with_chats db (<[newId := chat]> (chats db)) in
              let notice :=
                {| Message.chat := newId; Message.sender := ChatRoutes._id user;
                   Message.content :=
                     trim (ChatRoutes.userName user +:+ " created the group "
                           +:+ quote +:+ default "" name +:+ quote);
                   Message.type := Message.system; Message.status := Message.sent;
                   Message.readBy := []; Message.reactions := [];
                   Message.replyTo := None; Message.isEdited := false;
                   Message.editedAt := None; Message.isDeleted := false;
                   Message.attachments := [] |} in
              match Message.save newMessageId notice (messages db) with
              | Some stored =>
                  (with_messages db stored,
                   {| ChatRoutes.statusCode := 201; ChatRoutes.success := true;
                      ChatRoutes.body := ChatRoutes.BChat chat |})
              | None =>
                  (db, ChatRoutes.appError
                         "Message cannot exceed 5000 characters" 400)
              end
        end
  end.

End Create.

End ChatCreate.

(** ** Group administration ([routes/groups.js]) *)

Module GroupRoutes.

Record Response := {
  statusCode : nat;
  success : bool;
  message : string;
  participants : option (list string);
}.

Definition ok (message : string) : Response :=
  {| statusCode := 200; success := true; message := message;
     participants := None |}.

Definition appError (message : string) (code : nat) : Response :=
  {| statusCode := code; success := false; message := message;
     participants := None |}.

Definition systemMessage `{Mongoose} (chatId sender content : string) : Message.t :=
  {| Message.chat := chatId; Message.sender := sender;
     Message.content := trim content;
     Message.type := Message.system; Message.status := Message.sent;
     Message.readBy := []; Message.reactions := [];
     Message.replyTo := None; Message.isEdited := false;
     Message.editedAt := None; Message.isDeleted := false;
     Message.attachments := [] |}.

Section Routes.
Context `{Mongoose}.

(** [DELETE /api/groups/:id/members/:userId]; [removedName] is the name
    [User.findById(userToRemove)] finds, if it finds the user. *)
Definition removeMember (user : ChatRoutes.User) (id userToRemove : string)
    (removedName : option string) (newMessageId : string) (db : Db)
  : Db * Response :=
  match findById (chats db) id with
  | Rejected => (db, appError "Resource not found" 404)
  | Null => (db, appError "Group not found" 404)
  | Found group =>
      if negb (bool_decide (Chat.type group = Chat.group))
      then (db, appError "Group not found" 404)
      else if negb (Chat.isAdmin group (ChatRoutes._id user))
      then (db, appError "Only admins can remove members" 403)
      else if bool_decide (userToRemove = ChatRoutes._id user)
      then (db, appError "Use leave endpoint to leave the group" 400)
      else if negb (Js.some (λ p, bool_decide (p = userToRemove))
                      (Chat.participants group))
      then (db, appError "User is not a member" 400)
      else
        let participants :=
          Js.filter (λ p, negb (bool_decide (p = userToRemove)))
            (Chat.participants group) in
        let admins :=
          Js.filter (λ a, negb (bool_decide (a = userToRemove)))
            (Chat.admins group) in
        let db := with_chats db
                    (<[id := Chat.with_members group participants admins]>
                       (chats db)) in
        let notice :=
          systemMessage id (ChatRoutes._id user)
            (ChatRoutes.userName user +:+ " removed "
             +:+ default "" (Js.or removedName (Some "a user"))
             +:+ " from the group") in
        match Message.save newMessageId notice (messages db) with
        | Some stored =>
            (with_messages db stored,
             {| statusCode := 200; success := true; message := "Member removed";
                participants := Some participants |})
        | None => (db, appError "Message cannot exceed 5000 characters" 400)
        end
  end.

(** [POST /api/groups/:id/admins/:userId] *)
Definition makeAdmin (user : ChatRoutes.User) (id userId : string)
    (promotedName : option string) (newMessageId : string) (db : Db)
  : Db * Response :=
  match findById (chats db) id with
  | Rejected => (db, appError "Resource not found" 404)
  | Null => (db, appError "Group not found" 404)
  | Found group =>
      if negb (bool_decide (Chat.type group = Chat.group))
      then (db, appError "Group not found" 404)
      else if negb (Chat.isAdmin group (ChatRoutes._id user))
      then (db, appError "Only admins can promote members" 403)
      else if negb (Js.some (λ p, bool_decide (p = userId))
                      (Chat.participants group))
      then (db, appError "User is not a member" 400)
      else if Js.some (λ a, bool_decide (a = userId)) (Chat.admins group)
      then (db, appError "User is already an admin" 400)
      else
        let db := with_chats db
                    (<[id := Chat.with_members group (Chat.participants group)
                               (Chat.admins group ++ [userId])]>
                       (chats db)) in
        let notice :=
          systemMessage id (ChatRoutes._id user)
            (ChatRoutes.userName user +:+ " made "
             +:+ default "" (Js.or promotedName (Some "a user"))
             +:+ " an admin") in
        match Message.save newMessageId notice (messages db) with
        | Some stored => (with_messages db stored, ok "User promoted to admin")
        | None => (db, appError "Message cannot exceed 5000 characters" 400)
        end
  end.

(** [DELETE /api/groups/:id/admins/:userId] *)
Definition removeAdmin (user : ChatRoutes.User) (id userId : string) (db : Db)
  : Db * Response :=
  match findById (chats db) id with
  | Rejected => (db, appError "Resource not found" 404)
  | Null => (db, appError "Group not found" 404)
  | Found group =>
      if negb (bool_decide (Chat.type group = Chat.group))
      then (db, appError "Group not found" 404)
      else if negb (Chat.isAdmin group (ChatRoutes._id user))
      then (db, appError "Only admins can demote members" 403)
      else if negb (Js.some (λ a, bool_decide (a = userId)) (Chat.admins group))
      then (db, appError "User is not an admin" 400)
      else if bool_decide (length (Chat.admins group) = 1)
      then (db, appError "Cannot remove the last admin" 400)
      else
        let admins :=
          Js.filter (λ a, negb (bool_decide (a = userId))) (Chat.admins group) in
        (with_chats db
           (<[id := Chat.with_members group (Chat.participants group) admins]>
              (chats db)),
         ok "Admin status removed")
  end.

End Routes.

(** The requests that change who belongs to a group and who runs it. *)
Inductive Request :=
| Create (user : ChatRoutes.User) (type : option Chat.Type_)
         (participants : option (list string)) (name : option string)
         (newId newMessageId validationMessage : string)
| Leave (user : ChatRoutes.User) (id newMessageId : string)
| RemoveMember (user : ChatRoutes.User) (id userToRemove : string)
               (removedName : option string) (newMessageId : string)
| MakeAdmin (user : ChatRoutes.User) (id userId : string)
            (promotedName : option string) (newMessageId : string)
| RemoveAdmin (user : ChatRoutes.User) (id userId : string).

Definition serve `{Mongoose} (db : Db) (r : Request) : Db :=
  match r with
  | Create user type participants name newId newMessageId validationMessage =>
      (ChatCreate.createChat user type participants name newId newMessageId
         validationMessage db).1
  | Leave user id newMessageId => (ChatRoutes.leave user id newMessageId db).1
  | RemoveMember user id userToRemove removedName newMessageId =>
      (removeMember user id userToRemove removedName newMessageId db).1
  | MakeAdmin user id userId promotedName newMessageId =>
      (makeAdmin user id userId promotedName newMessageId db).1
  | RemoveAdmin user id userId => (removeAdmin user id userId db).1
  end.

End GroupRoutes.

(** ** The message routes ([routes/messages.js]) *)

Module MessageRoutes.

Record Response := {
  statusCode : nat;
  success : bool;
  message : option string;
  doc : option Message.t;
}.

Definition appError (message : string) (code : nat) : Response :=
  {| statusCode := code; success := false; message := Some message;
     doc := None |}.

(** [await message.save()] in a route: validation runs first and its
    failure reaches the client as a 400 with the library's text; then the
    save hook, whose [Error] reaches the client as a 500. *)
Definition trySave (id : string) (m : Message.t) (messages : gmap string Message.t)
    (validationMessage : string) : gmap string Message.t + Response :=
  if negb (Message.validators m) then inr (appError validationMessage 400)
  else if negb (Message.preSave m)
  then inr (appError "Message must have content or attachments" 500)
  else inl (<[id := m]> messages).

(** [message.readBy.push({ user, readAt: new Date() })], and
    [message.status = 'seen'] when the reader is not the sender. *)
Definition readNow (m : Message.t) (userId : string) (now : Z) : Message.t :=
  {| Message.chat := Message.chat m; Message.sender := Message.sender m;
     Message.content := Message.content m; Message.type := Message.type m;
     Message.status :=
       if negb (bool_decide (Message.sender m = userId))
       then Message.seen else Message.status m;
     Message.readBy :=
       Message.readBy m ++ [{| Message.reader := userId; Message.readAt := now |}];
     Message.reactions := Message.reactions m; Message.replyTo := Message.replyTo m;
     Message.isEdited := Message.isEdited m; Message.editedAt := Message.editedAt m;
     Message.isDeleted := Message.isDeleted m;
     Message.attachments := Message.attachments m |}.

(** [readBy.some((r) => r.user.toString() === userId)] *)
Definition alreadyRead (m : Message.t) (userId : string) : bool :=
  Js.some (λ r, bool_decide (Message.reader r = userId)) (Message.readBy m).

(** [{ $push: { readBy: { user, readAt } }, $set: { status: 'seen' } }] *)
Definition pushSeen (m : Message.t) (userId : string) (now : Z) : Message.t :=
  {| Message.chat := Message.chat m; Message.sender := Message.sender m;
     Message.content := Message.content m; Message.type := Message.type m;
     Message.status := Message.seen;
     Message.readBy :=
       Message.readBy m ++ [{| Message.reader := userId; Message.readAt := now |}];
     Message.reactions := Message.reactions m; Message.replyTo := Message.replyTo m;
     Message.isEdited := Message.isEdited m; Message.editedAt := Message.editedAt m;
     Message.isDeleted := Message.isDeleted m;
     Message.attachments := Message.attachments m |}.

(** The filter of [read-all]:
    [{ chat, sender: { $ne: user }, 'readBy.user': { $ne: user } }] *)
Definition unreadBy (chatId userId : string) (m : Message.t) : bool :=
  bool_decide (Message.chat m = chatId)
  && negb (bool_decide (Message.sender m = userId))
  && negb (alreadyRead m userId).

Section Routes.
Context `{Mongoose}.

(** [PUT /api/messages/:id] with body [{ content }] *)
Definition editMessage (user : ChatRoutes.User) (id : string)
    (content : option string) (now : Z) (validationMessage : string) (db : Db)
  : Db * Response :=
  if negb (Js.truthy content)
  then (db, appError "Content is required" 400)
  else
    match findByIdCast (messages db) id with
    | Rejected => (db, appError "Resource not found" 404)
    | Null => (db, appError "Message not found" 404)
    | Found message =>
        if negb (bool_decide (Message.sender message = ChatRoutes._id user))
        then (db, appError "Not authorized to edit this message" 403)
        else if negb (bool_decide (Message.type message = Message.text))
        then (db, appError "Can only edit text messages" 400)
        else
          let message := Message.edited message (default "" content) now in
          match trySave (objectId id) message (messages db) validationMessage with
          | inr refused => (db, refused)
          | inl stored =>
              (with_messages db stored,
               {| statusCode := 200; success := true; message := None;
                  doc := Some message |})
          end
    end.

(** [POST /api/messages/:id/read] *)
Definition markRead (user : ChatRoutes.User) (id : string) (now : Z)
    (validationMessage : string) (db : Db) : Db * Response :=
  match findById (messages db) id with
  | Rejected => (db, appError "Resource not found" 404)
  | Null => (db, appError "Message not found" 404)
  | Found message =>
      if alreadyRead message (ChatRoutes._id user)
      then (db, {| statusCode := 200; success := true; message := None;
                   doc := None |})
      else
        match trySave id (readNow message (ChatRoutes._id user) now)
                (messages db) validationMessage with
        | inr refused => (db, refused)
        | inl stored =>
            (with_messages db stored,
             {| statusCode := 200; success := true; message := None;
                doc := None |})
        end
  end.

(** [POST /api/messages/read-all/:chatId] *)
Definition markAllRead (user : ChatRoutes.User) (chatId : string) (now : Z)
    (db : Db) : Db * Response :=
  match findById (chats db) chatId with
  | Rejected => (db, appError "Resource not found" 404)
  | Null => (db, appError "Chat not found" 404)
  | Found chat =>
      if negb (Chat.isParticipant chat (ChatRoutes._id user))
      then (db, appError "Not authorized" 403)
      else
        (with_messages db
           (map_imap (λ _ m,
              Some (if unreadBy chatId (ChatRoutes._id user) m
                    then pushSeen m (ChatRoutes._id user) now else m))
              (messages db)),
         {| statusCode := 200; success := true;
            message := Some "All messages marked as read"; doc := None |})
  end.

End Routes.

End MessageRoutes.

(** ** A stand-in for the library, to evaluate the code on concrete data

    ObjectIds are the strings of 24 hexadecimal digits, rendered with the
    digits [a] to [f] in lower case; [trim] strips ASCII white space from
    both ends (the inputs used below hold no other kind). *)

Module Driver.

Definition isHex (c : Ascii.ascii) : bool :=
  let n := Ascii.nat_of_ascii c in
  (48 <=? n) && (n <=? 57) || (97 <=? n) && (n <=? 102)
  || (65 <=? n) && (n <=? 70).

Definition isObjectId (s : string) : bool :=
  (String.length s =? 24) && forallb isHex (String.list_ascii_of_string s).

Definition lower (c : Ascii.ascii) : Ascii.ascii :=
  let n := Ascii.nat_of_ascii c in
  if (65 <=? n) && (n <=? 70) then Ascii.ascii_of_nat (n + 32) else c.

Definition render (s : string) : string :=
  String.string_of_list_ascii (lower <$> String.list_ascii_of_string s).

Definition isSpace (c : Ascii.ascii) : bool :=
  let n := Ascii.nat_of_ascii c in
  (9 <=? n) && (n <=? 13) || (n =? 32).

Fixpoint trimStart (l : list Ascii.ascii) : list Ascii.ascii :=
  match l with
  | c :: l' => if isSpace c then trimStart l' else l
  | [] => []
  end.

Definition trimBoth (s : string) : string :=
  String.string_of_list_ascii
    (rev (trimStart (rev (trimStart (String.list_ascii_of_string s))))).

Definition hex : Mongoose :=
  {| castsToObjectId := isObjectId; objectId := render; trim := trimBoth |}.

End Driver.

(** Sample data: three users, a group of theirs and a message in it. *)

Module Sample.

Definition alice := "65a0000000000000000000a1".
Definition bob := "65a0000000000000000000b2".
Definition carol := "65a0000000000000000000c3".
Definition chat1 := "65a00000000000000000c001".
Definition msg1 := "65a00000000000000000e001".
Definition msg2 := "65a00000000000000000e002".

Definition group1 : Chat.t :=
  {| Chat.type := Chat.group; Chat.name := "team";
     Chat.participants := [alice; bob; carol]; Chat.admins := [alice];
     Chat.lastMessage := Some msg1 |}.

(** A text message of Alice's, as [Message.create] stores it. *)
Definition hello : Message.t :=
  {| Message.chat := chat1; Message.sender := alice;
     Message.content := "hello"; Message.type := Message.text;
     Message.status := Message.sent; Message.readBy := [];
     Message.reactions := []; Message.replyTo := None;
     Message.isEdited := false; Message.editedAt := None;
     Message.isDeleted := false; Message.attachments := [] |}.

(** The same message after a soft delete. *)
Definition tombstone : Message.t :=
  {| Message.chat := chat1; Message.sender := alice;
     Message.content := "This message was deleted";
     Message.type := Message.text;
     Message.status := Message.sent; Message.readBy := [];
     Message.reactions := []; Message.replyTo := None;
     Message.isEdited := false; Message.editedAt := None;
     Message.isDeleted := true; Message.attachments := [] |}.

Definition db1 : Db :=
  {| chats := {[chat1 := group1]}; messages := {[msg1 := hello]} |}.

Definition db2 : Db :=
  {| chats := {[chat1 := group1]}; messages := {[msg1 := tombstone]} |}.

End Sample.

(** Sample client data: the store of Alice's client with one chat, and the
    server's echo of her "hello". *)

Module ClientSample.

Definition alice : ClientUser.t :=
  {| ClientUser.id := Some Sample.alice; ClientUser._id := Some Sample.alice;
     ClientUser.name := "Alice"; ClientUser.email := "alice@example.org";
     ClientUser.avatar := "a.svg"; ClientUser.status := Presence.online |}.

Definition chat : ClientChat.t :=
  {| ClientChat.id := Some Sample.chat1; ClientChat._id := Some Sample.chat1;
     ClientChat.name := "team"; ClientChat.lastMessage := None;
     ClientChat.unreadCount := 0; ClientChat.isMuted := false |}.

Definition store0 : ChatStore.State :=
  {| ChatStore.chats := [chat]; ChatStore.activeChat := Some chat;
     ChatStore.messages := ∅; ChatStore.typingUsers := ∅ |}.

(** The canonical message the gateway broadcasts for Alice's "hello". *)
Definition echo : ClientMessage.t :=
  {| ClientMessage.id := Some Sample.msg1;
     ClientMessage._id := Some Sample.msg1;
     ClientMessage.chat := Sample.chat1;
     ClientMessage.content := "hello";
     ClientMessage.type := Message.text;
     ClientMessage.sender := alice;
     ClientMessage.reactions := [];
     ClientMessage.replyTo := None;
     ClientMessage.createdAt := 1700000000123;
     ClientMessage.isEdited := false;
     ClientMessage.isDeleted := Some false;
     ClientMessage.status := Message.sent |}.

(** The store after Alice sends "hello". *)
Definition sent : ChatStore.State :=
  ChatStore.state
    (ChatStore.sendMessage Sample.chat1 "hello" (Some alice) Message.text None
       1700000000000 1700000000000 store0).

(** The temporary message [sendMessage] makes for it. *)
Definition temp : ClientMessage.t :=
  {| ClientMessage.id := Some "temp-1700000000000";
     ClientMessage._id := Some "temp-1700000000000";
     ClientMessage.chat := Sample.chat1;
     ClientMessage.content := "hello";
     ClientMessage.type := Message.text;
     ClientMessage.sender := alice;
     ClientMessage.reactions := [];
     ClientMessage.replyTo := None;
     ClientMessage.createdAt := 1700000000000;
     ClientMessage.isEdited := false;
     ClientMessage.isDeleted := None;
     ClientMessage.status := Message.sent |}.

End ClientSample.

(** A loaded conversation on Alice's client: a message already shown as
    deleted, then a live one. *)

Module DeleteSample.

Definition gone : ClientMessage.t :=
  {| ClientMessage.id := Some Sample.msg1;
     ClientMessage._id := Some Sample.msg1;
     ClientMessage.chat := Sample.chat1;
     ClientMessage.content := "This message was deleted";
     ClientMessage.type := Message.text;
     ClientMessage.sender := ClientSample.alice;
     ClientMessage.reactions := [];
     ClientMessage.replyTo := None;
     ClientMessage.createdAt := 1700000000123;
     ClientMessage.isEdited := false;
     ClientMessage.isDeleted := Some true;
     ClientMessage.status := Message.sent |}.

Definition live : ClientMessage.t :=
  {| ClientMessage.id := Some Sample.msg2;
     ClientMessage._id := Some Sample.msg2;
     ClientMessage.chat := Sample.chat1;
     ClientMessage.content := "see you";
     ClientMessage.type := Message.text;
     ClientMessage.sender := ClientSample.alice;
     ClientMessage.reactions := [];
     ClientMessage.replyTo := None;
     ClientMessage.createdAt := 1700000000456;
     ClientMessage.isEdited := false;
     ClientMessage.isDeleted := Some false;
     ClientMessage.status := Message.sent |}.

Definition store : ChatStore.State :=
  {| ChatStore.chats := [ClientSample.chat];
     ChatStore.activeChat := Some ClientSample.chat;
     ChatStore.messages := {[Sample.chat1 := [gone; live]]};
     ChatStore.typingUsers := ∅ |}.

End DeleteSample.

(** ** Vocabulary of the properties *)

(** No key of the registry is bound to an empty set. *)
Definition no_empty_entry (m : Presence.OnlineUsers) : Prop :=
  ∀ u sockets, m !! u = Some sockets → sockets ≠ ∅.

(** The test the toggle applies to a reaction: same user, same emoji. *)
Definition is_pair (userId emoji : string) (r : Message.Reaction) : bool :=
  bool_decide (Message.user r = userId) && bool_decide (Message.emoji r = emoji).

(** How many times a reaction list holds the (user, emoji) pair. *)
Definition count_pair (userId emoji : string) (rs : list Message.Reaction) : nat :=
  length (List.filter (is_pair userId emoji) rs).

(** The reactions of the list that are not the (user, emoji) pair, in order. *)
Definition other_reactions (userId emoji : string) (rs : list Message.Reaction)
  : list Message.Reaction :=
  List.filter (λ r, negb (is_pair userId emoji r)) rs.

(** The user is not a participant of the conversation the id names (there
    may be no such conversation). *)
Definition not_participant (db : Db) (userId chatId : string) : Prop :=
  match chats db !! chatId with
  | Some chat => Chat.isParticipant chat userId = false
  | None => True
  end.

(** The users recorded as readers of a message. *)
Definition readers (m : Message.t) : list string :=
  Message.reader <$> Message.readBy m.

(** Every group with participants has an admin. *)
Definition groups_have_admin (db : Db) : Prop :=
  ∀ id chat, chats db !! id = Some chat → Chat.type chat = Chat.group →
             Chat.participants chat ≠ [] → Chat.admins chat ≠ [].

(** The members [leave] keeps: everyone but the caller. *)
Definition remaining (user : ChatRoutes.User) (l : list string) : list string :=
  Js.filter (λ p, negb (bool_decide (p = ChatRoutes._id user))) l.

(** The admins [leave] stores when members remain. *)
Definition admins_after (user : ChatRoutes.User) (chat : Chat.t) : list string :=
  if bool_decide (length (remaining user (Chat.admins chat)) = 0)
     && bool_decide (0 < length (remaining user (Chat.participants chat)))
  then remaining user (Chat.admins chat)
       ++ option_list (head (remaining user (Chat.participants chat)))
  else remaining user (Chat.admins chat).

(** A temporary entry that the echo [message] answers: temp-prefixed id,
    the echo's content, the echo's sender. *)
Definition is_placeholder_of (message msg : ClientMessage.t) : Prop :=
  ClientMessage.isTemp msg = true
  ∧ ClientMessage.content msg = ClientMessage.content message
  ∧ ClientUser.id (ClientMessage.sender msg)
    = ClientUser.id (ClientMessage.sender message).

(** The entries of a sequence that carry the id of [message]. *)
Definition with_id_of (message : ClientMessage.t) (l : list ClientMessage.t)
  : list ClientMessage.t :=
  List.filter (λ m, bool_decide (ClientMessage.key m = ClientMessage.key message)) l.

(** The local sequence of a conversation. *)
Definition sequence (s : ChatStore.State) (chatId : string) : list ClientMessage.t :=
  default [] (ChatStore.messages s !! chatId).

(** The test [deleteMessage] uses to find its target: [(m.id || m._id) ===
    messageId]. *)
Definition has_id (messageId : string) (m : ClientMessage.t) : bool :=
  bool_decide (ClientMessage.key m = Some messageId).

(** The entries of a sequence other than those with this id, in order. *)
Definition others (messageId : string) (l : list ClientMessage.t)
  : list ClientMessage.t :=
  List.filter (λ m, negb (has_id messageId m)) l.

(** The chat rooms among [R] are rooms of conversations the user takes
    part in: the id in a room's name is the id of such a conversation, or
    a spelling that casts to it. *)
Definition isolated `{Mongoose} (db : Db) (userId : string) (R : gset string) : Prop :=
  ∀ chatId, Gateway.chatRoom chatId ∈ R →
    ∃ chat, (chats db !! chatId = Some chat
             ∨ castsToObjectId chatId = true
               ∧ chats db !! objectId chatId = Some chat)
            ∧ Chat.isParticipant chat userId = true.

(** The ids of a local sequence, in order. *)
Definition ids_of (l : list ClientMessage.t) : list (option string) :=
  ClientMessage.key <$> l.

(** The names shown as typing in a conversation. *)
Definition typing (s : ChatStore.State) (chatId : string) : list string :=
  default [] (ChatStore.typingUsers s !! chatId).

(** A group is well run: no admin is listed twice, every admin is a
    participant, and there is an admin as long as there is a participant. *)
Definition well_run (chat : Chat.t) : Prop :=
  NoDup (Chat.admins chat)
  ∧ (∀ a, a ∈ Chat.admins chat → a ∈ Chat.participants chat)
  ∧ (Chat.participants chat ≠ [] → Chat.admins chat ≠ []).

Definition groups_well_run (db : Db) : Prop :=
  ∀ id chat, chats db !! id = Some chat → Chat.type chat = Chat.group →
             well_run chat.

(** The store with no document in it. *)
Definition emptyDb : Db := {| chats := ∅; messages := ∅ |}.

(* ===================================================================== *)
(** * Part II: the properties                                             *)
(* ===================================================================== *)

Section PresenceFacts.
Import Presence.

Lemma registered_connection u s m u' :
  registered (fst (connection u s m)) u' =
  if bool_decide (u = u') then registered m u' ∪ {[s]} else registered m u'.
Proof.
  unfold registered, connection, has; simpl.
  destruct (decide (u = u')) as [->|Hne].
  - rewrite (bool_decide_eq_true_2 (u' = u')) by done.
    destruct (m !! u') as [sockets|] eqn:Hm; simpl.
    + by rewrite lookup_alter_eq, Hm.
    + by rewrite lookup_alter_eq, lookup_insert_eq.
  - rewrite (bool_decide_eq_false_2 (u = u')) by done.
    rewrite lookup_alter_ne by done.
    case_bool_decide; [done|]. by rewrite lookup_insert_ne.
Qed.

Lemma registered_disconnect u s m u' :
  registered (fst (disconnect u s m)) u' =
  if bool_decide (u = u') then registered m u' ∖ {[s]} else registered m u'.
Proof.
  unfold registered, disconnect.
  destruct (decide (u = u')) as [<-|Hne].
  - rewrite (bool_decide_eq_true_2 (u = u)) by done.
    destruct (m !! u) as [sockets|] eqn:Hm; simpl;
      [|by rewrite Hm, empty_difference_L].
    case_bool_decide as Hsz; simpl.
    + apply size_empty_inv, leibniz_equiv in Hsz.
      by rewrite lookup_delete_eq, Hsz.
    + by rewrite lookup_insert_eq.
  - rewrite (bool_decide_eq_false_2 (u = u')) by done.
    destruct (m !! u) as [sockets|] eqn:Hm; simpl; [|done].
    case_bool_decide; simpl.
    + by rewrite lookup_delete_ne, lookup_insert_ne.
    + by rewrite lookup_insert_ne.
Qed.

Lemma connection_no_empty u s m :
  no_empty_entry m → no_empty_entry (fst (connection u s m)).
Proof.
  intros Hinv u' sockets. unfold connection, has; simpl.
  destruct (decide (u = u')) as [->|Hne].
  - rewrite lookup_alter_eq. intros Hl.
    apply fmap_Some in Hl as (old & _ & ->). set_solver.
  - rewrite lookup_alter_ne by done.
    case_bool_decide; [apply Hinv|].
    rewrite lookup_insert_ne by done. apply Hinv.
Qed.

Lemma disconnect_no_empty u s m :
  no_empty_entry m → no_empty_entry (fst (disconnect u s m)).
Proof.
  intros Hinv u' sockets. unfold disconnect.
  destruct (m !! u) as [old|] eqn:Hm; simpl; [|apply Hinv].
  case_bool_decide as Hsz; simpl.
  - destruct (decide (u = u')) as [->|Hne].
    + by rewrite lookup_delete_eq.
    + rewrite lookup_delete_ne, lookup_insert_ne by done. apply Hinv.
  - destruct (decide (u = u')) as [->|Hne].
    + rewrite lookup_insert_eq. intros [= <-] Hempty.
      apply Hsz. rewrite Hempty. apply size_empty.
    + rewrite lookup_insert_ne by done. apply Hinv.
Qed.

Lemma step_no_empty m e : no_empty_entry m → no_empty_entry (step m e).
Proof.
  destruct e; simpl; [apply connection_no_empty | apply disconnect_no_empty].
Qed.

Lemma foldl_step_no_empty trace m :
  no_empty_entry m → no_empty_entry (foldl step m trace).
Proof.
  revert m. induction trace as [|e trace IH]; intros m Hm; simpl; [done|].
  apply IH, step_no_empty, Hm.
Qed.

Lemma run_no_empty trace : no_empty_entry (run trace).
Proof.
  apply foldl_step_no_empty. intros u sockets. unfold newMap.
  by rewrite lookup_empty.
Qed.

Lemma registered_step m e u :
  registered (step m e) u = live_step u (registered m u) e.
Proof.
  destruct e as [u' s|u' s]; simpl.
  - apply registered_connection.
  - apply registered_disconnect.
Qed.

Lemma registered_foldl trace m live u :
  registered m u = live →
  registered (foldl step m trace) u = foldl (live_step u) live trace.
Proof.
  revert m live. induction trace as [|e trace IH]; intros m live Hm; simpl; [done|].
  apply IH. rewrite registered_step. by rewrite Hm.
Qed.

(** After a trace of handler runs the registry holds, for every user, the
    sockets registered and not taken out since. *)
Lemma registered_run trace u : registered (run trace) u = activeConnections trace u.
Proof. by apply registered_foldl. Qed.


Lemma lifecycle_step_no_empty st e :
  no_empty_entry (Lifecycle.onlineUsers st) →
  no_empty_entry (Lifecycle.onlineUsers (Lifecycle.step st e)).
Proof.
  intros Hinv. destruct e as [u s|u s|s]; simpl.
  - by apply connection_no_empty.
  - done.
  - case_bool_decide; [done|]. simpl.
    destruct (Lifecycle.listeners st !! s); [by apply disconnect_no_empty|done].
Qed.

Lemma lifecycle_foldl_no_empty trace st :
  no_empty_entry (Lifecycle.onlineUsers st) →
  no_empty_entry (Lifecycle.onlineUsers (foldl Lifecycle.step st trace)).
Proof.
  revert st. induction trace as [|e trace IH]; intros st Hst; simpl; [done|].
  apply IH, lifecycle_step_no_empty, Hst.
Qed.

Lemma lifecycle_run_no_empty trace :
  no_empty_entry (Lifecycle.onlineUsers (Lifecycle.run trace)).
Proof.
  apply lifecycle_foldl_no_empty. intros u sockets. simpl. unfold newMap.
  by rewrite lookup_empty.
Qed.


(** A handle in the registry need not be an open socket: one that closes
    while the connection handler is still awaiting stays registered, and
    its user stays online. *)
Example closed_before_listening :
  let st := Lifecycle.run [Lifecycle.Opens "u1" "s1"; Lifecycle.Closes "s1";
                           Lifecycle.Listens "u1" "s1"] in
  "s1" ∈ Lifecycle.closed st
  ∧ registered (Lifecycle.onlineUsers st) "u1" = {["s1"]}
  ∧ isUserOnline (Lifecycle.onlineUsers st) "u1" = true.
Proof.
  repeat split; apply (bool_decide_unpack _); by vm_compute.
Qed.

(** A socket that closes with its listener attached is taken out. *)
Example closed_while_listening :
  let st := Lifecycle.run [Lifecycle.Opens "u1" "s1"; Lifecycle.Listens "u1" "s1";
                           Lifecycle.Closes "s1"] in
  registered (Lifecycle.onlineUsers st) "u1" = ∅
  ∧ isUserOnline (Lifecycle.onlineUsers st) "u1" = false.
Proof.
  repeat split; apply (bool_decide_unpack _); by vm_compute.
Qed.

End PresenceFacts.

Section ReactionFacts.
Import Gateway.

Lemma findIndex_None {A} (f : A → bool) (l : list A) :
  Js.findIndex f l = None ↔ List.filter f l = [].
Proof.
  induction l as [|x l IH]; simpl; [done|].
  destruct (f x); [split; discriminate|].
  rewrite fmap_None. apply IH.
Qed.

(** [findIndex] answers the first position that passes the test. *)
Lemma findIndex_Some {A} (f : A → bool) (l : list A) (i : nat) :
  Js.findIndex f l = Some i →
  ∃ x, l !! i = Some x ∧ f x = true ∧ List.filter f (take i l) = [].
Proof.
  revert i. induction l as [|x l IH]; intros i; simpl; [discriminate|].
  destruct (f x) eqn:Hfx.
  - intros [= <-]. exists x. by rewrite Hfx.
  - intros Hi. apply fmap_Some in Hi as (j & Hj & ->).
    destruct (IH j Hj) as (y & Hy & Hfy & Hpre).
    exists y. simpl. by rewrite Hfx.
Qed.

Lemma filter_delete_hit {A} (f : A → bool) (l : list A) i x :
  l !! i = Some x → f x = true →
  S (length (List.filter f (delete i l))) = length (List.filter f l).
Proof.
  revert i. induction l as [|y l IH]; intros [|i]; simpl; try discriminate.
  - intros [= ->] Hfx. by rewrite Hfx.
  - intros Hl Hfx. destruct (f y); simpl; rewrite <- (IH i); done.
Qed.

Lemma filter_delete_miss {A} (f : A → bool) (l : list A) i x :
  l !! i = Some x → f x = false →
  List.filter f (delete i l) = List.filter f l.
Proof.
  revert i. induction l as [|y l IH]; intros [|i]; simpl; try discriminate.
  - intros [= ->] Hfx. by rewrite Hfx.
  - intros Hl Hfx. destruct (f y); simpl; rewrite (IH i); done.
Qed.

Lemma is_pair_new u e :
  is_pair u e {| Message.emoji := e; Message.user := u |} = true.
Proof. unfold is_pair; simpl. by rewrite !bool_decide_eq_true_2. Qed.

(** One application: the pair is added when absent, and one instance of
    it is removed when present. *)
Lemma count_pair_toggle u e rs :
  count_pair u e (toggleReaction u e rs) =
  match count_pair u e rs with 0 => 1 | S n => n end.
Proof.
  unfold toggleReaction, count_pair. fold (is_pair u e).
  destruct (Js.findIndex (is_pair u e) rs) as [i|] eqn:Hi.
  - apply findIndex_Some in Hi as (x & Hx & Hfx & _).
    unfold Js.splice1.
    by rewrite <- (filter_delete_hit (is_pair u e) rs i x Hx Hfx).
  - apply findIndex_None in Hi.
    rewrite List.filter_app, Hi. simpl. by rewrite is_pair_new.
Qed.

(** The toggle leaves every other reaction where it was. *)
Lemma other_reactions_toggle u e rs :
  other_reactions u e (toggleReaction u e rs) = other_reactions u e rs.
Proof.
  unfold toggleReaction, other_reactions. fold (is_pair u e).
  destruct (Js.findIndex (is_pair u e) rs) as [i|] eqn:Hi.
  - apply findIndex_Some in Hi as (x & Hx & Hfx & _).
    apply (filter_delete_miss _ rs i x Hx). by rewrite Hfx.
  - rewrite List.filter_app. simpl. rewrite is_pair_new. simpl.
    by rewrite app_nil_r.
Qed.

Lemma findIndex_app_new {A} (f : A → bool) (l : list A) x :
  List.filter f l = [] → f x = true →
  Js.findIndex f (l ++ [x]) = Some (length l).
Proof.
  intros Hl Hx. induction l as [|y l IH]; simpl in *; [by rewrite Hx|].
  destruct (f y); [discriminate|]. by rewrite IH.
Qed.

(** From a list without the pair, two applications give the list back. *)
Lemma toggle_twice_absent u e rs :
  count_pair u e rs = 0 → toggleReaction u e (toggleReaction u e rs) = rs.
Proof.
  unfold count_pair. intros Hc. apply nil_length_inv in Hc.
  unfold toggleReaction at 2. fold (is_pair u e).
  rewrite (proj2 (findIndex_None _ _) Hc).
  unfold toggleReaction. fold (is_pair u e).
  rewrite (findIndex_app_new _ _ _ Hc (is_pair_new u e)).
  unfold Js.splice1. clear Hc.
  induction rs as [|r rs IH]; simpl; [done|]. by rewrite IH.
Qed.

Lemma count_pair_iter u e rs n :
  count_pair u e rs ≤ 1 →
  count_pair u e (Nat.iter n (toggleReaction u e) rs) =
  if Nat.even n then count_pair u e rs else 1 - count_pair u e rs.
Proof.
  intros Hc. induction n as [|n IH]; [done|].
  rewrite Nat.even_succ, <- Nat.negb_even. simpl.
  rewrite count_pair_toggle, IH.
  destruct (Nat.even n); simpl; destruct (count_pair u e rs) as [|[|k]]; simpl; lia.
Qed.

(** C3 (amended). On a reaction list that holds the (user, emoji) pair at
    most once, two applications of the toggle leave the number of
    instances of the pair and all other reactions as they were (and give
    the very list back when the pair was absent); an odd number of
    applications leaves exactly one instance when the pair was absent, and
    none when it was present. *)
Theorem reaction_toggle_parity (u e : string) (rs : list Message.Reaction) :
  count_pair u e rs ≤ 1 →
  count_pair u e (toggleReaction u e (toggleReaction u e rs)) = count_pair u e rs
  ∧ other_reactions u e (toggleReaction u e (toggleReaction u e rs))
    = other_reactions u e rs
  ∧ (count_pair u e rs = 0 →
     toggleReaction u e (toggleReaction u e rs) = rs)
  ∧ ∀ n, Nat.Odd n →
      count_pair u e (Nat.iter n (toggleReaction u e) rs) = 1 - count_pair u e rs.
Proof.
  intros Hc. repeat split.
  - rewrite !count_pair_toggle.
    destruct (count_pair u e rs) as [|[|k]]; simpl; lia.
  - by rewrite !other_reactions_toggle.
  - apply toggle_twice_absent.
  - intros n Hn. rewrite count_pair_iter by done.
    apply Nat.odd_spec in Hn. rewrite <- Nat.negb_odd, Hn. done.
Qed.

(** The toggle keeps a list that holds the pair at most once that way, so
    every list grown from a new message's empty one qualifies. *)
Lemma count_pair_toggle_le u e rs :
  count_pair u e rs ≤ 1 → count_pair u e (toggleReaction u e rs) ≤ 1.
Proof.
  intros Hc. rewrite count_pair_toggle.
  destruct (count_pair u e rs) as [|[|k]]; lia.
Qed.

Lemma reaction_toggle_parity_witness :
  let rs := [{| Message.emoji := "+1"; Message.user := "u2" |}] in
  count_pair "u1" "+1" (toggleReaction "u1" "+1" (toggleReaction "u1" "+1" rs)) = 0
  ∧ toggleReaction "u1" "+1" (toggleReaction "u1" "+1" rs) = rs
  ∧ count_pair "u1" "+1" (Nat.iter 3 (toggleReaction "u1" "+1") rs) = 1.
Proof.
  intros rs.
  destruct (reaction_toggle_parity "u1" "+1" rs) as (H2 & _ & Hid & Hodd).
  { vm_compute. lia. }
  split; [exact H2|]. split; [by apply Hid|].
  apply (Hodd 3). by exists 1.
Defined.

(** Against C3 as the specification words it: one application (an odd number) to a message that
    already carries the caller's reaction removes it, leaving no instance
    of the pair rather than exactly one. *)
Lemma reaction_toggle_odd_counterexample :
  let rs := [{| Message.emoji := "+1"; Message.user := "u1" |}] in
  Nat.Odd 1
  ∧ Nat.iter 1 (toggleReaction "u1" "+1") rs = []
  ∧ count_pair "u1" "+1" (Nat.iter 1 (toggleReaction "u1" "+1") rs) ≠ 1.
Proof. split; [by exists 0|]. split; [reflexivity|vm_compute; lia]. Qed.

(** Without the at-most-once condition two applications do change the
    count: both remove. *)
Example reaction_toggle_twice_duplicates :
  let r := {| Message.emoji := "+1"; Message.user := "u1" |} in
  count_pair "u1" "+1" [r; r] = 2
  ∧ count_pair "u1" "+1" (toggleReaction "u1" "+1" (toggleReaction "u1" "+1" [r; r])) = 0.
Proof. split; reflexivity. Qed.

End ReactionFacts.

Section GatewayFacts.
Import Gateway.
Context `{Mongoose}.

Lemma findById_casts {A} (collection : gmap string A) id :
  castsToObjectId id = true →
  findById collection id =
  match collection !! id with Some doc => Found doc | None => Null end.
Proof. unfold findById. by intros ->. Qed.

Lemma findByIdCast_casts {A} (collection : gmap string A) id :
  castsToObjectId id = true →
  findByIdCast collection id =
  match collection !! objectId id with Some doc => Found doc | None => Null end.
Proof. unfold findByIdCast. by intros ->. Qed.

(** [join-chat] on an id that names no conversation or one the caller is
    not part of: nothing happens. *)
Lemma join_chat_ignored userId socketId chatId db (rooms : Rooms) :
  castsToObjectId chatId = true → not_participant db userId (objectId chatId) →
  join_chat userId socketId chatId db rooms = (rooms, []).
Proof.
  unfold join_chat, not_participant. intros Hc Hnp.
  rewrite findByIdCast_casts by done.
  destruct (chats db !! objectId chatId) as [chat|]; [|done]. by rewrite Hnp.
Qed.

(** The only event [join-chat] ever emits is the caller's own [error], on
    an id that is no ObjectId; no room changes then either. *)
Lemma join_chat_rejected userId socketId chatId db (rooms : Rooms) :
  castsToObjectId chatId = false →
  join_chat userId socketId chatId db rooms
  = (rooms, [error "Failed to join chat"]).
Proof. unfold join_chat, findByIdCast. by intros ->. Qed.

Lemma join_chat_participant userId socketId chatId db (rooms : Rooms) chat :
  castsToObjectId chatId = true → chats db !! objectId chatId = Some chat →
  Chat.isParticipant chat userId = true →
  join_chat userId socketId chatId db rooms
  = (join socketId (chatRoom chatId) rooms, []).
Proof.
  unfold join_chat. intros Hc Hl Hp.
  by rewrite findByIdCast_casts, Hl, Hp.
Qed.

(** What [edit-message] writes. *)
Lemma edited_fields m content now :
  Message.content (Message.edited m content now) = trim content
  ∧ Message.isEdited (Message.edited m content now) = true
  ∧ Message.editedAt (Message.edited m content now) = Some now
  ∧ Message.isDeleted (Message.edited m content now) = Message.isDeleted m
  ∧ Message.type (Message.edited m content now) = Message.type m.
Proof. done. Qed.

(** The handler never looks at the type or the deleted flag: whenever the
    caller is the sender and the new content is storable, it edits. *)
Lemma edit_message_sender userId messageId content now db m :
  castsToObjectId messageId = true →
  messages db !! objectId messageId = Some m →
  Message.sender m = userId →
  Message.validators (Message.edited m content now)
  && Message.preSave (Message.edited m content now) = true →
  edit_message userId messageId content now db =
  (with_messages db
     (<[objectId messageId := Message.edited m content now]> (messages db)),
   [{| target := ToRoom (chatRoom (Message.chat m));
       event := "message-edited";
       payload := PMessageEdited (Message.chat m) (Message.edited m content now) |}]).
Proof.
  intros Hc Hm Hs Hv. unfold edit_message.
  rewrite findByIdCast_casts, Hm by done.
  rewrite bool_decide_eq_true_2 by done. simpl.
  unfold Message.save. by rewrite Hv.
Qed.

Lemma edit_message_refused userId messageId content now db :
  castsToObjectId messageId = true →
  (messages db !! objectId messageId = None
   ∨ ∃ m, messages db !! objectId messageId = Some m ∧ Message.sender m ≠ userId) →
  edit_message userId messageId content now db = (db, [error "Not authorized"]).
Proof.
  intros Hc Hm. unfold edit_message. rewrite findByIdCast_casts by done.
  destruct Hm as [->|(m & -> & Hs)]; [done|].
  by rewrite bool_decide_eq_false_2.
Qed.

(** An id that does not cast makes the lookup reject: the caller gets the
    handler's other [error] and nothing is stored. *)
Lemma edit_message_rejected userId messageId content now db :
  castsToObjectId messageId = false →
  edit_message userId messageId content now db
  = (db, [error "Failed to edit message"]).
Proof. unfold edit_message, findByIdCast. by intros ->. Qed.

End GatewayFacts.

(** C4 (amended). [edit-message] rewrites the content, sets the edited flag
    and timestamp and broadcasts [message-edited] to the room when the
    caller is the original sender of a text message and the new content is
    storable, whether or not the message is soft-deleted; when the message
    does not exist or the caller is not its sender, the store is left as it
    was and only an [error] event goes to the caller.  The message is the
    one stored under the ObjectId that the id of the request casts to. *)
Theorem edit_message_authorization `{Mongoose}
    (userId messageId content : string) (now : Z) (db : Db) :
  castsToObjectId messageId = true →
  (∀ m, messages db !! objectId messageId = Some m →
        Message.sender m = userId →
        Message.type m = Message.text →
        Message.validators (Message.edited m content now)
        && Message.preSave (Message.edited m content now) = true →
        Gateway.edit_message userId messageId content now db =
        (with_messages db
           (<[objectId messageId := Message.edited m content now]> (messages db)),
         [{| Gateway.target := Gateway.ToRoom (Gateway.chatRoom (Message.chat m));
             Gateway.event := "message-edited";
             Gateway.payload :=
               Gateway.PMessageEdited (Message.chat m)
                 (Message.edited m content now) |}])
        ∧ Message.content (Message.edited m content now) = trim content
        ∧ Message.isEdited (Message.edited m content now) = true
        ∧ Message.editedAt (Message.edited m content now) = Some now)
  ∧ ((messages db !! objectId messageId = None
      ∨ ∃ m, messages db !! objectId messageId = Some m
             ∧ Message.sender m ≠ userId) →
     Gateway.edit_message userId messageId content now db
     = (db, [Gateway.error "Not authorized"])).
Proof.
  intros Hc. split.
  - intros m Hm Hs _ Hv. split; [by apply edit_message_sender|done].
  - by apply edit_message_refused.
Qed.

Lemma edit_message_authorization_witness :
  (Message.content <$>
     messages (Gateway.edit_message (H := Driver.hex) Sample.alice Sample.msg1
                 " hello again" 1700000000000 Sample.db2).1 !! Sample.msg1)
  = Some "hello again"
  ∧ Gateway.edit_message (H := Driver.hex) Sample.bob Sample.msg1
      "hello again" 1700000000000 Sample.db2
    = (Sample.db2, [Gateway.error "Not authorized"]).
Proof.
  destruct (edit_message_authorization (H := Driver.hex) Sample.alice Sample.msg1
              " hello again" 1700000000000 Sample.db2) as [Hedit _];
    [reflexivity|].
  destruct (edit_message_authorization (H := Driver.hex) Sample.bob Sample.msg1
              "hello again" 1700000000000 Sample.db2) as [_ Hrefuse];
    [reflexivity|].
  split.
  - destruct (Hedit Sample.tombstone) as [-> _]; reflexivity.
  - apply Hrefuse. right. exists Sample.tombstone. split; [reflexivity|].
    vm_compute. discriminate.
Defined.

(** An id spelled in upper case reaches the same message: Bob is refused
    as not authorized, and Alice's edit is stored under the message's own
    id. *)
Example edit_message_other_spelling :
  Gateway.edit_message (H := Driver.hex) Sample.bob "65A00000000000000000E001"
    "hello again" 1700000000000 Sample.db1
  = (Sample.db1, [Gateway.error "Not authorized"])
  ∧ (Message.content <$>
       messages (Gateway.edit_message (H := Driver.hex) Sample.alice
                   "65A00000000000000000E001" "hello again" 1700000000000
                   Sample.db1).1 !! Sample.msg1)
    = Some "hello again".
Proof. split; reflexivity. Qed.

(** Against C4 as the specification words it: the sender's edit of a soft-deleted message is not
    refused; the tombstone is overwritten and the edit is broadcast, with
    no [error] event. *)
Lemma edit_deleted_message_counterexample :
  messages Sample.db2 !! Sample.msg1 = Some Sample.tombstone
  ∧ Message.isDeleted Sample.tombstone = true
  ∧ Gateway.edit_message (H := Driver.hex) Sample.alice Sample.msg1
      "hello again" 1700000000000 Sample.db2
    = (with_messages Sample.db2
         {[Sample.msg1 :=
             Message.edited (H := Driver.hex) Sample.tombstone
               "hello again" 1700000000000]},
       [{| Gateway.target := Gateway.ToRoom ("chat:" +:+ Sample.chat1);
           Gateway.event := "message-edited";
           Gateway.payload :=
             Gateway.PMessageEdited Sample.chat1
               (Message.edited (H := Driver.hex) Sample.tombstone
                  "hello again" 1700000000000) |}])
  ∧ Message.content
      (Message.edited (H := Driver.hex) Sample.tombstone
         "hello again" 1700000000000) = "hello again".
Proof.
  split; [reflexivity|]. split; [reflexivity|]. split; [|reflexivity].
  rewrite (edit_message_sender (H := Driver.hex) _ _ _ _ _ Sample.tombstone);
    reflexivity.
Qed.

(** C8. A [join-chat] request from a user who is not a participant of the
    conversation the id names, however the id is spelled, changes the room
    membership of no socket and emits nothing: no [error] event to
    anyone. *)
Theorem join_chat_unauthorized_silent `{Mongoose}
    (userId socketId chatId : string) (db : Db) (rooms : Gateway.Rooms) :
  castsToObjectId chatId = true →
  not_participant db userId (objectId chatId) →
  Gateway.join_chat userId socketId chatId db rooms = (rooms, []).
Proof. apply join_chat_ignored. Qed.

Lemma join_chat_unauthorized_silent_witness :
  Gateway.join_chat (H := Driver.hex) "65a0000000000000000000d4" "socket-9"
    Sample.chat1 Sample.db1 {["socket-9" := {["user:65a0000000000000000000d4"]}]}
  = ({["socket-9" := {["user:65a0000000000000000000d4"]}]}, []).
Proof.
  apply (join_chat_unauthorized_silent (H := Driver.hex)); reflexivity.
Defined.

(** The id spelled in upper case names the same conversation: an outsider
    is ignored just the same, and a participant joins the room named with
    the spelling that was sent. *)
Example join_chat_other_spelling :
  Gateway.join_chat (H := Driver.hex) "65a0000000000000000000d4" "socket-9"
    "65A00000000000000000C001" Sample.db1 ∅ = (∅, [])
  ∧ Gateway.join_chat (H := Driver.hex) Sample.bob "socket-7"
      "65A00000000000000000C001" Sample.db1 ∅
    = ({["socket-7" := {["chat:65A00000000000000000C001"]}]}, []).
Proof.
  split.
  - apply (join_chat_ignored (H := Driver.hex)); reflexivity.
  - by rewrite (join_chat_participant (H := Driver.hex) _ _ _ _ _ Sample.group1).
Qed.

Section ReadFacts.
Import Gateway.
Context `{Mongoose}.

Lemma updateManyRead_lookup userId ids now (ms : gmap string Message.t) id :
  updateManyRead userId ids now ms !! id =
  (λ m, if bool_decide (id ∈ objectId <$> ids)
           && negb (bool_decide (Message.sender m = userId))
        then Message.read_by m userId now else m) <$> ms !! id.
Proof.
  unfold updateManyRead. rewrite map_lookup_imap.
  by destruct (ms !! id).
Qed.

Lemma reader_recorded m userId now :
  userId ∈ readers (Message.read_by m userId now).
Proof.
  unfold readers, Message.read_by, Message.addToSet; simpl.
  rewrite fmap_app. apply elem_of_app. right. apply list_elem_of_singleton. done.
Qed.

Lemma mark_read_run userId chatId ids now db :
  ids ≠ [] → forallb castsToObjectId ids = true →
  mark_read userId chatId (Some ids) now db =
  (with_messages db (updateManyRead userId ids now (messages db)),
   [{| target := ToRoomButCaller (chatRoom chatId);
       event := "messages-read";
       payload := PMessagesRead chatId userId (Some ids) |}]).
Proof.
  intros Hne Hc. unfold mark_read. rewrite Hc.
  rewrite bool_decide_eq_true_2; [done|].
  destruct ids; [done|simpl; lia].
Qed.

(** One id that does not cast is enough for nothing to be marked, and for
    nothing to be emitted. *)
Lemma mark_read_malformed userId chatId ids now db :
  ids ≠ [] → forallb castsToObjectId ids = false →
  mark_read userId chatId (Some ids) now db = (db, []).
Proof.
  intros Hne Hc. unfold mark_read. rewrite Hc.
  rewrite bool_decide_eq_true_2; [done|].
  destruct ids; [done|simpl; lia].
Qed.

End ReadFacts.

(** C5 (amended). When every id of the request is well formed, [mark-read]
    records the caller as a reader of every targeted message the caller did
    not send and sets the status of each of them to [seen] at once, whoever
    else has or has not read it; messages not targeted, and the caller's
    own, stay as they were.  A message is targeted when its id is the
    ObjectId that one of the ids of the request casts to. *)
Theorem mark_read_sets_seen `{Mongoose}
    (userId chatId : string) (ids : list string) (now : Z) (db : Db) :
  ids ≠ [] →
  forallb castsToObjectId ids = true →
  let db' := (Gateway.mark_read userId chatId (Some ids) now db).1 in
  chats db' = chats db
  ∧ ∀ id m, messages db !! id = Some m →
      (id ∈ objectId <$> ids → Message.sender m ≠ userId →
       ∃ m', messages db' !! id = Some m'
             ∧ userId ∈ readers m'
             ∧ Message.status m' = Message.seen
             ∧ Message.content m' = Message.content m
             ∧ Message.sender m' = Message.sender m)
      ∧ (id ∉ objectId <$> ids ∨ Message.sender m = userId →
         messages db' !! id = Some m).
Proof.
  intros Hne Hc db'. subst db'. rewrite mark_read_run by done. simpl.
  split; [done|]. intros id m Hm. rewrite updateManyRead_lookup, Hm. simpl.
  split.
  - intros Hin Hs. rewrite !bool_decide_eq_true_2, bool_decide_eq_false_2 by done.
    simpl. eexists. split; [done|]. split; [apply reader_recorded|done].
  - intros [Hnin|Hs].
    + by rewrite bool_decide_eq_false_2.
    + rewrite (bool_decide_eq_true_2 (Message.sender m = userId)) by done.
      by rewrite andb_false_r.
Qed.

Lemma mark_read_sets_seen_witness :
  ∃ m', messages (Gateway.mark_read (H := Driver.hex) Sample.bob Sample.chat1
                    (Some [Sample.msg1]) 1700000000000 Sample.db1).1
          !! Sample.msg1 = Some m'
        ∧ Sample.bob ∈ readers m'
        ∧ Message.status m' = Message.seen
        ∧ Message.content m' = "hello"
        ∧ Message.sender m' = Sample.alice.
Proof.
  destruct (mark_read_sets_seen (H := Driver.hex) Sample.bob Sample.chat1
              [Sample.msg1] 1700000000000 Sample.db1) as [_ Hread];
    [discriminate|reflexivity|].
  destruct (Hread Sample.msg1 Sample.hello) as [Hseen _]; [reflexivity|].
  apply Hseen; [by apply list_elem_of_singleton|vm_compute; discriminate].
Defined.

(** The same request with the id spelled in upper case marks the same
    message. *)
Example mark_read_other_spelling :
  (Gateway.mark_read (H := Driver.hex) Sample.bob Sample.chat1
     (Some ["65A00000000000000000E001"]) 1700000000000 Sample.db1).1
  = (Gateway.mark_read (H := Driver.hex) Sample.bob Sample.chat1
       (Some [Sample.msg1]) 1700000000000 Sample.db1).1.
Proof. reflexivity. Qed.

(** Against C5 as the specification words it: in a group of Alice, Bob and Carol, Bob alone
    marking Alice's message read makes it [seen], though Carol, a
    participant other than the sender, is not among its readers. *)
Lemma mark_read_seen_counterexample :
  let db' := (Gateway.mark_read (H := Driver.hex) Sample.bob Sample.chat1
                (Some [Sample.msg1]) 1700000000000 Sample.db1).1 in
  (Chat.participants <$> chats db' !! Sample.chat1)
    = Some [Sample.alice; Sample.bob; Sample.carol]
  ∧ (Message.sender <$> messages db' !! Sample.msg1) = Some Sample.alice
  ∧ (Message.status <$> messages db' !! Sample.msg1) = Some Message.seen
  ∧ (readers <$> messages db' !! Sample.msg1) = Some [Sample.bob]
  ∧ Sample.carol ∉ [Sample.bob].
Proof.
  repeat split; try reflexivity.
  intros Hin. apply list_elem_of_singleton in Hin. discriminate.
Qed.

Section AddReactionFacts.
Import Gateway.
Context `{Mongoose}.

(** For a participant, and when the result is storable, [add-reaction]
    stores the toggled list and broadcasts it to the room. *)
Lemma add_reaction_toggles userId messageId emoji db m chat :
  castsToObjectId messageId = true →
  messages db !! messageId = Some m →
  chats db !! Message.chat m = Some chat →
  Chat.isParticipant chat userId = true →
  let m' := Message.with_reactions m
              (toggleReaction userId emoji (Message.reactions m)) in
  Message.validators m' && Message.preSave m' = true →
  add_reaction userId messageId emoji db =
  (with_messages db (<[messageId := m']> (messages db)),
   [{| target := ToRoom (chatRoom (Message.chat m));
       event := "reaction-updated";
       payload := PReactionUpdated (Message.chat m) messageId
                    (toggleReaction userId emoji (Message.reactions m)) |}]).
Proof.
  intros Hc Hm Hchat Hp m' Hv. unfold add_reaction.
  rewrite findById_casts, Hm, Hchat, Hp by done. simpl.
  unfold Message.save. fold m'. by rewrite Hv.
Qed.

(** Anyone else gets the caller-only [error] and nothing is stored. *)
Lemma add_reaction_refused userId messageId emoji db m :
  castsToObjectId messageId = true →
  messages db !! messageId = Some m →
  not_participant db userId (Message.chat m) →
  add_reaction userId messageId emoji db = (db, [error "Not authorized"]).
Proof.
  unfold not_participant. intros Hc Hm Hnp. unfold add_reaction.
  rewrite findById_casts, Hm by done.
  destruct (chats db !! Message.chat m); [|done]. by rewrite Hnp.
Qed.

End AddReactionFacts.

Example add_reaction_twice_on_sample :
  let db' := (Gateway.add_reaction (H := Driver.hex) Sample.bob Sample.msg1 "+1"
                Sample.db1).1 in
  (Message.reactions <$> messages db' !! Sample.msg1)
    = Some [{| Message.emoji := "+1"; Message.user := Sample.bob |}]
  ∧ (Gateway.add_reaction (H := Driver.hex) Sample.bob Sample.msg1 "+1" db').1
    = Sample.db1.
Proof. split; reflexivity. Qed.

Section LeaveFacts.
Import ChatRoutes.
Context `{Mongoose}.

Lemma admins_after_nonempty user chat :
  remaining user (Chat.participants chat) ≠ [] → admins_after user chat ≠ [].
Proof.
  unfold admins_after. intros Hp.
  destruct (remaining user (Chat.participants chat)) as [|p ps]; [done|].
  destruct (remaining user (Chat.admins chat)) as [|a ads]; simpl; done.
Qed.

(** What [leave] does to the chat collection when it gets past its
    guards. *)
Lemma leave_chats user id newId db chat :
  castsToObjectId id = true →
  chats db !! id = Some chat →
  Chat.type chat = Chat.group →
  Chat.isParticipant chat (_id user) = true →
  chats (leave user id newId db).1 =
  if bool_decide (length (remaining user (Chat.participants chat)) = 0)
  then delete id (chats db)
  else <[id := Chat.with_members chat
                 (remaining user (Chat.participants chat))
                 (admins_after user chat)]> (chats db).
Proof.
  intros Hc Hl Ht Hp. unfold leave.
  rewrite findById_casts, Hl, Ht, Hp by done. simpl.
  fold (remaining user (Chat.participants chat)).
  fold (remaining user (Chat.admins chat)).
  case_bool_decide as Hlen; [done|].
  fold (admins_after user chat).
  by destruct (Message.save _ _ _).
Qed.

(** A request that does not get past the guards changes nothing. *)
Lemma leave_guards user id newId db :
  (leave user id newId db).1 = db
  ∨ ∃ chat, castsToObjectId id = true ∧ chats db !! id = Some chat
            ∧ Chat.type chat = Chat.group
            ∧ Chat.isParticipant chat (_id user) = true.
Proof.
  unfold leave, findById.
  destruct (castsToObjectId id); [|by left].
  destruct (chats db !! id) as [chat|] eqn:Hl; [|by left].
  case_bool_decide as Ht; simpl; [|by left].
  destruct (Chat.isParticipant chat (_id user)) eqn:Hp; simpl; [|by left].
  right. by exists chat.
Qed.

End LeaveFacts.

(** C6. After a leave from a group, the conversation, if it still has
    participants, has an admin: when nobody is left of the admins, the first
    remaining participant is made admin, and the group is kept. *)
Theorem leave_keeps_an_admin `{Mongoose}
    (user : ChatRoutes.User) (id newId : string) (db : Db) (chat : Chat.t) :
  castsToObjectId id = true →
  chats db !! id = Some chat →
  Chat.type chat = Chat.group →
  Chat.isParticipant chat (ChatRoutes._id user) = true →
  let db' := (ChatRoutes.leave user id newId db).1 in
  (∀ chat', chats db' !! id = Some chat' →
            Chat.participants chat' ≠ [] → Chat.admins chat' ≠ [])
  ∧ (remaining user (Chat.participants chat) ≠ [] →
     remaining user (Chat.admins chat) = [] →
     ∃ p, head (remaining user (Chat.participants chat)) = Some p
          ∧ chats db' !! id
            = Some (Chat.with_members chat
                      (remaining user (Chat.participants chat)) [p])).
Proof.
  intros Hc Hl Ht Hp db'. subst db'.
  rewrite (leave_chats user id newId db chat) by done.
  case_bool_decide as Hlen.
  - split.
    + intros chat'. by rewrite lookup_delete_eq.
    + intros Hne. by destruct (remaining user (Chat.participants chat)).
  - rewrite lookup_insert_eq. split.
    + intros chat' [= <-]; simpl. intros Hps. by apply admins_after_nonempty.
    + intros Hne Hads. unfold admins_after. rewrite Hads. simpl.
      destruct (remaining user (Chat.participants chat)) as [|p ps]; [done|].
      exists p. done.
Qed.

Lemma leave_keeps_an_admin_witness :
  chats (ChatRoutes.leave (H := Driver.hex)
           {| ChatRoutes._id := Sample.alice; ChatRoutes.userName := "Alice" |}
           Sample.chat1 Sample.msg2 Sample.db1).1 !! Sample.chat1
  = Some (Chat.with_members Sample.group1 [Sample.bob; Sample.carol] [Sample.bob]).
Proof.
  destruct (leave_keeps_an_admin (H := Driver.hex)
              {| ChatRoutes._id := Sample.alice; ChatRoutes.userName := "Alice" |}
              Sample.chat1 Sample.msg2 Sample.db1 Sample.group1)
    as [_ Hpromote]; [reflexivity..|].
  destruct Hpromote as (p & Hp & ->); [discriminate|reflexivity|].
  injection Hp as <-. reflexivity.
Defined.

(** The leave route keeps the store-wide invariant, whatever the request
    and whatever its outcome. *)
Lemma leave_preserves_groups_have_admin `{Mongoose}
    (user : ChatRoutes.User) (id newId : string) (db : Db) :
  groups_have_admin db →
  groups_have_admin (ChatRoutes.leave user id newId db).1.
Proof.
  intros Hinv.
  destruct (leave_guards user id newId db) as [->|(chat & Hc & Hl & Ht & Hp)];
    [done|].
  intros id' chat'. rewrite (leave_chats user id newId db chat) by done.
  case_bool_decide as Hlen.
  - destruct (decide (id = id')) as [->|Hne].
    + by rewrite lookup_delete_eq.
    + rewrite lookup_delete_ne by done. apply Hinv.
  - destruct (decide (id = id')) as [->|Hne].
    + rewrite lookup_insert_eq. intros [= <-] _; simpl.
      apply admins_after_nonempty.
    + rewrite lookup_insert_ne by done. apply Hinv.
Qed.

(** The spec's scenario: admins [A], participants [A, B]; A leaves. *)
Example leave_last_admin_scenario :
  let g := {| Chat.type := Chat.group; Chat.name := "pair";
              Chat.participants := [Sample.alice; Sample.bob];
              Chat.admins := [Sample.alice]; Chat.lastMessage := None |} in
  let db := {| chats := {[Sample.chat1 := g]}; messages := ∅ |} in
  let out := ChatRoutes.leave (H := Driver.hex)
               {| ChatRoutes._id := Sample.alice; ChatRoutes.userName := "Alice" |}
               Sample.chat1 Sample.msg2 db in
  out.2 = ChatRoutes.ok "Left group successfully"
  ∧ chats out.1 !! Sample.chat1
    = Some (Chat.with_members g [Sample.bob] [Sample.bob]).
Proof. split; reflexivity. Qed.

(** C7. When the caller is the only participant left in a group, leaving
    deletes the conversation record: the route says so, the record is gone
    from the collection, and a later [GET /api/chats/:id] by anyone answers
    404 [Chat not found]. *)
Theorem leave_last_participant_deletes `{Mongoose}
    (user : ChatRoutes.User) (id newId : string) (db : Db) (chat : Chat.t) :
  castsToObjectId id = true →
  chats db !! id = Some chat →
  Chat.type chat = Chat.group →
  Chat.participants chat = [ChatRoutes._id user] →
  let out := ChatRoutes.leave user id newId db in
  out.2 = ChatRoutes.ok "Left group. Group was deleted as it had no members."
  ∧ chats out.1 !! id = None
  ∧ messages out.1 = messages db
  ∧ ∀ anyone, ChatRoutes.getChat anyone id out.1
              = ChatRoutes.appError "Chat not found" 404.
Proof.
  intros Hc Hl Ht Hps out.
  assert (out = (with_chats db (delete id (chats db)),
                 ChatRoutes.ok "Left group. Group was deleted as it had no members."))
    as ->.
  { subst out. unfold ChatRoutes.leave.
    rewrite findById_casts, Hl, Ht by done.
    unfold Chat.isParticipant. rewrite Hps. simpl.
    by rewrite !bool_decide_eq_true_2. }
  simpl. split; [done|]. split; [apply lookup_delete_eq|]. split; [done|].
  intros anyone. unfold ChatRoutes.getChat. rewrite findById_casts by done.
  simpl. by rewrite lookup_delete_eq.
Qed.

Lemma leave_last_participant_deletes_witness :
  let g := {| Chat.type := Chat.group; Chat.name := "solo";
              Chat.participants := [Sample.alice];
              Chat.admins := [Sample.alice]; Chat.lastMessage := None |} in
  let db := {| chats := {[Sample.chat1 := g]}; messages := {[Sample.msg1 := Sample.hello]} |} in
  let me := {| ChatRoutes._id := Sample.alice; ChatRoutes.userName := "Alice" |} in
  ChatRoutes.getChat (H := Driver.hex) me Sample.chat1
    (ChatRoutes.leave (H := Driver.hex) me Sample.chat1 Sample.msg2 db).1
  = ChatRoutes.appError "Chat not found" 404.
Proof.
  intros g db me.
  apply (leave_last_participant_deletes (H := Driver.hex) me Sample.chat1
           Sample.msg2 db g); reflexivity.
Defined.

Section StoreFacts.
Import ChatStore.

Lemma sequence_handleNewMessage chatId message s :
  sequence (handleNewMessage chatId message s) chatId
  = Js.filter (keepOnNewMessage message) (sequence s chatId) ++ [message].
Proof. unfold sequence, handleNewMessage; simpl. by rewrite lookup_insert_eq. Qed.

Lemma sequence_handleNewMessage_ne chatId chatId' message s :
  chatId ≠ chatId' →
  sequence (handleNewMessage chatId message s) chatId' = sequence s chatId'.
Proof.
  intros Hne. unfold sequence, handleNewMessage; simpl.
  by rewrite lookup_insert_ne.
Qed.

Lemma keep_drops_placeholder message msg :
  is_placeholder_of message msg → keepOnNewMessage message msg = false.
Proof.
  intros (Ht & Hc & Hs). unfold keepOnNewMessage.
  by rewrite Ht, (bool_decide_eq_true_2 _ Hc), (bool_decide_eq_true_2 _ Hs).
Qed.

Lemma keep_drops_same_id message msg :
  ClientMessage.key msg = ClientMessage.key message →
  keepOnNewMessage message msg = false.
Proof.
  intros Hk. unfold keepOnNewMessage.
  rewrite (bool_decide_eq_true_2 _ Hk). by destruct (_ && _ && _).
Qed.

Lemma with_id_of_kept message l :
  with_id_of message (Js.filter (keepOnNewMessage message) l) = [].
Proof.
  unfold with_id_of, Js.filter.
  induction l as [|m l IH]; simpl; [done|].
  destruct (keepOnNewMessage message m) eqn:Hk; [|done]. simpl.
  case_bool_decide as Hid; [|done].
  by rewrite keep_drops_same_id in Hk.
Qed.

Lemma sendMessage_sequence chatId content user type replyToId now created s :
  ∃ tempMessage,
    sequence (state (sendMessage chatId content (Some user) type replyToId
                       now created s)) chatId
    = sequence s chatId ++ [tempMessage]
    ∧ ClientMessage.isTemp tempMessage = true
    ∧ ClientMessage.content tempMessage = content
    ∧ ClientUser.id (ClientMessage.sender tempMessage)
      = Js.or (ClientUser.id user) (ClientUser._id user).
Proof.
  eexists. unfold sequence, sendMessage; simpl.
  rewrite lookup_insert_eq. simpl. split; [reflexivity|].
  split; [|done].
  unfold ClientMessage.isTemp, ClientMessage.key; simpl.
  by destruct (pretty now).
Qed.

End StoreFacts.

(** C2. When the local sequence holds a temporary message of the current
    user and the server's canonical message arrives with the same content
    and sender, [handleNewMessage] leaves a sequence in which that temporary
    entry is gone, no temporary entry for this content and sender remains,
    and exactly one entry carries the canonical id: the canonical message
    itself, at the end. *)
Theorem handleNewMessage_reconciles
    (chatId : string) (message tempMessage : ClientMessage.t) (s : ChatStore.State) :
  tempMessage ∈ sequence s chatId →
  is_placeholder_of message tempMessage →
  ClientMessage.isTemp message = false →
  let after := sequence (ChatStore.handleNewMessage chatId message s) chatId in
  (tempMessage ∉ after)
  ∧ (∀ msg, msg ∈ after → ¬ is_placeholder_of message msg)
  ∧ with_id_of message after = [message]
  ∧ last after = Some message.
Proof.
  intros Hin Hph Hcanon after. subst after.
  rewrite sequence_handleNewMessage.
  assert (∀ msg, msg ∈ Js.filter (ChatStore.keepOnNewMessage message)
                         (sequence s chatId) ++ [message] →
                 ¬ is_placeholder_of message msg) as Hnone.
  { intros msg Hmsg Hp. apply elem_of_app in Hmsg as [Hmsg|Hmsg].
    - unfold Js.filter in Hmsg. apply list_elem_of_In, List.filter_In in Hmsg.
      destruct Hmsg as [_ Hkeep]. by rewrite keep_drops_placeholder in Hkeep.
    - apply list_elem_of_singleton in Hmsg as ->.
      destruct Hp as (Ht & _). congruence. }
  split; [intros Hmem; by apply (Hnone tempMessage)|].
  split; [exact Hnone|]. split.
  - unfold with_id_of. rewrite List.filter_app.
    fold (with_id_of message (Js.filter (ChatStore.keepOnNewMessage message)
                                (sequence s chatId))).
    rewrite with_id_of_kept. simpl. by rewrite bool_decide_eq_true_2.
  - apply last_snoc.
Qed.

Lemma handleNewMessage_reconciles_witness :
  sequence (ChatStore.handleNewMessage Sample.chat1 ClientSample.echo
              ClientSample.sent) Sample.chat1
  = [ClientSample.echo]
  ∧ ClientSample.temp ∉ [ClientSample.echo].
Proof.
  split; [reflexivity|].
  apply (handleNewMessage_reconciles Sample.chat1 ClientSample.echo
           ClientSample.temp ClientSample.sent).
  - apply list_elem_of_singleton. reflexivity.
  - repeat split.
  - reflexivity.
Defined.

(** The whole round trip: a message sent from this store and then echoed by
    the server, with the same content and the sender id [sendMessage] used,
    appears once, under the server's id, after whatever the sequence held
    before and the echo did not displace. *)
Lemma send_then_echo (chatId content : string) (user : ClientUser.t)
    (type : Message.Type_) (replyToId : option string) (now created : N)
    (echo : ClientMessage.t) (s : ChatStore.State) :
  ClientMessage.content echo = content →
  ClientUser.id (ClientMessage.sender echo)
  = Js.or (ClientUser.id user) (ClientUser._id user) →
  ClientMessage.isTemp echo = false →
  sequence
    (ChatStore.handleNewMessage chatId echo
       (ChatStore.state
          (ChatStore.sendMessage chatId content (Some user) type replyToId
             now created s))) chatId
  = Js.filter (ChatStore.keepOnNewMessage echo) (sequence s chatId) ++ [echo].
Proof.
  intros Hc Hs Hcanon. rewrite sequence_handleNewMessage.
  destruct (sendMessage_sequence chatId content user type replyToId now created s)
    as (temp & -> & Ht & Htc & Hts).
  unfold Js.filter. rewrite List.filter_app. simpl.
  rewrite keep_drops_placeholder; [by rewrite app_nil_r|].
  repeat split; congruence.
Qed.

Section TypingFacts.
Import ChatStore.

Lemma filteri_from_drop_first {A} (l : list A) (i : nat) :
  Js.filteri_from (λ _ j, negb (bool_decide (j = 0))) (S i) l = l.
Proof.
  revert i. induction l as [|x l IH]; intros i; simpl; [done|].
  by rewrite IH.
Qed.

(** The indexed filter of [handleStopTyping] drops the head of the list. *)
Lemma filteri_not_first {A} (l : list A) :
  Js.filteri (λ _ i, negb (bool_decide (i = 0))) l = tail l.
Proof.
  unfold Js.filteri. destruct l as [|x l]; simpl; [done|].
  apply filteri_from_drop_first.
Qed.

(** [handleStopTyping] never looks at its [userId]: whoever stopped, the
    first name on the conversation's list is the one removed. *)
Lemma handleStopTyping_tail chatId userId s :
  typingUsers (handleStopTyping chatId userId s) !! chatId
  = Some (tail (default [] (typingUsers s !! chatId))).
Proof.
  unfold handleStopTyping; simpl.
  by rewrite lookup_insert_eq, filteri_not_first.
Qed.

(** The expiry callback that [handleTyping] schedules does clear the one
    user it is about, and only that user. *)
Lemma typingExpired_clears_user chatId userName s :
  typingUsers (typingExpired chatId userName s) !! chatId
  = Some (List.filter (λ n, negb (bool_decide (n = userName)))
            (default [] (typingUsers s !! chatId))).
Proof. unfold typingExpired; simpl. by rewrite lookup_insert_eq. Qed.

End TypingFacts.

(** C9, on the code: Alice and then Bob are typing in a conversation; the
    [user-stop-typing] event for Bob clears Alice's indicator and leaves
    Bob's, where the specification has Bob's cleared and Alice's kept; the
    expiry callback, for comparison, clears Bob's alone. *)
Theorem handleStopTyping_clears_first_not_user :
  let typing :=
    ChatStore.handleTyping Sample.chat1 "Bob"
      (ChatStore.handleTyping Sample.chat1 "Alice" ClientSample.store0) in
  ChatStore.typingUsers typing !! Sample.chat1 = Some ["Alice"; "Bob"]
  ∧ ChatStore.typingUsers
      (ChatStore.handleStopTyping Sample.chat1 Sample.bob typing) !! Sample.chat1
    = Some ["Bob"]
  ∧ ChatStore.typingUsers
      (ChatStore.typingExpired Sample.chat1 "Bob" typing) !! Sample.chat1
    = Some ["Alice"].
Proof. repeat split. Qed.

Section DeleteFacts.
Import ChatStore.

Lemma find_Some_elem {A} (f : A → bool) (l : list A) x :
  Js.find f l = Some x → x ∈ l ∧ f x = true.
Proof.
  induction l as [|y l IH]; simpl; [discriminate|].
  destruct (f y) eqn:Hfy.
  - intros [= ->]. split; [apply list_elem_of_here|done].
  - intros Hx. destruct (IH Hx) as [Hin Hfx].
    split; [by apply list_elem_of_further|done].
Qed.

Lemma key_deleted m : ClientMessage.key (ClientMessage.deleted m) = ClientMessage.key m.
Proof. done. Qed.

Lemma others_tombstoned messageId l :
  others messageId
    (map (λ msg, if bool_decide (ClientMessage.key msg = Some messageId)
                 then ClientMessage.deleted msg else msg) l)
  = others messageId l.
Proof.
  unfold others, has_id. induction l as [|m l IH]; [done|].
  cbn [map List.filter].
  destruct (decide (ClientMessage.key m = Some messageId)) as [Hk|Hk].
  - rewrite (bool_decide_eq_true_2 _ Hk), key_deleted.
    rewrite (bool_decide_eq_true_2 _ Hk). cbn [negb]. apply IH.
  - rewrite !(bool_decide_eq_false_2 _ Hk). cbn [negb]. by rewrite IH.
Qed.

(** The first branch of [deleteMessage]: the target is already marked
    deleted. *)
Lemma deleteMessage_hard chatId messageId apiOk s current target :
  messages s !! chatId = Some current →
  Js.find (has_id messageId) current = Some target →
  ClientMessage.isDeleted target = Some true →
  deleteMessage chatId messageId apiOk s =
  {| state := with_messages s (<[chatId := others messageId current]> (messages s));
     effects := []; thrown := false |}.
Proof.
  intros Hl Hf Hd. unfold deleteMessage. rewrite Hl. simpl.
  fold (has_id messageId). rewrite Hf, (bool_decide_eq_true_2 _ Hd).
  do 2 f_equal. apply map_eq. intros c.
  destruct (decide (chatId = c)) as [<-|Hne].
  - by rewrite lookup_partial_alter_eq, lookup_insert_eq, Hl.
  - by rewrite lookup_partial_alter_ne, lookup_insert_ne.
Qed.

Lemma updateState_messages chatId messageId s current :
  messages s !! chatId = Some current →
  messages (updateState chatId messageId s) =
  <[chatId := map (λ msg, if bool_decide (ClientMessage.key msg = Some messageId)
                          then ClientMessage.deleted msg else msg) current]>
    (messages s).
Proof.
  intros Hl. unfold updateState; simpl. apply map_eq. intros c.
  destruct (decide (chatId = c)) as [<-|Hne].
  - by rewrite lookup_partial_alter_eq, lookup_insert_eq, Hl.
  - by rewrite lookup_partial_alter_ne, lookup_insert_ne.
Qed.

(** The other branches: a target not yet marked deleted. *)
Lemma deleteMessage_soft chatId messageId apiOk s current target :
  messages s !! chatId = Some current →
  Js.find (has_id messageId) current = Some target →
  ClientMessage.isDeleted target ≠ Some true →
  deleteMessage chatId messageId apiOk s =
  if Js.startsWith messageId "temp-"
  then {| state := updateState chatId messageId s; effects := [];
          thrown := false |}
  else if apiOk
  then {| state := updateState chatId messageId s;
          effects := [ApiDeleteMessage messageId]; thrown := false |}
  else {| state := s; effects := [ApiDeleteMessage messageId]; thrown := true |}.
Proof.
  intros Hl Hf Hd. unfold deleteMessage. rewrite Hl. simpl.
  fold (has_id messageId). by rewrite Hf, (bool_decide_eq_false_2 _ Hd).
Qed.

End DeleteFacts.

(** C10. [deleteMessage] on a message already marked deleted takes its
    entry out of the local sequence and calls no server delete, the other
    messages of the conversation staying as they were; on a message not yet
    deleted (a temporary one, or once the server's delete has answered) the
    entry stays in the sequence, with the tombstone content and the deleted
    flag set. *)
Theorem deleteMessage_local_view
    (chatId messageId : string) (apiOk : bool) (s : ChatStore.State)
    (current : list ClientMessage.t) (target : ClientMessage.t) :
  ChatStore.messages s !! chatId = Some current →
  Js.find (has_id messageId) current = Some target →
  let out := ChatStore.deleteMessage chatId messageId apiOk s in
  let after := sequence (ChatStore.state out) chatId in
  (ClientMessage.isDeleted target = Some true →
     (∀ m, m ∈ after → ClientMessage.key m ≠ Some messageId)
     ∧ after = others messageId current
     ∧ ChatStore.effects out = []
     ∧ ChatStore.thrown out = false)
  ∧ (ClientMessage.isDeleted target ≠ Some true →
     Js.startsWith messageId "temp-" = true ∨ apiOk = true →
     ClientMessage.deleted target ∈ after
     ∧ ClientMessage.key (ClientMessage.deleted target) = Some messageId
     ∧ ClientMessage.content (ClientMessage.deleted target)
       = "This message was deleted"
     ∧ ClientMessage.isDeleted (ClientMessage.deleted target) = Some true
     ∧ length after = length current
     ∧ others messageId after = others messageId current
     ∧ ChatStore.thrown out = false).
Proof.
  intros Hl Hf out after. split.
  - intros Hd. subst after out.
    rewrite (deleteMessage_hard _ _ _ _ _ _ Hl Hf Hd). unfold sequence; simpl.
    rewrite lookup_insert_eq. simpl. split; [|done].
    intros m Hm. unfold others in Hm.
    apply list_elem_of_In, List.filter_In in Hm as [_ Hm].
    unfold has_id in Hm. by case_bool_decide.
  - intros Hd Hok. destruct (find_Some_elem _ _ _ Hf) as [Hin Hid].
    unfold has_id in Hid. apply bool_decide_eq_true in Hid.
    assert (after = map (λ msg, if bool_decide (ClientMessage.key msg = Some messageId)
                                then ClientMessage.deleted msg else msg) current
            ∧ ChatStore.thrown out = false) as [-> ->].
    { subst after out. rewrite (deleteMessage_soft _ _ _ _ _ _ Hl Hf Hd).
      unfold sequence.
      destruct (Js.startsWith messageId "temp-");
        cbn [ChatStore.state ChatStore.thrown].
      - by rewrite (updateState_messages _ _ _ _ Hl), lookup_insert_eq.
      - destruct Hok as [Hbad|Hapi]; [done|]. rewrite Hapi.
        cbn [ChatStore.state ChatStore.thrown].
        by rewrite (updateState_messages _ _ _ _ Hl), lookup_insert_eq. }
    split.
    { apply list_elem_of_In, List.in_map_iff. exists target.
      rewrite (bool_decide_eq_true_2 _ Hid). split; [done|].
      by apply list_elem_of_In. }
    split; [by rewrite key_deleted|]. split; [done|]. split; [done|].
    split; [apply length_map|]. split; [apply others_tombstoned|done].
Qed.

Lemma deleteMessage_local_view_witness :
  sequence (ChatStore.state
              (ChatStore.deleteMessage Sample.chat1 Sample.msg1 true
                 DeleteSample.store)) Sample.chat1
  = [DeleteSample.live]
  ∧ ChatStore.effects
      (ChatStore.deleteMessage Sample.chat1 Sample.msg1 true DeleteSample.store)
    = []
  ∧ ClientMessage.deleted DeleteSample.live
    ∈ sequence (ChatStore.state
                  (ChatStore.deleteMessage Sample.chat1 Sample.msg2 true
                     DeleteSample.store)) Sample.chat1.
Proof.
  destruct (deleteMessage_local_view Sample.chat1 Sample.msg1 true
              DeleteSample.store [DeleteSample.gone; DeleteSample.live]
              DeleteSample.gone) as [Hhard _]; [reflexivity..|].
  destruct (deleteMessage_local_view Sample.chat1 Sample.msg2 true
              DeleteSample.store [DeleteSample.gone; DeleteSample.live]
              DeleteSample.live) as [_ Hsoft]; [reflexivity..|].
  destruct Hhard as (_ & Hseq & Heff & _); [reflexivity|].
  destruct Hsoft as (Hin & _); [discriminate|by right|].
  split; [exact Hseq|]. split; [exact Heff|exact Hin].
Defined.

(** When the server's delete is refused, the store is left as it was and
    the action rejects. *)
Example deleteMessage_server_refuses :
  ChatStore.deleteMessage Sample.chat1 Sample.msg2 false DeleteSample.store
  = {| ChatStore.state := DeleteSample.store;
       ChatStore.effects := [ChatStore.ApiDeleteMessage Sample.msg2];
       ChatStore.thrown := true |}.
Proof. reflexivity. Qed.

(* ===================================================================== *)
(** * Part III: further properties of the code                            *)
(* ===================================================================== *)

Section PresenceMore.
Import Presence.

Lemma connection_registered_map u s (m : OnlineUsers) :
  (connection u s m).1 = <[u := registered m u ∪ {[s]}]> m.
Proof.
  unfold connection, has, registered; simpl. apply map_eq. intros u'.
  destruct (decide (u = u')) as [<-|Hne].
  - rewrite lookup_alter_eq, lookup_insert_eq.
    destruct (m !! u) as [S|] eqn:Hm; simpl; [by rewrite Hm|].
    by rewrite lookup_insert_eq.
  - rewrite lookup_alter_ne, lookup_insert_ne by done.
    case_bool_decide; [done|]. by rewrite lookup_insert_ne.
Qed.

Lemma size_zero_gset (X : gset string) : size X = 0 ↔ X = ∅.
Proof.
  split; [intros Hs; by apply leibniz_equiv, size_empty_inv|].
  intros ->. apply size_empty.
Qed.

(** X1. Opening a socket that is not yet registered and closing it again
    puts the registry back exactly as it was. *)
Theorem connect_disconnect_round_trip (trace : list Event) (u s : string) :
  s ∉ activeConnections trace u →
  (disconnect u s (connection u s (run trace)).1).1 = run trace.
Proof.
  intros Hs. rewrite <- registered_run in Hs.
  rewrite connection_registered_map. unfold disconnect.
  rewrite lookup_insert_eq.
  assert ((registered (run trace) u ∪ {[s]}) ∖ {[s]} = registered (run trace) u)
    as -> by set_solver.
  unfold registered in *.
  destruct (run trace !! u) as [S|] eqn:Hm; simpl in *.
  - rewrite bool_decide_eq_false_2.
    + simpl. rewrite insert_insert_eq. by apply insert_id.
    + rewrite size_zero_gset. by eapply run_no_empty.
  - rewrite bool_decide_eq_true_2 by (by apply size_zero_gset). simpl.
    rewrite insert_insert_eq, delete_insert_eq. by apply delete_id.
Qed.

Lemma connect_disconnect_round_trip_witness :
  (disconnect "u1" "s2"
     (connection "u1" "s2" (run [Connect "u1" "s1"; Connect "u2" "s9"])).1).1
  = run [Connect "u1" "s1"; Connect "u2" "s9"].
Proof.
  apply connect_disconnect_round_trip.
  apply (bool_decide_unpack _). vm_compute. reflexivity.
Defined.

Lemma only_handle (S : gset string) s : S ≠ ∅ → S ∖ {[s]} = ∅ ↔ S = {[s]}.
Proof.
  intros Hne. split; [|set_solver]. intros Hempty.
  apply set_eq. intros x. rewrite elem_of_singleton. split.
  - intros Hx. destruct (decide (x = s)) as [->|Hxs]; [done|].
    assert (x ∈ S ∖ {[s]}) as Hin by set_solver.
    rewrite Hempty in Hin. set_solver.
  - intros ->. apply set_choose_L in Hne as [y Hy].
    destruct (decide (y = s)) as [<-|Hys]; [done|].
    assert (y ∈ S ∖ {[s]}) as Hin by set_solver.
    rewrite Hempty in Hin. set_solver.
Qed.

(** The whole handler does to the registry and the user collection what
    [Presence.disconnect] says. *)
Lemma farewell_registry u s friends seenAt (m : OnlineUsers) :
  (Farewell.disconnect u s friends seenAt m).1 = disconnect u s m.
Proof.
  unfold Farewell.disconnect, disconnect.
  destruct (m !! u); [|done]. by case_bool_decide.
Qed.

Lemma farewell_last_handle u s friends seenAt (m : OnlineUsers) :
  no_empty_entry m →
  let out := Farewell.disconnect u s friends seenAt m in
  (out.1.2, out.2) =
  if bool_decide (registered m u = {[s]})
  then ([UpdateStatusLastSeen u offline],
        imap (λ i friend,
                {| Farewell.room := Delivery.userRoom friend; Farewell.user := u;
                   Farewell.status := offline; Farewell.lastSeen := seenAt i |})
             (default [] friends))
  else ([], []).
Proof.
  intros Hinv. unfold registered, Farewell.disconnect. simpl.
  destruct (m !! u) as [S|] eqn:Hm; simpl.
  - assert (S ≠ ∅) as Hne by (by eapply Hinv).
    destruct (decide (S = {[s]})) as [->|Hns].
    + rewrite !bool_decide_eq_true_2; [by destruct friends|done|].
      rewrite size_zero_gset. set_solver.
    + rewrite (bool_decide_eq_false_2 (S = {[s]})) by done.
      rewrite bool_decide_eq_false_2; [done|].
      rewrite size_zero_gset. by rewrite only_handle.
  - rewrite bool_decide_eq_false_2; [done|].
    intros Heq. assert (s ∈ (∅ : gset string)) by (rewrite Heq; set_solver).
    set_solver.
Qed.

(** X2. Whatever sockets have opened and closed before, a run of the
    [disconnect] handler stores [offline] and tells the user's friends, each
    in their personal room, exactly when the socket is the only handle the
    registry holds for the user; with other handles left, or for a socket
    the registry does not hold, it stores and emits nothing. *)
Theorem offline_only_on_last_disconnect
    (trace : list Lifecycle.Event) (u s : string)
    (friends : option (list string)) (seenAt : nat → Z) :
  let reg := Lifecycle.onlineUsers (Lifecycle.run trace) in
  let out := Farewell.disconnect u s friends seenAt reg in
  (out.1.2, out.2) =
  if bool_decide (registered reg u = {[s]})
  then ([UpdateStatusLastSeen u offline],
        imap (λ i friend,
                {| Farewell.room := Delivery.userRoom friend; Farewell.user := u;
                   Farewell.status := offline; Farewell.lastSeen := seenAt i |})
             (default [] friends))
  else ([], []).
Proof. apply farewell_last_handle, lifecycle_run_no_empty. Qed.

(** Bob's second tab closing tells nobody; his last one tells Alice and
    Carol. *)
Example farewell_on_sample :
  let reg := Lifecycle.onlineUsers
               (Lifecycle.run [Lifecycle.Opens Sample.bob "s1";
                               Lifecycle.Opens Sample.bob "s2"]) in
  (Farewell.disconnect Sample.bob "s2" (Some [Sample.alice; Sample.carol])
     (λ i, (1700000000000 + Z.of_nat i)%Z) reg).2 = []
  ∧ (Farewell.disconnect Sample.bob "s1" (Some [Sample.alice; Sample.carol])
       (λ i, (1700000000000 + Z.of_nat i)%Z)
       (Farewell.disconnect Sample.bob "s2" (Some [Sample.alice; Sample.carol])
          (λ i, (1700000000000 + Z.of_nat i)%Z) reg).1.1).2
    = [{| Farewell.room := "user:" +:+ Sample.alice; Farewell.user := Sample.bob;
          Farewell.status := offline; Farewell.lastSeen := 1700000000000 |};
       {| Farewell.room := "user:" +:+ Sample.carol; Farewell.user := Sample.bob;
          Farewell.status := offline; Farewell.lastSeen := 1700000000001 |}].
Proof. split; by vm_compute. Qed.

(** X3. Registering the same socket handle again changes nothing: the
    registry after a repeated [connection] is the one after the first. *)
Theorem connection_idempotent (u s : string) (m : OnlineUsers) :
  (connection u s (connection u s m).1).1 = (connection u s m).1.
Proof.
  rewrite !connection_registered_map. unfold registered at 1.
  rewrite lookup_insert_eq. simpl. rewrite insert_insert_eq.
  f_equal. set_solver.
Qed.

End PresenceMore.

Section RoomFacts.
Import Delivery.
Context `{Mongoose}.

Lemma joined_join_eq s r (rooms : Gateway.Rooms) :
  joined (Gateway.join s r rooms) s = joined rooms s ∪ {[r]}.
Proof. unfold joined, Gateway.join. by rewrite lookup_insert_eq. Qed.

Lemma joined_leaveRoom_eq s r (rooms : Gateway.Rooms) :
  joined (leaveRoom s r rooms) s = joined rooms s ∖ {[r]}.
Proof. unfold joined, leaveRoom. by rewrite lookup_insert_eq. Qed.

Lemma chatRoom_inj c c' : Gateway.chatRoom c = Gateway.chatRoom c' → c = c'.
Proof. unfold Gateway.chatRoom. intros [= Heq]. exact Heq. Qed.

Lemma userRoom_not_chatRoom u c : userRoom u ≠ Gateway.chatRoom c.
Proof. unfold userRoom, Gateway.chatRoom. discriminate. Qed.

Lemma isParticipant_elem chat u :
  Chat.isParticipant chat u = true ↔ u ∈ Chat.participants chat.
Proof.
  unfold Chat.isParticipant, Js.some. rewrite List.existsb_exists.
  split.
  - intros (p & Hp & Ht). apply list_elem_of_In.
    rewrite orb_diag in Ht. by apply bool_decide_eq_true in Ht as <-.
  - intros Hu. exists u. split; [by apply list_elem_of_In|].
    by rewrite bool_decide_eq_true_2.
Qed.

Lemma chatsOf_spec u (cs : gmap string Chat.t) c :
  c ∈ chatsOf u cs ↔ ∃ chat, cs !! c = Some chat ∧ u ∈ Chat.participants chat.
Proof.
  unfold chatsOf. rewrite list_elem_of_fmap. split.
  - intros ([c' chat] & -> & Hin). apply elem_of_map_to_list in Hin.
    apply map_lookup_filter_Some in Hin as [Hl Hp]. by exists chat.
  - intros (chat & Hl & Hp). exists (c, chat). split; [done|].
    apply elem_of_map_to_list, map_lookup_filter_Some. done.
Qed.

Lemma joined_foldl_join s (l : list string) (rooms : Gateway.Rooms) :
  joined (foldl (λ rooms chatId,
                   Gateway.join s (Gateway.chatRoom chatId) rooms) rooms l) s
  = joined rooms s ∪ list_to_set (Gateway.chatRoom <$> l).
Proof.
  revert rooms. induction l as [|c l IH]; intros rooms; simpl.
  - set_solver.
  - rewrite IH, joined_join_eq. set_solver.
Qed.

Lemma joined_handshake u s db (rooms : Gateway.Rooms) :
  joined (handshake u s db rooms) s
  = joined rooms s ∪ {[userRoom u]}
    ∪ list_to_set (Gateway.chatRoom <$> chatsOf u (chats db)).
Proof. unfold handshake. by rewrite joined_foldl_join, joined_join_eq. Qed.

Lemma room_step_isolated u s db (rooms : Gateway.Rooms) e :
  isolated db u (joined rooms s) →
  isolated db u (joined (room_step u s db rooms e) s).
Proof.
  intros Hiso. destruct e as [c|c]; simpl.
  - unfold Gateway.join_chat, findByIdCast.
    destruct (castsToObjectId c) eqn:Hcast; [|done].
    destruct (chats db !! objectId c) as [chat|] eqn:Hl; [|done].
    destruct (Chat.isParticipant chat u) eqn:Hp; [|done]. simpl.
    rewrite joined_join_eq. intros c' Hc'.
    apply elem_of_union in Hc' as [Hc'|Hc']; [by apply Hiso|].
    apply elem_of_singleton, chatRoom_inj in Hc' as ->.
    exists chat. split; [by right|done].
  - unfold leave_chat. rewrite joined_leaveRoom_eq. intros c' Hc'.
    apply Hiso. set_solver.
Qed.

End RoomFacts.

Lemma handshake_chat_rooms
    (userId socketId chatId : string) (db : Db) (rooms : Gateway.Rooms) :
  Gateway.chatRoom chatId ∈ Delivery.joined (Delivery.handshake userId socketId db rooms) socketId
  ↔ Gateway.chatRoom chatId ∈ Delivery.joined rooms socketId
    ∨ ∃ chat, chats db !! chatId = Some chat
              ∧ Chat.isParticipant chat userId = true.
Proof.
  rewrite joined_handshake, !elem_of_union, elem_of_singleton.
  rewrite elem_of_list_to_set, list_elem_of_fmap.
  split.
  - intros [[Hold|Huser]|(c & Hc & Hin)].
    + by left.
    + by apply eq_sym, userRoom_not_chatRoom in Huser.
    + apply chatRoom_inj in Hc as <-. right.
      apply chatsOf_spec in Hin as (chat & Hl & Hp).
      exists chat. by rewrite isParticipant_elem.
  - intros [Hold|(chat & Hl & Hp)]; [by left; left|].
    right. exists chatId. split; [done|].
    apply chatsOf_spec. exists chat. by rewrite <- isParticipant_elem.
Qed.

(** X4. At the handshake a socket is put in the room of every conversation
    its user takes part in and in no other conversation's room (beyond
    those it was already in). *)
Theorem handshake_joins_own_chats
    (userId socketId chatId : string) (db : Db) (rooms : Gateway.Rooms) :
  Gateway.chatRoom chatId ∈ Delivery.joined (Delivery.handshake userId socketId db rooms) socketId
  ↔ Gateway.chatRoom chatId ∈ Delivery.joined rooms socketId
    ∨ ∃ chat, chats db !! chatId = Some chat
              ∧ Chat.isParticipant chat userId = true.
Proof. apply handshake_chat_rooms. Qed.

(** X5. Room isolation: against a given store, whatever [join-chat] and
    [leave-chat] events a socket sends after its handshake, and however it
    spells the ids, it is a member of a room [chat:<id>] only if the id is,
    or casts to, the id of a conversation its user is a participant of. *)
Theorem session_rooms_isolated `{Mongoose}
    (userId socketId : string) (db : Db) (events : list Delivery.RoomEvent)
    (rooms : Gateway.Rooms) :
  isolated db userId (Delivery.joined rooms socketId) →
  isolated db userId
    (Delivery.joined (Delivery.session userId socketId db events rooms) socketId).
Proof.
  intros Hiso. unfold Delivery.session.
  assert (isolated db userId
            (Delivery.joined (Delivery.handshake userId socketId db rooms) socketId))
    as Hstart.
  { intros c Hc. apply handshake_chat_rooms in Hc as [Hc|(chat & Hl & Hp)];
      [by apply Hiso|].
    exists chat. split; [by left|done]. }
  revert Hstart. generalize (Delivery.handshake userId socketId db rooms).
  induction events as [|e events IH]; intros r Hr; simpl; [done|].
  apply IH. by apply room_step_isolated.
Qed.

Lemma session_rooms_isolated_witness :
  isolated (H := Driver.hex) Sample.db1 Sample.bob
    (Delivery.joined
       (Delivery.session (H := Driver.hex) Sample.bob "socket-7" Sample.db1
          [Delivery.JoinChat "65a00000000000000000c002";
           Delivery.LeaveChat Sample.chat1;
           Delivery.JoinChat "65A00000000000000000C001"] ∅) "socket-7").
Proof.
  apply (session_rooms_isolated (H := Driver.hex)).
  intros chatId Hin. unfold Delivery.joined in Hin.
  rewrite lookup_empty in Hin. simpl in Hin.
  by apply not_elem_of_empty in Hin.
Defined.

Section SendFacts.
Import Delivery.
Context `{Mongoose}.

(** The two ways [send-message] can end. *)
Lemma send_message_cases userId chatId content type replyTo newId now db :
  (∃ msg, send_message userId chatId content type replyTo newId now db
          = (db, [error msg]))
  ∨ ∃ chat m,
      castsToObjectId chatId = true
      ∧ chats db !! objectId chatId = Some chat
      ∧ Chat.isParticipant chat userId = true
      ∧ Message.sender m = userId
      ∧ Message.chat m = objectId chatId
      ∧ Message.content m = trim content
      ∧ Message.status m = Message.sent
      ∧ Message.type m = default Message.text type
      ∧ Message.attachments m = []
      ∧ Message.validators m && Message.preSave m = true
      ∧ send_message userId chatId content type replyTo newId now db
        = ({| chats := <[objectId chatId := with_lastMessage chat newId]> (chats db);
              messages := <[newId := m]> (messages db) |},
           [{| target := Gateway.ToRoom (Gateway.chatRoom chatId);
               event := "new-message";
               payload := PNewMessage chatId newId m |};
            {| target := Gateway.ToRoom (Gateway.chatRoom chatId);
               event := "chat-updated";
               payload := PChatUpdated chatId newId m now |}]).
Proof.
  unfold send_message, findByIdCast.
  destruct (castsToObjectId chatId) eqn:Hcast; [|left; by eexists].
  destruct (chats db !! objectId chatId) as [chat|] eqn:Hl; [|left; by eexists].
  destruct (Chat.isParticipant chat userId) eqn:Hp; simpl; [|left; by eexists].
  destruct (match replyTo with Some r => castsToObjectId r | None => true end);
    [|left; by eexists].
  unfold Message.save.
  match goal with |- context [if ?b then Some _ else None] =>
    destruct b eqn:Hv end; [|left; by eexists].
  right. eexists chat, _. by repeat split.
Qed.

Lemma tombstoned_idem m : tombstoned (tombstoned m) = tombstoned m.
Proof. done. Qed.

Lemma tombstoned_storable m :
  Message.validators (tombstoned m) && Message.preSave (tombstoned m)
  = forallb (λ r, Js.truthy (Some (Message.emoji r))) (Message.reactions m).
Proof.
  unfold Message.validators, Message.preSave; simpl. apply andb_true_r.
Qed.

Lemma delete_message_allowed userId messageId db m :
  castsToObjectId messageId = true →
  messages db !! messageId = Some m →
  (Message.sender m = userId
   ∨ ∃ chat, chats db !! Message.chat m = Some chat
             ∧ Chat.isAdmin chat userId = true) →
  Message.validators (tombstoned m) = true →
  delete_message userId messageId db
  = (with_messages db (<[messageId := tombstoned m]> (messages db)),
     [{| target := Gateway.ToRoom (Gateway.chatRoom (Message.chat m));
         event := "message-deleted";
         payload := PMessageDeleted (Message.chat m) messageId |}]).
Proof.
  intros Hc Hm Hauth Hv. unfold delete_message.
  rewrite findById_casts, Hm by done.
  assert (negb (bool_decide (Message.sender m = userId))
          && negb match chats db !! Message.chat m with
                  | Some chat => Chat.isAdmin chat userId
                  | None => false
                  end = false) as ->.
  { destruct Hauth as [Hs|(chat & -> & ->)].
    - by rewrite (bool_decide_eq_true_2 _ Hs).
    - by rewrite andb_false_r. }
  unfold Message.save. by rewrite Hv.
Qed.

Lemma delete_message_denied userId messageId db m :
  castsToObjectId messageId = true →
  messages db !! messageId = Some m →
  Message.sender m ≠ userId →
  match chats db !! Message.chat m with
  | Some chat => Chat.isAdmin chat userId = false
  | None => True
  end →
  delete_message userId messageId db = (db, [error "Not authorized"]).
Proof.
  intros Hc Hm Hs Hadm. unfold delete_message.
  rewrite findById_casts, Hm by done.
  rewrite (bool_decide_eq_false_2 _ Hs). simpl.
  destruct (chats db !! Message.chat m); [by rewrite Hadm|done].
Qed.

Lemma delete_message_cases userId messageId db :
  (∃ msg, delete_message userId messageId db = (db, [error msg]))
  ∨ ∃ m,
      castsToObjectId messageId = true
      ∧ messages db !! messageId = Some m
      ∧ negb (bool_decide (Message.sender m = userId))
        && negb match chats db !! Message.chat m with
                | Some chat => Chat.isAdmin chat userId
                | None => false
                end = false
      ∧ Message.validators (tombstoned m) && Message.preSave (tombstoned m) = true
      ∧ delete_message userId messageId db
        = (with_messages db (<[messageId := tombstoned m]> (messages db)),
           [{| target := Gateway.ToRoom (Gateway.chatRoom (Message.chat m));
               event := "message-deleted";
               payload := PMessageDeleted (Message.chat m) messageId |}]).
Proof.
  unfold delete_message, findById.
  destruct (castsToObjectId messageId) eqn:Hc; [|left; by eexists].
  destruct (messages db !! messageId) as [m|] eqn:Hm; [|left; by eexists].
  match goal with |- context [if ?b then (db, _) else _] =>
    destruct b eqn:Hauth end; [left; by eexists|].
  unfold Message.save.
  match goal with |- context [if ?b then Some _ else None] =>
    destruct b eqn:Hv end; [|left; by eexists].
  right. by exists m.
Qed.

Lemma delete_message_again userId messageId db :
  delete_message userId messageId (delete_message userId messageId db).1
  = delete_message userId messageId db.
Proof.
  destruct (delete_message_cases userId messageId db)
    as [(msg & Heq)|(m & Hc & Hm & Hauth & Hv & Heq)].
  - rewrite Heq. simpl. exact Heq.
  - rewrite Heq. simpl. unfold delete_message, findById. rewrite Hc. simpl.
    rewrite lookup_insert_eq. simpl. rewrite Hauth.
    unfold Message.save. rewrite tombstoned_idem, Hv.
    unfold with_messages; simpl. by rewrite insert_insert_eq.
Qed.

End SendFacts.

(** X6. [send-message] either changes nothing and answers the caller alone
    with one [error] event, or stores exactly one new message and only then
    broadcasts: the caller is a participant of the conversation that the
    id of the request casts to, the stored message has the caller as sender,
    that conversation as its chat and status [sent], the conversation's
    last-message pointer is the new message, and [new-message] followed by
    [chat-updated] go, with that message, to the room named with the id as
    the request spelled it. *)
Theorem send_message_persists_before_broadcast `{Mongoose}
    (userId chatId content : string) (type : option Message.Type_)
    (replyTo : option string) (newId : string) (now : Z) (db : Db) :
  let out := Delivery.send_message userId chatId content type replyTo newId now db in
  (out.1 = db ∧ ∃ msg, out.2 = [Delivery.error msg])
  ∨ ∃ chat m,
      castsToObjectId chatId = true
      ∧ chats db !! objectId chatId = Some chat
      ∧ Chat.isParticipant chat userId = true
      ∧ messages out.1 = <[newId := m]> (messages db)
      ∧ chats out.1
        = <[objectId chatId := Delivery.with_lastMessage chat newId]> (chats db)
      ∧ Message.sender m = userId
      ∧ Message.chat m = objectId chatId
      ∧ Message.status m = Message.sent
      ∧ out.2 =
        [{| Delivery.target := Gateway.ToRoom (Gateway.chatRoom chatId);
            Delivery.event := "new-message";
            Delivery.payload := Delivery.PNewMessage chatId newId m |};
         {| Delivery.target := Gateway.ToRoom (Gateway.chatRoom chatId);
            Delivery.event := "chat-updated";
            Delivery.payload := Delivery.PChatUpdated chatId newId m now |}].
Proof.
  intros out. subst out.
  destruct (send_message_cases userId chatId content type replyTo newId now db)
    as [(msg & ->)|(chat & m & Hcast & Hl & Hp & Hs & Hc & _ & Hst & _ & _ & _ & ->)].
  - left. split; [done|by exists msg].
  - right. exists chat, m. by repeat split.
Qed.

(** X7. A message whose content is blank after trimming, of any type but
    [system], is refused: nothing is stored, nothing is broadcast, the
    caller gets one [error] event. *)
Theorem send_message_blank_refused `{Mongoose}
    (userId chatId content : string) (type : option Message.Type_)
    (replyTo : option string) (newId : string) (now : Z) (db : Db) :
  trim content = "" →
  type ≠ Some Message.system →
  let out := Delivery.send_message userId chatId content type replyTo newId now db in
  out.1 = db ∧ ∃ msg, out.2 = [Delivery.error msg].
Proof.
  intros Hblank Htype out. subst out.
  destruct (send_message_cases userId chatId content type replyTo newId now db)
    as [(msg & ->)|(chat & m & _ & _ & _ & _ & _ & Hc & _ & Hty & Hatt & Hv & _)].
  - split; [done|by exists msg].
  - exfalso. apply andb_true_iff in Hv as [_ Hv]. revert Hv.
    unfold Message.preSave. rewrite Hc, Hblank, Hatt, Hty. simpl.
    destruct type as [[]|]; simpl; congruence.
Qed.

Lemma send_message_blank_refused_witness :
  Delivery.send_message (H := Driver.hex) Sample.alice Sample.chat1 "   "
    None None Sample.msg2 1700000000000 Sample.db1
  = (Sample.db1, [Delivery.error "Failed to send message"]).
Proof.
  destruct (send_message_blank_refused (H := Driver.hex) Sample.alice
              Sample.chat1 "   " None None Sample.msg2 1700000000000 Sample.db1)
    as [Hdb (msg & Hout)]; [reflexivity|discriminate|].
  reflexivity.
Defined.

(** X8. [delete-message] soft-deletes for the message's sender and for an
    admin of its conversation: the content becomes the tombstone text, the
    deleted flag is set, the attachments are dropped, everything else about
    the message stays, and [message-deleted] goes to the room.  Anyone else
    leaves the store untouched and gets an [error] event alone. *)
Theorem delete_message_authorization `{Mongoose}
    (userId messageId : string) (db : Db) (m : Message.t) :
  castsToObjectId messageId = true →
  messages db !! messageId = Some m →
  ((Message.sender m = userId
    ∨ ∃ chat, chats db !! Message.chat m = Some chat
              ∧ Chat.isAdmin chat userId = true) →
   Message.validators (Delivery.tombstoned m) = true →
   Delivery.delete_message userId messageId db
   = (with_messages db (<[messageId := Delivery.tombstoned m]> (messages db)),
      [{| Delivery.target := Gateway.ToRoom (Gateway.chatRoom (Message.chat m));
          Delivery.event := "message-deleted";
          Delivery.payload := Delivery.PMessageDeleted (Message.chat m) messageId |}])
   ∧ Message.content (Delivery.tombstoned m) = "This message was deleted"
   ∧ Message.isDeleted (Delivery.tombstoned m) = true
   ∧ Message.attachments (Delivery.tombstoned m) = []
   ∧ Message.sender (Delivery.tombstoned m) = Message.sender m
   ∧ Message.reactions (Delivery.tombstoned m) = Message.reactions m
   ∧ Message.readBy (Delivery.tombstoned m) = Message.readBy m)
  ∧ (Message.sender m ≠ userId →
     match chats db !! Message.chat m with
     | Some chat => Chat.isAdmin chat userId = false
     | None => True
     end →
     Delivery.delete_message userId messageId db
     = (db, [Delivery.error "Not authorized"])).
Proof.
  intros Hc Hm. split.
  - intros Hauth Hv. split; [by apply delete_message_allowed|done].
  - by apply delete_message_denied.
Qed.

Lemma delete_message_authorization_witness :
  (* Alice, the group's admin, deletes her message; Bob may not. *)
  messages (Delivery.delete_message (H := Driver.hex) Sample.alice Sample.msg1
              Sample.db1).1 !! Sample.msg1
  = Some Sample.tombstone
  ∧ Delivery.delete_message (H := Driver.hex) Sample.bob Sample.msg1 Sample.db1
    = (Sample.db1, [Delivery.error "Not authorized"]).
Proof.
  destruct (delete_message_authorization (H := Driver.hex) Sample.alice
              Sample.msg1 Sample.db1 Sample.hello) as [Hdel _];
    [reflexivity..|].
  destruct (delete_message_authorization (H := Driver.hex) Sample.bob
              Sample.msg1 Sample.db1 Sample.hello) as [_ Hden];
    [reflexivity..|].
  split.
  - destruct Hdel as [-> _]; [by left|reflexivity|reflexivity].
  - apply Hden; [vm_compute; discriminate|reflexivity].
Defined.

(** X9. Deleting is idempotent: a second [delete-message] for the same
    message by the same caller leaves the store exactly as the first did,
    and produces the same events. *)
Theorem delete_message_idempotent `{Mongoose}
    (userId messageId : string) (db : Db) :
  Delivery.delete_message userId messageId
    (Delivery.delete_message userId messageId db).1
  = Delivery.delete_message userId messageId db.
Proof. apply delete_message_again. Qed.

Section ReactionHandlerFacts.
Import Gateway.
Context `{Mongoose}.

Lemma with_reactions_back m rs :
  Message.with_reactions (Message.with_reactions m rs) (Message.reactions m) = m.
Proof. by destruct m. Qed.

Lemma toggle_absent u e rs :
  count_pair u e rs = 0 →
  toggleReaction u e rs = rs ++ [{| Message.emoji := e; Message.user := u |}].
Proof.
  unfold count_pair. intros Hc. apply nil_length_inv in Hc.
  unfold toggleReaction. fold (is_pair u e).
  by rewrite (proj2 (findIndex_None _ _) Hc).
Qed.

Lemma storable_with_new_reaction m u e :
  Message.validators
    (Message.with_reactions m
       (Message.reactions m ++ [{| Message.emoji := e; Message.user := u |}]))
  && Message.preSave
       (Message.with_reactions m
          (Message.reactions m ++ [{| Message.emoji := e; Message.user := u |}]))
  = Message.validators m && Message.preSave m && negb (bool_decide (e = "")).
Proof.
  unfold Message.validators, Message.preSave; simpl.
  rewrite forallb_app. simpl. rewrite andb_true_r.
  repeat match goal with |- context [bool_decide ?P] =>
    destruct (bool_decide P); simpl end;
  repeat match goal with |- context [forallb ?f ?l] =>
    destruct (forallb f l); simpl end; try done;
  by destruct (Js.truthy _).
Qed.

End ReactionHandlerFacts.

(** X10. For a participant who has not yet reacted with this emoji, two
    [add-reaction] events in a row put the store back exactly as it was. *)
Theorem add_reaction_round_trip `{Mongoose}
    (userId messageId emoji : string) (db : Db) (m : Message.t) (chat : Chat.t) :
  castsToObjectId messageId = true →
  messages db !! messageId = Some m →
  chats db !! Message.chat m = Some chat →
  Chat.isParticipant chat userId = true →
  count_pair userId emoji (Message.reactions m) = 0 →
  emoji ≠ "" →
  Message.validators m && Message.preSave m = true →
  (Gateway.add_reaction userId messageId emoji
     (Gateway.add_reaction userId messageId emoji db).1).1 = db.
Proof.
  intros Hc Hm Hchat Hp Habs He Hv.
  rewrite (add_reaction_toggles userId messageId emoji db m chat Hc Hm Hchat Hp).
  2: { rewrite toggle_absent by done. rewrite storable_with_new_reaction, Hv.
       by rewrite bool_decide_eq_false_2. }
  simpl.
  rewrite (add_reaction_toggles userId messageId emoji _
             (Message.with_reactions m
                (Gateway.toggleReaction userId emoji (Message.reactions m))) chat);
    simpl; try done.
  - rewrite toggle_twice_absent by done. rewrite with_reactions_back.
    rewrite insert_insert_eq. rewrite (insert_id _ _ _ Hm). by destruct db.
  - by rewrite lookup_insert_eq.
  - rewrite toggle_twice_absent by done. by rewrite with_reactions_back.
Qed.

Lemma add_reaction_round_trip_witness :
  (Gateway.add_reaction (H := Driver.hex) Sample.bob Sample.msg1 "+1"
     (Gateway.add_reaction (H := Driver.hex) Sample.bob Sample.msg1 "+1"
        Sample.db1).1).1 = Sample.db1.
Proof.
  apply (add_reaction_round_trip (H := Driver.hex) Sample.bob Sample.msg1 "+1"
           Sample.db1 Sample.hello Sample.group1);
    try reflexivity.
  discriminate.
Defined.

(** X11. A reaction with an empty emoji is never stored: for a participant
    who holds no such reaction, the request changes nothing and the caller
    alone gets an [error] event. *)
Theorem add_reaction_empty_emoji_refused `{Mongoose}
    (userId messageId : string) (db : Db) (m : Message.t) (chat : Chat.t) :
  castsToObjectId messageId = true →
  messages db !! messageId = Some m →
  chats db !! Message.chat m = Some chat →
  Chat.isParticipant chat userId = true →
  count_pair userId "" (Message.reactions m) = 0 →
  Gateway.add_reaction userId messageId "" db
  = (db, [Gateway.error "Failed to add reaction"]).
Proof.
  intros Hc Hm Hchat Hp Habs. unfold Gateway.add_reaction.
  rewrite findById_casts, Hm, Hchat, Hp by done. simpl.
  rewrite toggle_absent by done. unfold Message.save.
  rewrite storable_with_new_reaction. simpl. by rewrite andb_false_r.
Qed.

Lemma add_reaction_empty_emoji_refused_witness :
  Gateway.add_reaction (H := Driver.hex) Sample.bob Sample.msg1 "" Sample.db1
  = (Sample.db1, [Gateway.error "Failed to add reaction"]).
Proof.
  apply (add_reaction_empty_emoji_refused (H := Driver.hex) Sample.bob
           Sample.msg1 Sample.db1 Sample.hello Sample.group1); reflexivity.
Defined.

(** X12. Whatever the request, [mark-read] creates and removes no message
    and touches nothing but read state: every stored message keeps its
    conversation, sender, content, type, reactions, flags and attachments;
    it is either left as it was or marked [seen] with the caller among its
    readers, and the latter never happens to the caller's own messages.
    Conversations are never changed. *)
Theorem mark_read_touches_only_read_state `{Mongoose}
    (userId chatId : string) (messageIds : option (list string)) (now : Z)
    (db : Db) :
  let db' := (Gateway.mark_read userId chatId messageIds now db).1 in
  chats db' = chats db
  ∧ ∀ id,
      match messages db !! id, messages db' !! id with
      | Some m, Some m' =>
          Message.chat m' = Message.chat m
          ∧ Message.sender m' = Message.sender m
          ∧ Message.content m' = Message.content m
          ∧ Message.type m' = Message.type m
          ∧ Message.reactions m' = Message.reactions m
          ∧ Message.isEdited m' = Message.isEdited m
          ∧ Message.isDeleted m' = Message.isDeleted m
          ∧ Message.attachments m' = Message.attachments m
          ∧ (m' = m
             ∨ Message.status m' = Message.seen
               ∧ userId ∈ readers m'
               ∧ Message.sender m ≠ userId)
      | None, None => True
      | _, _ => False
      end.
Proof.
  intros db'. subst db'.
  assert (∀ id, match messages db !! id, messages db !! id with
                | Some m, Some m' =>
                    Message.chat m' = Message.chat m
                    ∧ Message.sender m' = Message.sender m
                    ∧ Message.content m' = Message.content m
                    ∧ Message.type m' = Message.type m
                    ∧ Message.reactions m' = Message.reactions m
                    ∧ Message.isEdited m' = Message.isEdited m
                    ∧ Message.isDeleted m' = Message.isDeleted m
                    ∧ Message.attachments m' = Message.attachments m
                    ∧ (m' = m
                       ∨ Message.status m' = Message.seen
                         ∧ userId ∈ readers m'
                         ∧ Message.sender m ≠ userId)
                | None, None => True
                | _, _ => False
                end) as Hsame.
  { intros id. destruct (messages db !! id); [|done]. repeat split; by left. }
  unfold Gateway.mark_read.
  destruct messageIds as [ids|]; [|done].
  case_bool_decide; [|done].
  destruct (forallb castsToObjectId ids); [|done].
  simpl. split; [done|]. intros id.
  rewrite updateManyRead_lookup.
  destruct (messages db !! id) as [m|]; simpl; [|done].
  destruct (bool_decide (id ∈ objectId <$> ids)); simpl; [|repeat split; by left].
  case_bool_decide as Hs; simpl; [repeat split; by left|].
  repeat split; try done. right. split; [done|].
  split; [apply reader_recorded|done].
Qed.

Section StoreMore.
Import ChatStore.

Lemma keep_filter_idem message l :
  Js.filter (keepOnNewMessage message) (Js.filter (keepOnNewMessage message) l)
  = Js.filter (keepOnNewMessage message) l.
Proof.
  unfold Js.filter. induction l as [|m l IH]; simpl; [done|].
  destruct (keepOnNewMessage message m) eqn:Hk; simpl; [|done].
  by rewrite Hk, IH.
Qed.

Lemma handleNewMessage_again chatId message s :
  sequence (handleNewMessage chatId message (handleNewMessage chatId message s))
           chatId
  = sequence (handleNewMessage chatId message s) chatId.
Proof.
  rewrite !sequence_handleNewMessage. unfold Js.filter at 1.
  rewrite List.filter_app. fold (Js.filter (keepOnNewMessage message)).
  rewrite keep_filter_idem. simpl.
  rewrite keep_drops_same_id by done. by rewrite app_nil_r.
Qed.

Lemma ids_of_kept_NoDup message l :
  NoDup (ids_of l) → NoDup (ids_of (Js.filter (keepOnNewMessage message) l)).
Proof.
  unfold ids_of, Js.filter. induction l as [|m l IH]; simpl; [done|].
  intros Hnd. apply NoDup_cons in Hnd as [Hm Hl].
  destruct (keepOnNewMessage message m); simpl; [|by apply IH].
  apply NoDup_cons. split; [|by apply IH].
  intros Hin. apply Hm. apply list_elem_of_fmap in Hin as (x & Hx & Hxin).
  apply list_elem_of_fmap. exists x. split; [done|].
  apply list_elem_of_In. apply list_elem_of_In, List.filter_In in Hxin. tauto.
Qed.

Lemma ids_of_kept_fresh message l :
  ClientMessage.key message ∉ ids_of (Js.filter (keepOnNewMessage message) l).
Proof.
  unfold ids_of, Js.filter. intros Hin.
  apply list_elem_of_fmap in Hin as (x & Hx & Hxin).
  apply list_elem_of_In, List.filter_In in Hxin as [_ Hk].
  by rewrite keep_drops_same_id in Hk.
Qed.

End StoreMore.

(** X13. Re-delivery is harmless for the sequence: applying the same
    [new-message] event a second time leaves the conversation's local
    sequence as it was after the first. *)
Theorem handleNewMessage_redelivery
    (chatId : string) (message : ClientMessage.t) (s : ChatStore.State) :
  sequence (ChatStore.handleNewMessage chatId message
              (ChatStore.handleNewMessage chatId message s)) chatId
  = sequence (ChatStore.handleNewMessage chatId message s) chatId.
Proof. apply handleNewMessage_again. Qed.

(** X14. [handleNewMessage] keeps the ids of a conversation's sequence
    pairwise distinct. *)
Theorem handleNewMessage_ids_distinct
    (chatId : string) (message : ClientMessage.t) (s : ChatStore.State) :
  NoDup (ids_of (sequence s chatId)) →
  NoDup (ids_of (sequence (ChatStore.handleNewMessage chatId message s) chatId)).
Proof.
  intros Hnd. rewrite sequence_handleNewMessage. unfold ids_of.
  rewrite fmap_app. apply NoDup_app. split; [by apply ids_of_kept_NoDup|].
  split; [|apply NoDup_singleton].
  intros k Hk Hk'. apply list_elem_of_singleton in Hk' as ->.
  by apply ids_of_kept_fresh in Hk.
Qed.

Lemma handleNewMessage_ids_distinct_witness :
  NoDup (ids_of (sequence
                   (ChatStore.handleNewMessage Sample.chat1 ClientSample.echo
                      DeleteSample.store) Sample.chat1)).
Proof.
  apply handleNewMessage_ids_distinct.
  apply (bool_decide_unpack _). vm_compute. reflexivity.
Defined.

Section SyncFacts.
Import ChatStore StoreSync.

Lemma with_messages_same s : with_messages s (messages s) = s.
Proof. by destruct s. Qed.

(** Rewriting a conversation's sequence by a function that leaves it as it
    is leaves the whole store as it is. *)
Lemma alter_sequence_id (F : list ClientMessage.t → list ClientMessage.t)
    chatId s :
  F (sequence s chatId) = sequence s chatId →
  with_messages s (partial_alter (fmap F) chatId (messages s)) = s.
Proof.
  intros HF.
  transitivity (with_messages s (messages s)); [|apply with_messages_same].
  f_equal. apply map_eq. intros c. destruct (decide (chatId = c)) as [<-|Hne].
  - rewrite lookup_partial_alter_eq. unfold sequence in HF.
    destruct (messages s !! chatId); simpl in *; [by rewrite HF|done].
  - by rewrite lookup_partial_alter_ne.
Qed.

Lemma sequence_alter (F : list ClientMessage.t → list ClientMessage.t)
    chatId s :
  F [] = [] →
  sequence (with_messages s (partial_alter (fmap F) chatId (messages s))) chatId
  = F (sequence s chatId).
Proof.
  intros HF. unfold sequence; simpl. rewrite lookup_partial_alter_eq.
  by destruct (messages s !! chatId).
Qed.

Lemma tombstone_map_absent messageId (l : list ClientMessage.t) :
  (∀ m, m ∈ l → ClientMessage.key m ≠ Some messageId) →
  map (λ msg, if bool_decide (ClientMessage.key msg = Some messageId)
              then ClientMessage.deleted msg else msg) l = l.
Proof.
  induction l as [|m l IH]; intros Hl; simpl; [done|].
  rewrite bool_decide_eq_false_2 by (apply Hl, list_elem_of_here).
  rewrite IH; [done|]. intros x Hx. by apply Hl, list_elem_of_further.
Qed.

Lemma tombstone_map_idem messageId (l : list ClientMessage.t) :
  let f := λ msg, if bool_decide (ClientMessage.key msg = Some messageId)
                  then ClientMessage.deleted msg else msg in
  map f (map f l) = map f l.
Proof.
  intros f. rewrite List.map_map. apply List.map_ext. intros m. unfold f.
  destruct (decide (ClientMessage.key m = Some messageId)) as [Hk|Hk].
  - rewrite (bool_decide_eq_true_2 _ Hk), key_deleted.
    by rewrite (bool_decide_eq_true_2 _ Hk).
  - by rewrite !(bool_decide_eq_false_2 _ Hk).
Qed.

Lemma handleMessageDeleted_absent chatId messageId s :
  (∀ m, m ∈ sequence s chatId → ClientMessage.key m ≠ Some messageId) →
  handleMessageDeleted chatId messageId s = s.
Proof.
  intros Habs. unfold handleMessageDeleted.
  apply alter_sequence_id. by apply tombstone_map_absent.
Qed.

Lemma handleMessageDeleted_updateState chatId messageId s :
  handleMessageDeleted chatId messageId (updateState chatId messageId s)
  = updateState chatId messageId s.
Proof.
  unfold handleMessageDeleted. apply alter_sequence_id.
  unfold updateState. rewrite sequence_alter by done.
  apply tombstone_map_idem.
Qed.

Lemma replace_map_ids message (l : list ClientMessage.t) :
  ids_of (map (λ msg, if bool_decide (ClientMessage.key msg
                                      = ClientMessage.key message)
                      then message else msg) l)
  = ids_of l.
Proof.
  unfold ids_of. induction l as [|m l IH]; [done|].
  cbn [map fmap list_fmap]. f_equal; [by case_bool_decide|apply IH].
Qed.

Lemma replace_map_absent message (l : list ClientMessage.t) :
  ClientMessage.key message ∉ ids_of l →
  map (λ msg, if bool_decide (ClientMessage.key msg = ClientMessage.key message)
              then message else msg) l = l.
Proof.
  unfold ids_of. induction l as [|m l IH]; simpl; intros Hk; [done|].
  apply not_elem_of_cons in Hk as [Hm Hl].
  rewrite bool_decide_eq_false_2 by done. by rewrite IH.
Qed.

End SyncFacts.

(** X15. A [message-deleted] event for an id the local sequence does not
    hold, or for a conversation that is not loaded, leaves the store as it
    is. *)
Theorem handleMessageDeleted_unknown_id
    (chatId messageId : string) (s : ChatStore.State) :
  (∀ m, m ∈ sequence s chatId → ClientMessage.key m ≠ Some messageId) →
  StoreSync.handleMessageDeleted chatId messageId s = s.
Proof. apply handleMessageDeleted_absent. Qed.

Lemma handleMessageDeleted_unknown_id_witness :
  StoreSync.handleMessageDeleted "65a00000000000000000c002" Sample.msg1
    DeleteSample.store = DeleteSample.store.
Proof.
  apply handleMessageDeleted_unknown_id.
  intros m Hm. vm_compute in Hm. by apply not_elem_of_nil in Hm.
Defined.

(** X16. The user's own delete and the server's echo of it agree: whenever
    [deleteMessage] completes, applying the [message-deleted] event for the
    same id afterwards changes nothing. *)
Theorem delete_then_echo (chatId messageId : string) (apiOk : bool)
    (s : ChatStore.State) :
  let out := ChatStore.deleteMessage chatId messageId apiOk s in
  ChatStore.thrown out = false →
  StoreSync.handleMessageDeleted chatId messageId (ChatStore.state out)
  = ChatStore.state out.
Proof.
  intros out. subst out. unfold ChatStore.deleteMessage.
  match goal with |- context [if ?b then _ else _] => destruct b end; simpl.
  - intros _. apply handleMessageDeleted_absent.
    rewrite (sequence_alter
               (Js.filter (λ msg, negb (bool_decide
                                          (ClientMessage.key msg = Some messageId)))))
      by done.
    intros m Hm. unfold Js.filter in Hm.
    apply list_elem_of_In, List.filter_In in Hm as [_ Hm].
    by case_bool_decide.
  - destruct (Js.startsWith messageId "temp-"); simpl.
    + intros _. apply handleMessageDeleted_updateState.
    + destruct apiOk; simpl; [|discriminate].
      intros _. apply handleMessageDeleted_updateState.
Qed.

Lemma delete_then_echo_witness :
  StoreSync.handleMessageDeleted Sample.chat1 Sample.msg2
    (ChatStore.state
       (ChatStore.deleteMessage Sample.chat1 Sample.msg2 true DeleteSample.store))
  = ChatStore.state
      (ChatStore.deleteMessage Sample.chat1 Sample.msg2 true DeleteSample.store).
Proof. apply (delete_then_echo Sample.chat1 Sample.msg2 true). reflexivity. Defined.

(** X17. A [message-edited] event never changes which ids a conversation's
    sequence holds, nor their order; and when no entry carries the edited
    message's id the store is left as it is. *)
Theorem handleMessageEdited_keeps_ids
    (chatId : string) (message : ClientMessage.t) (s : ChatStore.State) :
  ids_of (sequence (StoreSync.handleMessageEdited chatId message s) chatId)
  = ids_of (sequence s chatId)
  ∧ (ClientMessage.key message ∉ ids_of (sequence s chatId) →
     StoreSync.handleMessageEdited chatId message s = s).
Proof.
  unfold StoreSync.handleMessageEdited. split.
  - rewrite sequence_alter by done. apply replace_map_ids.
  - intros Habs. apply alter_sequence_id. by apply replace_map_absent.
Qed.

Lemma handleMessageEdited_keeps_ids_witness :
  StoreSync.handleMessageEdited Sample.chat1 ClientSample.temp DeleteSample.store
  = DeleteSample.store.
Proof.
  apply handleMessageEdited_keeps_ids.
  apply (bool_decide_unpack _). vm_compute. reflexivity.
Defined.

Section TypingMore.
Import ChatStore.

Lemma elem_of_List_filter {A} (f : A → bool) (l : list A) x :
  x ∈ List.filter f l ↔ x ∈ l ∧ f x = true.
Proof. rewrite !list_elem_of_In. apply List.filter_In. Qed.

Lemma NoDup_List_filter {A} (f : A → bool) (l : list A) :
  NoDup l → NoDup (List.filter f l).
Proof.
  induction 1 as [|x l Hx Hl IH]; simpl; [constructor|].
  destruct (f x); [|done]. constructor; [|done].
  rewrite elem_of_List_filter. tauto.
Qed.

Lemma List_filter_all {A} (f : A → bool) (l : list A) :
  (∀ x, x ∈ l → f x = true) → List.filter f l = l.
Proof.
  induction l as [|x l IH]; intros Hl; simpl; [done|].
  rewrite Hl by apply list_elem_of_here.
  rewrite IH; [done|]. intros y Hy. by apply Hl, list_elem_of_further.
Qed.

Lemma elem_of_setOf l x : x ∈ Js.setOf l ↔ x ∈ l.
Proof.
  induction l as [|y l IH]; simpl; [done|].
  unfold Js.filter. rewrite !elem_of_cons, elem_of_List_filter, IH.
  rewrite negb_true_iff, bool_decide_eq_false.
  destruct (decide (x = y)); tauto.
Qed.

Lemma NoDup_setOf l : NoDup (Js.setOf l).
Proof.
  induction l as [|y l IH]; simpl; [constructor|].
  constructor; [|by apply NoDup_List_filter].
  unfold Js.filter. rewrite elem_of_List_filter.
  rewrite negb_true_iff, bool_decide_eq_false. tauto.
Qed.

Lemma setOf_NoDup l : NoDup l → Js.setOf l = l.
Proof.
  induction 1 as [|x l Hx Hl IH]; simpl; [done|].
  rewrite IH. unfold Js.filter. rewrite List_filter_all; [done|].
  intros y Hy. apply negb_true_iff, bool_decide_eq_false. by intros ->.
Qed.

Lemma typing_handleTyping chatId userName s :
  typing (handleTyping chatId userName s) chatId
  = Js.setOf (typing s chatId ++ [userName]).
Proof. unfold typing, handleTyping; simpl. by rewrite lookup_insert_eq. Qed.

Lemma typing_typingExpired chatId userName s :
  typing (typingExpired chatId userName s) chatId
  = List.filter (λ n, negb (bool_decide (n = userName))) (typing s chatId).
Proof. unfold typing, typingExpired; simpl. by rewrite lookup_insert_eq. Qed.

End TypingMore.

(** X18. After a [user-typing] event the conversation's typing list holds
    every name at most once; it holds the new name and exactly the names it
    held before. *)
Theorem handleTyping_no_duplicates
    (chatId userName : string) (s : ChatStore.State) :
  NoDup (typing (ChatStore.handleTyping chatId userName s) chatId)
  ∧ ∀ n, n ∈ typing (ChatStore.handleTyping chatId userName s) chatId
         ↔ n ∈ typing s chatId ∨ n = userName.
Proof.
  rewrite typing_handleTyping. split; [apply NoDup_setOf|].
  intros n. rewrite elem_of_setOf, elem_of_app, list_elem_of_singleton. done.
Qed.

(** X19. The three-second expiry undoes its [user-typing] event: on a
    duplicate-free list that does not yet show the user, the event followed
    by its expiry gives the list back; and in any case the expired name is
    gone while every other name shown stays. *)
Theorem typing_expiry_round_trip
    (chatId userName : string) (s : ChatStore.State) :
  let after :=
    typing (ChatStore.typingExpired chatId userName
              (ChatStore.handleTyping chatId userName s)) chatId in
  (userName ∉ after)
  ∧ (∀ n, n ≠ userName → n ∈ after ↔ n ∈ typing s chatId)
  ∧ (NoDup (typing s chatId) → userName ∉ typing s chatId →
     after = typing s chatId).
Proof.
  intros after. subst after.
  rewrite typing_typingExpired, typing_handleTyping.
  split; [|split].
  - rewrite elem_of_List_filter, negb_true_iff, bool_decide_eq_false. tauto.
  - intros n Hn.
    rewrite elem_of_List_filter, elem_of_setOf, elem_of_app,
      list_elem_of_singleton, negb_true_iff, bool_decide_eq_false.
    tauto.
  - intros Hnd Hu. rewrite setOf_NoDup.
    + rewrite List.filter_app. simpl.
      rewrite bool_decide_eq_true_2 by done. simpl. rewrite app_nil_r.
      apply List_filter_all. intros y Hy.
      apply negb_true_iff, bool_decide_eq_false. by intros ->.
    + apply NoDup_app. split; [done|]. split; [|apply NoDup_singleton].
      intros y Hy Hy'. apply list_elem_of_singleton in Hy' as ->. done.
Qed.

Lemma typing_expiry_round_trip_witness :
  let s := ChatStore.handleTyping Sample.chat1 "Alice" ClientSample.store0 in
  typing (ChatStore.typingExpired Sample.chat1 "Bob"
            (ChatStore.handleTyping Sample.chat1 "Bob" s)) Sample.chat1
  = typing s Sample.chat1.
Proof.
  intros s.
  destruct (typing_expiry_round_trip Sample.chat1 "Bob" s) as (_ & _ & Hback).
  apply Hback.
  - apply (bool_decide_unpack _). vm_compute. reflexivity.
  - apply (bool_decide_unpack _). vm_compute. reflexivity.
Defined.

Section GroupFacts.
Import GroupRoutes.
Context `{Mongoose}.

Lemma groups_well_run_same db db' :
  chats db' = chats db → groups_well_run db → groups_well_run db'.
Proof. intros Heq Hinv id chat. rewrite Heq. apply Hinv. Qed.

Lemma groups_well_run_insert db db' id chat :
  chats db' = <[id := chat]> (chats db) →
  (Chat.type chat = Chat.group → well_run chat) →
  groups_well_run db → groups_well_run db'.
Proof.
  intros Heq Hchat Hinv id' chat'. rewrite Heq.
  destruct (decide (id = id')) as [<-|Hne].
  - rewrite lookup_insert_eq. by intros [= <-].
  - rewrite lookup_insert_ne by done. apply Hinv.
Qed.

Lemma groups_well_run_delete db db' id :
  chats db' = delete id (chats db) →
  groups_well_run db → groups_well_run db'.
Proof.
  intros Heq Hinv id' chat'. rewrite Heq.
  destruct (decide (id = id')) as [<-|Hne].
  - by rewrite lookup_delete_eq.
  - rewrite lookup_delete_ne by done. apply Hinv.
Qed.

Lemma some_eq_elem (l : list string) x :
  Js.some (λ y, bool_decide (y = x)) l = true ↔ x ∈ l.
Proof.
  unfold Js.some. rewrite List.existsb_exists. split.
  - intros (y & Hy & Heq). apply bool_decide_eq_true in Heq as ->.
    by apply list_elem_of_In.
  - intros Hx. exists x. split; [by apply list_elem_of_In|].
    by apply bool_decide_eq_true.
Qed.

Lemma isAdmin_elem chat u : Chat.isAdmin chat u = true ↔ u ∈ Chat.admins chat.
Proof.
  unfold Chat.isAdmin, Js.some. rewrite List.existsb_exists. split.
  - intros (a & Ha & Ht). apply list_elem_of_In.
    rewrite orb_diag in Ht. by apply bool_decide_eq_true in Ht as <-.
  - intros Hu. exists u. split; [by apply list_elem_of_In|].
    by rewrite bool_decide_eq_true_2.
Qed.

Lemma elem_of_without (l : list string) x y :
  y ∈ Js.filter (λ p, negb (bool_decide (p = x))) l ↔ y ∈ l ∧ y ≠ x.
Proof.
  unfold Js.filter. rewrite elem_of_List_filter.
  by rewrite negb_true_iff, bool_decide_eq_false.
Qed.

(** Taking one user out of both lists of a well-run group, while someone
    else stays admin, keeps it well run. *)
Lemma well_run_without chat x :
  well_run chat →
  (∃ a, a ∈ Chat.admins chat ∧ a ≠ x) →
  well_run (Chat.with_members chat
              (Js.filter (λ p, negb (bool_decide (p = x))) (Chat.participants chat))
              (Js.filter (λ a, negb (bool_decide (a = x))) (Chat.admins chat))).
Proof.
  intros (Hnd & Hsub & Hne) (a & Ha & Hax). unfold well_run; simpl.
  split; [by apply NoDup_List_filter|]. split.
  - intros b. rewrite !elem_of_without. intros [Hb Hbx]. split; [by apply Hsub|done].
  - intros _ Hempty.
    assert (a ∈ Js.filter (λ a, negb (bool_decide (a = x))) (Chat.admins chat))
      as Hin by (by apply elem_of_without).
    rewrite Hempty in Hin. by apply not_elem_of_nil in Hin.
Qed.

Lemma well_run_leave user chat :
  well_run chat →
  remaining user (Chat.participants chat) ≠ [] →
  well_run (Chat.with_members chat
              (remaining user (Chat.participants chat))
              (admins_after user chat)).
Proof.
  intros (Hnd & Hsub & Hne) Hps. unfold well_run; simpl.
  assert (∀ a, a ∈ remaining user (Chat.admins chat) →
               a ∈ remaining user (Chat.participants chat)) as Hsub'.
  { intros a. unfold remaining. rewrite !elem_of_without.
    intros [Ha Hau]. split; [by apply Hsub|done]. }
  unfold admins_after.
  destruct (remaining user (Chat.participants chat)) as [|p ps] eqn:Hrem; [done|].
  destruct (remaining user (Chat.admins chat)) as [|a ads] eqn:Hads; simpl.
  - split; [apply NoDup_singleton|]. split; [|done].
    intros b Hb. apply list_elem_of_singleton in Hb as ->. apply list_elem_of_here.
  - split; [|split; [exact Hsub'|done]].
    rewrite <- Hads. unfold remaining. by apply NoDup_List_filter.
Qed.

Lemma leave_well_run user id newId db :
  groups_well_run db → groups_well_run (ChatRoutes.leave user id newId db).1.
Proof.
  intros Hinv.
  destruct (leave_guards user id newId db) as [->|(chat & Hc & Hl & Ht & Hp)];
    [done|].
  pose proof (leave_chats user id newId db chat Hc Hl Ht Hp) as Hch.
  case_bool_decide as Hlen.
  - by eapply groups_well_run_delete.
  - eapply groups_well_run_insert; [exact Hch| |done].
    intros _. apply well_run_leave; [by eapply Hinv|].
    intros Hnil. apply Hlen. by rewrite Hnil.
Qed.

Lemma createChat_well_run user type participants name newId newMessageId vm db :
  groups_well_run db →
  groups_well_run
    (ChatCreate.createChat user type participants name newId newMessageId vm db).1.
Proof.
  intros Hinv. unfold ChatCreate.createChat.
  destruct type as [[]|]; [| |done].
  - destruct participants as [[|other [|? ?]]|]; try done.
    unfold ChatCreate.findOrCreatePrivateChat.
    destruct (castsToObjectId _ && castsToObjectId _); [|done].
    destruct (ChatCreate.findOne _ _) as [[hid hit]|]; [done|]. simpl.
    eapply groups_well_run_insert; [reflexivity| |done]. done.
  - destruct (negb (Js.truthy name)); [done|].
    destruct participants as [[|other others]|]; try done.
    match goal with |- context [if ?b then (db, _) else _] => destruct b end;
      [done|].
    assert (well_run
              {| Chat.type := Chat.group; Chat.name := trim (default "" name);
                 Chat.participants := ChatRoutes._id user :: other :: others;
                 Chat.admins := [ChatRoutes._id user];
                 Chat.lastMessage := None |}) as Hwr.
    { unfold well_run; simpl. split; [apply NoDup_singleton|].
      split; [|done]. intros a Ha.
      apply list_elem_of_singleton in Ha as ->. apply list_elem_of_here. }
    destruct (Message.save _ _ _); simpl;
      (eapply groups_well_run_insert; [reflexivity|by intros _|done]).
Qed.

Lemma removeMember_well_run user id x removedName newMessageId db :
  groups_well_run db →
  groups_well_run (removeMember user id x removedName newMessageId db).1.
Proof.
  intros Hinv. unfold removeMember, findById.
  destruct (castsToObjectId id); [|done].
  destruct (chats db !! id) as [group|] eqn:Hl; [|done].
  case_bool_decide as Ht; simpl; [|done].
  destruct (Chat.isAdmin group (ChatRoutes._id user)) eqn:Hadm; simpl; [|done].
  case_bool_decide as Hself; [done|].
  destruct (Js.some _ (Chat.participants group)); simpl; [|done].
  assert (well_run
            (Chat.with_members group
               (Js.filter (λ p, negb (bool_decide (p = x))) (Chat.participants group))
               (Js.filter (λ a, negb (bool_decide (a = x))) (Chat.admins group))))
    as Hwr.
  { apply well_run_without; [by eapply Hinv|].
    exists (ChatRoutes._id user). split; [by apply isAdmin_elem|].
    congruence. }
  destruct (Message.save _ _ _); simpl;
    (eapply groups_well_run_insert; [reflexivity|by intros _|done]).
Qed.

Lemma makeAdmin_well_run user id x promotedName newMessageId db :
  groups_well_run db →
  groups_well_run (makeAdmin user id x promotedName newMessageId db).1.
Proof.
  intros Hinv. unfold makeAdmin, findById.
  destruct (castsToObjectId id); [|done].
  destruct (chats db !! id) as [group|] eqn:Hl; [|done].
  case_bool_decide as Ht; simpl; [|done].
  destruct (Chat.isAdmin group (ChatRoutes._id user)) eqn:Hadm; simpl; [|done].
  destruct (Js.some _ (Chat.participants group)) eqn:Hmem; simpl; [|done].
  destruct (Js.some _ (Chat.admins group)) eqn:Halready; simpl; [done|].
  apply some_eq_elem in Hmem.
  assert (x ∉ Chat.admins group) as Hfresh.
  { intros Hin. apply some_eq_elem in Hin. congruence. }
  destruct (Hinv id group Hl Ht) as (Hnd & Hsub & Hne).
  assert (well_run
            (Chat.with_members group (Chat.participants group)
               (Chat.admins group ++ [x]))) as Hwr.
  { unfold well_run; simpl. split; [|split].
    - apply NoDup_app. split; [done|]. split; [|apply NoDup_singleton].
      intros y Hy Hy'. by apply list_elem_of_singleton in Hy' as ->.
    - intros a Ha. apply elem_of_app in Ha as [Ha|Ha]; [by apply Hsub|].
      by apply list_elem_of_singleton in Ha as ->.
    - intros _ Hnil. by apply app_eq_nil in Hnil as [_ ?]. }
  destruct (Message.save _ _ _); simpl;
    (eapply groups_well_run_insert; [reflexivity|by intros _|done]).
Qed.

Lemma removeAdmin_well_run user id x db :
  groups_well_run db → groups_well_run (removeAdmin user id x db).1.
Proof.
  intros Hinv. unfold removeAdmin, findById.
  destruct (castsToObjectId id); [|done].
  destruct (chats db !! id) as [group|] eqn:Hl; [|done].
  case_bool_decide as Ht; simpl; [|done].
  destruct (Chat.isAdmin group (ChatRoutes._id user)) eqn:Hadm; simpl; [|done].
  destruct (Js.some _ (Chat.admins group)) eqn:Hisadm; simpl; [|done].
  case_bool_decide as Hlen; [done|]. simpl.
  eapply groups_well_run_insert; [reflexivity| |done]. intros _.
  destruct (Hinv id group Hl Ht) as (Hnd & Hsub & Hne).
  apply some_eq_elem in Hisadm.
  (* a duplicate-free admin list of length other than one that holds [x]
     holds someone else as well *)
  assert (∃ a, a ∈ Chat.admins group ∧ a ≠ x) as (a & Ha & Hax).
  { destruct (Chat.admins group) as [|a1 [|a2 ads]] eqn:Hads; simpl in *.
    - by apply not_elem_of_nil in Hisadm.
    - done.
    - apply NoDup_cons in Hnd as [Hnot _].
      destruct (decide (a1 = x)) as [->|Hne1].
      + exists a2. split; [apply list_elem_of_further, list_elem_of_here|].
        intros ->. apply Hnot, list_elem_of_here.
      + exists a1. split; [apply list_elem_of_here|done]. }
  unfold well_run; simpl. split; [by apply NoDup_List_filter|]. split.
  - intros b Hb. apply elem_of_without in Hb as [Hb _]. by apply Hsub.
  - intros _ Hnil.
    assert (a ∈ Js.filter (λ a, negb (bool_decide (a = x))) (Chat.admins group))
      as Hin by (by apply elem_of_without).
    rewrite Hnil in Hin. by apply not_elem_of_nil in Hin.
Qed.

Lemma serve_well_run db r : groups_well_run db → groups_well_run (serve db r).
Proof.
  destruct r; simpl.
  - apply createChat_well_run.
  - apply leave_well_run.
  - apply removeMember_well_run.
  - apply makeAdmin_well_run.
  - apply removeAdmin_well_run.
Qed.

End GroupFacts.

(** X20. Group administration keeps every group well run: in any store
    reached from the empty one by requests to create a chat, leave a group,
    remove a member, promote a member or demote an admin, every group lists
    no admin twice, has only participants as admins, and has an admin as
    long as it has a participant. *)
Theorem group_routes_keep_groups_well_run `{Mongoose}
    (requests : list GroupRoutes.Request) :
  groups_well_run (foldl GroupRoutes.serve emptyDb requests).
Proof.
  assert (groups_well_run emptyDb) as Hstart.
  { intros id chat. unfold emptyDb; simpl. by rewrite lookup_empty. }
  revert Hstart. generalize emptyDb.
  induction requests as [|r requests IH]; intros db Hdb; simpl; [done|].
  apply IH. by apply serve_well_run.
Qed.

Lemma another_admin (ads : list string) (x : string) :
  NoDup ads → x ∈ ads → length ads ≠ 1 → ∃ a, a ∈ ads ∧ a ≠ x.
Proof.
  intros Hnd Hx Hlen. destruct ads as [|a1 [|a2 ads]]; simpl in *.
  - by apply not_elem_of_nil in Hx.
  - done.
  - apply NoDup_cons in Hnd as [Hnot _].
    destruct (decide (a1 = x)) as [->|Hne1].
    + exists a2. split; [apply list_elem_of_further, list_elem_of_here|].
      intros ->. apply Hnot, list_elem_of_here.
    + exists a1. split; [apply list_elem_of_here|done].
Qed.

(** X21. The last admin cannot be demoted, and a demotion that goes through
    leaves an admin: on a group that lists no admin twice,
    [DELETE /:id/admins/:userId] either refuses and changes nothing, or
    removes exactly that user from the admins, leaving the list non-empty
    and the participants as they were. *)
Theorem removeAdmin_leaves_an_admin `{Mongoose}
    (user : ChatRoutes.User) (id userId : string) (db : Db) (group : Chat.t) :
  castsToObjectId id = true →
  chats db !! id = Some group →
  NoDup (Chat.admins group) →
  let out := GroupRoutes.removeAdmin user id userId db in
  (GroupRoutes.success out.2 = false ∧ out.1 = db)
  ∨ (GroupRoutes.success out.2 = true
     ∧ ∃ group', chats out.1 !! id = Some group'
         ∧ Chat.participants group' = Chat.participants group
         ∧ Chat.admins group' ≠ []
         ∧ ∀ a, a ∈ Chat.admins group' ↔ a ∈ Chat.admins group ∧ a ≠ userId).
Proof.
  intros Hc Hl Hnd out. subst out.
  unfold GroupRoutes.removeAdmin. rewrite findById_casts, Hl by done.
  case_bool_decide as Ht; simpl; [|by left].
  destruct (Chat.isAdmin group (ChatRoutes._id user)); simpl; [|by left].
  destruct (Js.some _ (Chat.admins group)) eqn:Hisadm; simpl; [|by left].
  case_bool_decide as Hlen; [by left|]. simpl. right.
  split; [done|]. eexists. rewrite lookup_insert_eq. split; [done|].
  simpl. split; [done|]. split; [|intros a; apply elem_of_without].
  apply some_eq_elem in Hisadm.
  destruct (another_admin _ _ Hnd Hisadm Hlen) as (a & Ha & Hax).
  intros Hnil.
  assert (a ∈ Js.filter (λ a, negb (bool_decide (a = userId))) (Chat.admins group))
    as Hin by (by apply elem_of_without).
  rewrite Hnil in Hin. by apply not_elem_of_nil in Hin.
Qed.

Lemma removeAdmin_leaves_an_admin_witness :
  let g := {| Chat.type := Chat.group; Chat.name := "team";
              Chat.participants := [Sample.alice; Sample.bob];
              Chat.admins := [Sample.alice; Sample.bob];
              Chat.lastMessage := None |} in
  let db := {| chats := {[Sample.chat1 := g]}; messages := ∅ |} in
  let me := {| ChatRoutes._id := Sample.alice; ChatRoutes.userName := "Alice" |} in
  (Chat.admins <$>
     chats (GroupRoutes.removeAdmin (H := Driver.hex) me Sample.chat1
              Sample.alice db).1 !! Sample.chat1) = Some [Sample.bob]
  ∧ GroupRoutes.removeAdmin (H := Driver.hex) me Sample.chat1 Sample.alice
      Sample.db1
    = (Sample.db1, GroupRoutes.appError "Cannot remove the last admin" 400).
Proof.
  intros g db me.
  destruct (removeAdmin_leaves_an_admin (H := Driver.hex) me Sample.chat1
              Sample.alice db g) as [[Hno _]|_];
    [reflexivity|reflexivity|apply (bool_decide_unpack _); vm_compute; reflexivity
    |discriminate Hno|].
  split; reflexivity.
Defined.

Section PrivateChatFacts.
Import ChatCreate.
Context `{Mongoose}.




Lemma findOne_insert_first {A} (P : A → bool) (m : gmap string A) k v :
  findOne P m = None → P v = true → findOne P (<[k := v]> m) = Some (k, v).
Proof.
  unfold findOne. intros Hnone Hv.
  apply head_None, map_to_list_empty_iff in Hnone.
  rewrite map_filter_insert_True by done.
  by rewrite Hnone, insert_empty, map_to_list_singleton.
Qed.

Lemma new_pair_matches u1 u2 :
  isPrivatePair u1 u2
    {| Chat.type := Chat.private; Chat.name := "";
       Chat.participants := [u1; u2]; Chat.admins := [];
       Chat.lastMessage := None |} = true.
Proof.
  unfold isPrivatePair; simpl.
  rewrite (bool_decide_eq_true_2 (u1 ∈ [u1; u2])) by apply list_elem_of_here.
  rewrite (bool_decide_eq_true_2 (u2 ∈ [u1; u2]))
    by apply list_elem_of_further, list_elem_of_here.
  done.
Qed.

Lemma findOrCreate_again u1 u2 newId newId' db :
  findOrCreatePrivateChat u1 u2 newId'
    (findOrCreatePrivateChat u1 u2 newId db).1
  = ((findOrCreatePrivateChat u1 u2 newId db).1,
     (findOrCreatePrivateChat u1 u2 newId db).2).
Proof.
  unfold findOrCreatePrivateChat.
  destruct (castsToObjectId u1 && castsToObjectId u2) eqn:Hc; simpl; [|done].
  destruct (findOne (isPrivatePair u1 u2) (chats db)) as [hit|] eqn:Hf; simpl.
  - by rewrite Hf.
  - by rewrite (findOne_insert_first _ _ _ _ Hf (new_pair_matches u1 u2)).
Qed.



End PrivateChatFacts.



Section MessageRouteFacts.
Import MessageRoutes.
Context `{Mongoose}.

Lemma trySave_save id m ms vm :
  match trySave id m ms vm with
  | inl stored => Message.save id m ms = Some stored
  | inr _ => Message.save id m ms = None
  end.
Proof.
  unfold trySave, Message.save.
  by destruct (Message.validators m), (Message.preSave m).
Qed.

Lemma trySave_readNow_clock id m u now now' ms vm vm' :
  (∃ r, trySave id (readNow m u now) ms vm = inr r) →
  ∃ r', trySave id (readNow m u now') ms vm' = inr r'.
Proof.
  unfold trySave.
  assert (Message.validators (readNow m u now')
          = Message.validators (readNow m u now)) as -> by done.
  assert (Message.preSave (readNow m u now')
          = Message.preSave (readNow m u now)) as -> by done.
  destruct (Message.validators _), (Message.preSave _); simpl;
    intros [r Hr]; try done; by eexists.
Qed.

Lemma alreadyRead_readNow m u now : alreadyRead (readNow m u now) u = true.
Proof.
  unfold alreadyRead, readNow, Js.some; simpl.
  rewrite existsb_app. simpl. rewrite bool_decide_eq_true_2 by done.
  by rewrite orb_true_r.
Qed.

Lemma alreadyRead_pushSeen m u now : alreadyRead (pushSeen m u now) u = true.
Proof.
  unfold alreadyRead, pushSeen, Js.some; simpl.
  rewrite existsb_app. simpl. rewrite bool_decide_eq_true_2 by done.
  by rewrite orb_true_r.
Qed.

Lemma markRead_again user id now now' vm vm' db :
  (markRead user id now' vm' (markRead user id now vm db).1).1
  = (markRead user id now vm db).1.
Proof.
  unfold markRead at 2 3. unfold findById.
  destruct (castsToObjectId id) eqn:Hc; simpl.
  2: { unfold markRead, findById. by rewrite Hc. }
  destruct (messages db !! id) as [m|] eqn:Hm; simpl.
  2: { unfold markRead, findById. by rewrite Hc, Hm. }
  destruct (alreadyRead m (ChatRoutes._id user)) eqn:Hread; simpl.
  { unfold markRead, findById. by rewrite Hc, Hm, Hread. }
  destruct (trySave id (readNow m (ChatRoutes._id user) now) (messages db) vm)
    as [stored|refused] eqn:Hsave; simpl.
  - unfold trySave in Hsave.
    destruct (negb (Message.validators _)); [done|].
    destruct (negb (Message.preSave _)); [done|].
    injection Hsave as <-.
    unfold markRead, findById. rewrite Hc. simpl. rewrite lookup_insert_eq.
    by rewrite alreadyRead_readNow.
  - unfold markRead, findById. rewrite Hc, Hm, Hread.
    destruct (trySave_readNow_clock id m (ChatRoutes._id user) now now'
                (messages db) vm vm') as [r' ->]; [by eexists|done].
Qed.

Lemma markAllRead_lookup user chatId now db chat id :
  castsToObjectId chatId = true →
  chats db !! chatId = Some chat →
  Chat.isParticipant chat (ChatRoutes._id user) = true →
  messages (markAllRead user chatId now db).1 !! id
  = (λ m, if unreadBy chatId (ChatRoutes._id user) m
          then pushSeen m (ChatRoutes._id user) now else m) <$> messages db !! id.
Proof.
  intros Hc Hl Hp. unfold markAllRead.
  rewrite findById_casts, Hl, Hp by done. simpl.
  rewrite map_lookup_imap. by destruct (messages db !! id).
Qed.

Lemma markAllRead_guards user chatId db :
  (∀ now, (markAllRead user chatId now db).1 = db)
  ∨ ∃ chat, castsToObjectId chatId = true ∧ chats db !! chatId = Some chat
            ∧ Chat.isParticipant chat (ChatRoutes._id user) = true.
Proof.
  unfold markAllRead, findById.
  destruct (castsToObjectId chatId); [|by left].
  destruct (chats db !! chatId) as [chat|]; [|by left].
  destruct (Chat.isParticipant chat (ChatRoutes._id user)) eqn:Hp; [|by left].
  right. by exists chat.
Qed.

Lemma markAllRead_chats user chatId now db :
  chats (markAllRead user chatId now db).1 = chats db.
Proof.
  unfold markAllRead, findById.
  destruct (castsToObjectId chatId); [|done].
  destruct (chats db !! chatId) as [chat|]; [|done].
  by destruct (Chat.isParticipant chat (ChatRoutes._id user)).
Qed.

Lemma unreadBy_pushSeen chatId u m now :
  unreadBy chatId u (pushSeen m u now) = false.
Proof.
  unfold unreadBy. rewrite alreadyRead_pushSeen. simpl. apply andb_false_r.
Qed.

Lemma db_eq (db db' : Db) :
  chats db = chats db' → messages db = messages db' → db = db'.
Proof. destruct db, db'; simpl. by intros -> ->. Qed.

Lemma markAllRead_again user chatId now now' db :
  (markAllRead user chatId now' (markAllRead user chatId now db).1).1
  = (markAllRead user chatId now db).1.
Proof.
  destruct (markAllRead_guards user chatId db)
    as [Heq|(chat & Hc & Hl & Hp)].
  { by rewrite !Heq. }
  apply db_eq; [apply markAllRead_chats|].
  apply map_eq. intros id.
  rewrite (markAllRead_lookup user chatId now' _ chat id Hc); [|by rewrite markAllRead_chats|done].
  rewrite (markAllRead_lookup user chatId now db chat id Hc Hl Hp).
  destruct (messages db !! id) as [m|]; simpl; [|done]. f_equal.
  destruct (unreadBy chatId (ChatRoutes._id user) m) eqn:Hu.
  - by rewrite unreadBy_pushSeen.
  - by rewrite Hu.
Qed.

End MessageRouteFacts.

(** X23. On text messages the two ways to edit store the same thing: for a
    non-empty new content, [PUT /api/messages/:id] and the socket's
    [edit-message] leave the same store whenever the message that the id
    casts to, if there is one, is a text message.  The route, unlike the
    socket handler, never changes a message of another type. *)
Theorem rest_and_socket_edit_agree `{Mongoose}
    (user : ChatRoutes.User) (id content : string) (now : Z)
    (validationMessage : string) (db : Db) :
  Js.truthy (Some content) = true →
  ((∀ m, messages db !! objectId id = Some m → Message.type m = Message.text) →
   (MessageRoutes.editMessage user id (Some content) now validationMessage db).1
   = (Gateway.edit_message (ChatRoutes._id user) id content now db).1)
  ∧ (∀ m, messages db !! objectId id = Some m → Message.type m ≠ Message.text →
     (MessageRoutes.editMessage user id (Some content) now validationMessage db).1
     = db).
Proof.
  intros Hcontent.
  unfold MessageRoutes.editMessage, Gateway.edit_message, findByIdCast.
  rewrite Hcontent. simpl. split.
  - intros Htext. destruct (castsToObjectId id); [|done].
    destruct (messages db !! objectId id) as [m|]; [|done].
    case_bool_decide as Hs; simpl; [|done].
    rewrite (bool_decide_eq_true_2 _ (Htext m eq_refl)). simpl.
    pose proof (trySave_save (objectId id) (Message.edited m content now)
                  (messages db) validationMessage) as Hsave.
    destruct (MessageRoutes.trySave _ _ _ _); by rewrite Hsave.
  - intros m Hm Htype. destruct (castsToObjectId id); [|done].
    rewrite Hm. case_bool_decide; simpl; [|done].
    by rewrite (bool_decide_eq_false_2 _ Htype).
Qed.

Lemma rest_and_socket_edit_agree_witness :
  (MessageRoutes.editMessage (H := Driver.hex)
     {| ChatRoutes._id := Sample.alice; ChatRoutes.userName := "Alice" |}
     Sample.msg1 (Some "hello again") 1700000000000 "invalid" Sample.db1).1
  = (Gateway.edit_message (H := Driver.hex) Sample.alice Sample.msg1
       "hello again" 1700000000000 Sample.db1).1.
Proof.
  destruct (rest_and_socket_edit_agree (H := Driver.hex)
              {| ChatRoutes._id := Sample.alice; ChatRoutes.userName := "Alice" |}
              Sample.msg1 "hello again" 1700000000000 "invalid" Sample.db1)
    as [Hagree _]; [reflexivity|].
  apply Hagree. intros m Hm. vm_compute in Hm. by injection Hm as <-.
Defined.

(** X24. [POST /api/messages/:id/read] records a reader once: a second
    request by the same user for the same message, at whatever time, leaves
    the store as the first left it. *)
Theorem markRead_idempotent `{Mongoose}
    (user : ChatRoutes.User) (id : string) (now now' : Z)
    (validationMessage validationMessage' : string) (db : Db) :
  (MessageRoutes.markRead user id now' validationMessage'
     (MessageRoutes.markRead user id now validationMessage db).1).1
  = (MessageRoutes.markRead user id now validationMessage db).1.
Proof. apply markRead_again. Qed.

(** X25. [POST /api/messages/read-all/:chatId] is idempotent as well: a
    second request by the same user for the same conversation, at whatever
    time, leaves the store as the first left it. *)
Theorem markAllRead_idempotent `{Mongoose}
    (user : ChatRoutes.User) (chatId : string) (now now' : Z) (db : Db) :
  (MessageRoutes.markAllRead user chatId now'
     (MessageRoutes.markAllRead user chatId now db).1).1
  = (MessageRoutes.markAllRead user chatId now db).1.
Proof. apply markAllRead_again. Qed.

(** X26. After a participant's read-all, every message of the conversation
    that someone else sent has the user among its readers, and those the
    user had not read before are [seen]; the user's own messages and the
    messages of other conversations are as they were, and so are the
    conversations. *)
Theorem markAllRead_reads_the_conversation `{Mongoose}
    (user : ChatRoutes.User) (chatId : string) (now : Z) (db : Db) (chat : Chat.t) :
  castsToObjectId chatId = true →
  chats db !! chatId = Some chat →
  Chat.isParticipant chat (ChatRoutes._id user) = true →
  let db' := (MessageRoutes.markAllRead user chatId now db).1 in
  chats db' = chats db
  ∧ ∀ id m, messages db !! id = Some m →
      (Message.chat m = chatId → Message.sender m ≠ ChatRoutes._id user →
       ∃ m', messages db' !! id = Some m'
             ∧ MessageRoutes.alreadyRead m' (ChatRoutes._id user) = true
             ∧ (MessageRoutes.alreadyRead m (ChatRoutes._id user) = false →
                Message.status m' = Message.seen)
             ∧ Message.content m' = Message.content m)
      ∧ (Message.chat m ≠ chatId ∨ Message.sender m = ChatRoutes._id user →
         messages db' !! id = Some m).
Proof.
  intros Hc Hl Hp db'. subst db'. split; [apply markAllRead_chats|].
  intros id m Hm.
  rewrite (markAllRead_lookup user chatId now db chat id Hc Hl Hp), Hm. simpl.
  unfold MessageRoutes.unreadBy. split.
  - intros Hchat Hs.
    rewrite (bool_decide_eq_true_2 _ Hchat), (bool_decide_eq_false_2 _ Hs). simpl.
    destruct (MessageRoutes.alreadyRead m (ChatRoutes._id user)) eqn:Hread; simpl.
    + exists m. by repeat split.
    + eexists. split; [done|]. split; [apply alreadyRead_pushSeen|done].
  - intros [Hchat|Hs].
    + by rewrite (bool_decide_eq_false_2 _ Hchat).
    + rewrite (bool_decide_eq_true_2 _ Hs). simpl. by rewrite andb_false_r.
Qed.

Lemma markAllRead_reads_the_conversation_witness :
  ∃ m', messages (MessageRoutes.markAllRead (H := Driver.hex)
                    {| ChatRoutes._id := Sample.bob; ChatRoutes.userName := "Bob" |}
                    Sample.chat1 1700000000000 Sample.db1).1 !! Sample.msg1
        = Some m'
        ∧ MessageRoutes.alreadyRead m' Sample.bob = true
        ∧ Message.status m' = Message.seen.
Proof.
  destruct (markAllRead_reads_the_conversation (H := Driver.hex)
              {| ChatRoutes._id := Sample.bob; ChatRoutes.userName := "Bob" |}
              Sample.chat1 1700000000000 Sample.db1 Sample.group1)
    as [_ Hread]; [reflexivity..|].
  destruct (Hread Sample.msg1 Sample.hello) as [Hseen _]; [reflexivity|].
  destruct Hseen as (m' & Hm' & Hr & Hs & _);
    [reflexivity|vm_compute; discriminate|].
  exists m'. split; [exact Hm'|]. split; [exact Hr|]. by apply Hs.
Defined.
